(** * aurora-dev: the build-time scripts and utilities, embedded in Rocq

    The repository is a static portfolio site with two batch scripts
    ([scripts/fetch-github.mts], the Collector, and
    [scripts/summarize-ai.mts], the Digest Builder), a project filter
    module and a fallback Markdown renderer. This development embeds the
    functions of those files as Rocq functions and proves properties of
    them.

    Conventions of the embedding.
    - A JavaScript string is a [string]: the sequence of its UTF-8 bytes.
      Splitting, replacing and prefix tests on ASCII separators commute
      with that encoding.
    - A JavaScript number is a [JsNum]: an integer or [NaN]. Fractions
      and infinities do not occur in the data the scripts compute with
      (counts, millisecond timestamps, header values). The number of
      highlights asked for on the command line is a [JsReal]: NaN, an
      infinity or any finite value. Absent values
      ([null], [undefined], a missing property) are [None] of an option
      type where the code treats them alike.
    - Built-ins whose result depends on the engine's tables
      ([Date] parsing, [Number] of a string, [toLowerCase],
      [localeCompare]) are section variables of the functions that call
      them; every theorem holds for every choice of them.
    - Effects (network calls, console output, file writes, exceptions)
      are explicit: a computation yields the trace of its effects and a
      completion, normal or thrown. *)

From Stdlib Require Import String Ascii List ZArith Lia Bool Arith.
From Stdlib Require Import Sorting.Sorted Sorting.Permutation.
From Stdlib Require Import Numbers.DecimalString.
From Stdlib Require Import QArith Qround.
Import ListNotations.
Open Scope string_scope.
Open Scope Z_scope.
Set Warnings "-register-all".

(** ** JavaScript built-ins used by the sources *)

Module Js.

(** Numbers: the integers and NaN. *)
Inductive JsNum : Type :=
| NaN : JsNum
| Int (z : Z) : JsNum.

(** [a - b] *)
Definition sub (a b : JsNum) : JsNum :=
  match a, b with
  | Int x, Int y => Int (x - y)
  | _, _ => NaN
  end.

(** [a * b] *)
Definition mul (a b : JsNum) : JsNum :=
  match a, b with
  | Int x, Int y => Int (x * y)
  | _, _ => NaN
  end.

(** [a <= b]: false as soon as one side is NaN. *)
Definition le (a b : JsNum) : bool :=
  match a, b with
  | Int x, Int y => x <=? y
  | _, _ => false
  end.

(** [a < b] *)
Definition lt (a b : JsNum) : bool :=
  match a, b with
  | Int x, Int y => x <? y
  | _, _ => false
  end.

(** [a >= b] *)
Definition ge (a b : JsNum) : bool := le b a.

(** [a !== b] on numbers: NaN differs from everything, itself included. *)
Definition strict_ne (a b : JsNum) : bool :=
  match a, b with
  | Int x, Int y => negb (x =? y)
  | _, _ => true
  end.

(** [Math.max(a, b)] *)
Definition max (a b : JsNum) : JsNum :=
  match a, b with
  | Int x, Int y => Int (Z.max x y)
  | _, _ => NaN
  end.

(** [Math.min(a, b)] *)
Definition min (a b : JsNum) : JsNum :=
  match a, b with
  | Int x, Int y => Int (Z.min x y)
  | _, _ => NaN
  end.

(** [String(n)], as a template literal renders a number: plain decimal
    digits, which is what JavaScript prints for an integer below 10^21
    in magnitude. *)
Definition string_of_Z (z : Z) : string :=
  NilZero.string_of_int (Z.to_int z).

Definition string_of_num (n : JsNum) : string :=
  match n with
  | NaN => "NaN"
  | Int z => string_of_Z z
  end.

(** ToIntegerOrInfinity on our numbers: NaN becomes 0. *)
Definition to_integer (n : JsNum) : Z :=
  match n with
  | NaN => 0
  | Int z => z
  end.

(** The relative index of [Array.prototype.slice] and
    [String.prototype.slice]: a negative index counts from the end, and
    the result is clamped to [0, len]. *)
Definition rel_index (len : nat) (i : Z) : nat :=
  if i <? 0 then Z.to_nat (Z.max (Z.of_nat len + i) 0)
  else Nat.min (Z.to_nat i) len.

(** [arr.slice(start, end)] *)
Definition slice {A : Type} (l : list A) (start stop : JsNum) : list A :=
  let k := rel_index (List.length l) (to_integer start) in
  let e := rel_index (List.length l) (to_integer stop) in
  firstn (e - k) (skipn k l).

(** [arr.slice(start)] *)
Definition slice_from {A : Type} (l : list A) (start : JsNum) : list A :=
  skipn (rel_index (List.length l) (to_integer start)) l.

(** [arr.find(p)] *)
Definition find {A : Type} (p : A -> bool) (l : list A) : option A :=
  List.find p l.

(** A number as [Number(s)] yields it for an argument of the command
    line: NaN, an infinity, or a finite value, which may have a
    fraction. A finite double is a rational number, and what the
    sources do with such a number (comparing it with a count,
    [Math.max] with 3, the truncation of [slice]) is exact on its
    value. *)
Inductive JsReal : Type :=
| RealNaN : JsReal
| Infinity (negative : bool) : JsReal
| Finite (q : Q) : JsReal.

(** [n >= x] for the length [n] of an array *)
Definition count_ge (n : nat) (x : JsReal) : bool :=
  match x with
  | RealNaN => false
  | Infinity negative => negative
  | Finite q => Qle_bool q (inject_Z (Z.of_nat n))
  end.

(** [n < x] for the length [n] of an array *)
Definition count_lt (n : nat) (x : JsReal) : bool :=
  match x with
  | RealNaN => false
  | Infinity negative => negb negative
  | Finite q => negb (Qle_bool q (inject_Z (Z.of_nat n)))
  end.

(** [Math.max(a, b)] *)
Definition real_max (a b : JsReal) : JsReal :=
  match a, b with
  | RealNaN, _ | _, RealNaN => RealNaN
  | Infinity false, _ | _, Infinity false => Infinity false
  | Infinity true, x | x, Infinity true => x
  | Finite p, Finite q => Finite (if Qle_bool p q then q else p)
  end.

(** ToIntegerOrInfinity on a finite value: the fraction is dropped,
    toward zero. *)
Definition truncate (q : Q) : Z :=
  if Qle_bool 0 q then Qfloor q else Qceiling q.

(** [arr.slice(0, x)]: NaN counts as 0, minus infinity as the start of
    the array and plus infinity as its end. *)
Definition slice_to {A : Type} (l : list A) (x : JsReal) : list A :=
  match x with
  | RealNaN => []
  | Infinity true => []
  | Infinity false => l
  | Finite q => slice l (Int 0) (Int (truncate q))
  end.

(** The line feed and the double quote, as one-character strings. *)
Definition nl : string := String "010" EmptyString.
Definition dq : string := String "034" EmptyString.

(** [arr.join(sep)] on an array of strings *)
Definition join (sep : string) (l : list string) : string :=
  String.concat sep l.

(** [s.startsWith(p)] *)
Definition startsWith (s p : string) : bool := String.prefix p s.

(** [s.includes(q)] *)
Fixpoint includes (s q : string) : bool :=
  String.prefix q s ||
  match s with
  | EmptyString => false
  | String _ s' => includes s' q
  end.

(** [s.slice(0, n)] for a non-negative literal [n] *)
Definition str_take (n : nat) (s : string) : string :=
  String.substring 0 n s.

(** [s.replace(/c/g, r)]: every occurrence of the character [c]
    replaced by the string [r]. *)
Fixpoint replaceAll (c : ascii) (r : string) (s : string) : string :=
  match s with
  | EmptyString => EmptyString
  | String a s' =>
      if Ascii.eqb a c then r ++ replaceAll c r s'
      else String a (replaceAll c r s')
  end.

(** [s.split(sep)] for a non-empty separator: the pieces between the
    leftmost non-overlapping occurrences of [sep]. [skip] counts the
    characters of a separator still to be passed over, [acc] holds the
    piece being read, reversed. *)
Fixpoint rev_string (acc : list ascii) (s : string) : string :=
  match acc with
  | [] => s
  | a :: acc' => rev_string acc' (String a s)
  end.

Fixpoint split_go (sep : string) (s : string) (skip : nat)
    (acc : list ascii) : list string :=
  match s with
  | EmptyString => [rev_string acc EmptyString]
  | String a s' =>
      match skip with
      | S k => split_go sep s' k acc
      | O =>
          if String.prefix sep s
          then rev_string acc EmptyString
               :: split_go sep s' (String.length sep - 1) []
          else split_go sep s' O (a :: acc)
      end
  end.

Definition split (s sep : string) : list string := split_go sep s O [].

(** White space and line terminators of ECMAScript, as UTF-8 byte
    sequences: TAB, LF, VT, FF, CR, SP, NBSP, U+1680, U+2000..U+200A,
    U+2028, U+2029, U+202F, U+205F, U+3000, U+FEFF. *)
Definition bytes (l : list nat) : string :=
  string_of_list_ascii (map ascii_of_nat l).

Definition whitespace : list string :=
  map bytes
    [ [9]; [10]; [11]; [12]; [13]; [32]; [194; 160]; [225; 154; 128];
      [226; 128; 128]; [226; 128; 129]; [226; 128; 130]; [226; 128; 131];
      [226; 128; 132]; [226; 128; 133]; [226; 128; 134]; [226; 128; 135];
      [226; 128; 136]; [226; 128; 137]; [226; 128; 138]; [226; 128; 168];
      [226; 128; 169]; [226; 128; 175]; [226; 129; 159]; [227; 128; 128];
      [239; 187; 191] ]%nat.

(** [strip_prefix w s] removes [w] from the front of [s]. *)
Fixpoint strip_prefix (w s : string) : option string :=
  match w with
  | EmptyString => Some s
  | String a w' =>
      match s with
      | EmptyString => None
      | String b s' => if Ascii.eqb a b then strip_prefix w' s' else None
      end
  end.

Fixpoint strip_first (ws : list string) (s : string) : option string :=
  match ws with
  | [] => None
  | w :: ws' =>
      match strip_prefix w s with
      | Some s' => Some s'
      | None => strip_first ws' s
      end
  end.

Fixpoint trim_go (ws : list string) (fuel : nat) (s : string) : string :=
  match fuel with
  | O => s
  | S n =>
      match strip_first ws s with
      | Some s' => trim_go ws n s'
      | None => s
      end
  end.

Definition reverse (s : string) : string :=
  rev_string (list_ascii_of_string s) EmptyString.

Definition trimStart (s : string) : string :=
  trim_go whitespace (String.length s) s.

Definition trimEnd (s : string) : string :=
  reverse (trim_go (map reverse whitespace) (String.length s) (reverse s)).

(** [s.trim()] *)
Definition trim (s : string) : string := trimEnd (trimStart s).

(** Truthiness of a string: the empty string is falsy. *)
Definition truthy (s : string) : bool :=
  match s with
  | EmptyString => false
  | _ => true
  end.

(** [a || b] where [a] may be null, undefined or a string and [b] is a
    string. *)
Definition or_else (a : option string) (b : string) : string :=
  match a with
  | Some s => if truthy s then s else b
  | None => b
  end.

(** [arr.sort(cmp)]: a stable sort. The comparator's result [v] places
    [a] after [b] exactly when [v > 0]; a NaN result counts as 0. For a
    consistent comparator the result of a stable sort is determined,
    and insertion from the right computes it; for an inconsistent one
    the engine is free, and this is one allowed result. *)
Definition after (v : JsNum) : bool := lt (Int 0) v.

Fixpoint sort_insert {A : Type} (cmp : A -> A -> JsNum) (x : A)
    (l : list A) : list A :=
  match l with
  | [] => [x]
  | y :: l' =>
      if after (cmp x y) then y :: sort_insert cmp x l' else x :: l
  end.

Fixpoint sort {A : Type} (cmp : A -> A -> JsNum) (l : list A) : list A :=
  match l with
  | [] => []
  | x :: l' => sort_insert cmp x (sort cmp l')
  end.

(** [arr.sort()] on strings: ascending, character by character. *)
Definition default_compare (a b : string) : JsNum :=
  match String.compare a b with
  | Lt => Int (-1)
  | Eq => Int 0
  | Gt => Int 1
  end.

Definition sort_strings (l : list string) : list string :=
  sort default_compare l.

(** JSON values, as [JSON.parse] yields them ([any] in the sources). An
    object is the list of its properties, each key once. *)
Inductive JsVal : Type :=
| Undefined : JsVal
| Null : JsVal
| VBool (b : bool) : JsVal
| VNum (n : JsNum) : JsVal
| VStr (s : string) : JsVal
| VArr (items : list JsVal) : JsVal
| VObj (props : list (string * JsVal)) : JsVal.

Fixpoint lookup (k : string) (props : list (string * JsVal)) : JsVal :=
  match props with
  | [] => Undefined
  | (k', v) :: rest => if String.eqb k k' then v else lookup k rest
  end.

(** [v?.k] for a property name that no primitive or array carries. *)
Definition get (v : JsVal) (k : string) : JsVal :=
  match v with
  | VObj props => lookup k props
  | _ => Undefined
  end.

(** [v?.[0]] *)
Definition get0 (v : JsVal) : JsVal :=
  match v with
  | VArr (x :: _) => x
  | VStr (String a _) => VStr (String a EmptyString)
  | VObj props => lookup "0" props
  | _ => Undefined
  end.

(** Truthiness of a value. *)
Definition truthy_val (v : JsVal) : bool :=
  match v with
  | Undefined | Null => false
  | VBool b => b
  | VNum NaN => false
  | VNum (Int z) => negb (z =? 0)
  | VStr s => truthy s
  | VArr _ | VObj _ => true
  end.

(** [a ?? b] *)
Definition nullish (a b : JsVal) : JsVal :=
  match a with
  | Undefined | Null => b
  | _ => a
  end.

(** [a || b] *)
Definition or_val (a b : JsVal) : JsVal :=
  if truthy_val a then a else b.

(** [String(v)], as a template literal renders a value. Inside an array,
    null and undefined render as the empty string. *)
Fixpoint to_string (v : JsVal) : string :=
  match v with
  | Undefined => "undefined"
  | Null => "null"
  | VBool true => "true"
  | VBool false => "false"
  | VNum n => string_of_num n
  | VStr s => s
  | VArr items =>
      String.concat ","
        ((fix each (l : list JsVal) : list string :=
            match l with
            | [] => []
            | Undefined :: l' => "" :: each l'
            | Null :: l' => "" :: each l'
            | x :: l' => to_string x :: each l'
            end) items)
  | VObj _ => "[object Object]"
  end.

(** The serializer of [URLSearchParams] for one value
    (application/x-www-form-urlencoded): letters, digits and [*-._] are
    kept, a space becomes [+], every other byte becomes [%XX]. *)
Definition hex_digit (n : nat) : ascii :=
  ascii_of_nat (if (n <? 10)%nat then 48 + n else 55 + n).

Definition form_byte (a : ascii) : string :=
  let n := nat_of_ascii a in
  if ((48 <=? n) && (n <=? 57) || (65 <=? n) && (n <=? 90)
      || (97 <=? n) && (n <=? 122)
      || (n =? 42) || (n =? 45) || (n =? 46) || (n =? 95))%nat
  then String a EmptyString
  else if (n =? 32)%nat then "+"
  else String "%" (String (hex_digit (n / 16))
                     (String (hex_digit (n mod 16)) EmptyString)).

Fixpoint form_encode (s : string) : string :=
  match s with
  | EmptyString => EmptyString
  | String a s' => form_byte a ++ form_encode s'
  end.

(** Decimal digits of a natural number, padded with zeros on the left to
    [width] characters ([String(n).padStart(width, '0')]). *)
Fixpoint zeros (n : nat) : string :=
  match n with
  | O => EmptyString
  | S k => String "0" (zeros k)
  end.

Definition padStart0 (width : nat) (z : Z) : string :=
  let s := string_of_Z z in
  zeros (width - String.length s) ++ s.

(** The civil date of a day number counted from 1970-01-01, in the
    proleptic Gregorian calendar. *)
Definition civil_from_days (days : Z) : Z * Z * Z :=
  let z := days + 719468 in
  let era := z / 146097 in
  let doe := z - era * 146097 in
  let yoe := (doe - doe / 1460 + doe / 36524 - doe / 146096) / 365 in
  let doy := doe - (365 * yoe + yoe / 4 - yoe / 100) in
  let mp := (5 * doy + 2) / 153 in
  let d := doy - (153 * mp + 2) / 5 + 1 in
  let m := if mp <? 10 then mp + 3 else mp - 9 in
  let y := yoe + era * 400 + (if m <=? 2 then 1 else 0) in
  (y, m, d).

Definition iso_year (y : Z) : string :=
  if (0 <=? y) && (y <=? 9999) then padStart0 4 y
  else (if y <? 0 then "-" else "+") ++ padStart0 6 (Z.abs y).

(** [new Date(t).toISOString()] for a time value [t] in milliseconds.
    [None] stands for the RangeError of an invalid date: [t] is NaN or
    beyond 8.64e15 in absolute value. *)
Definition toISOString (t : JsNum) : option string :=
  match t with
  | NaN => None
  | Int ms =>
      if Z.abs ms <=? 8640000000000000 then
        let days := ms / 86400000 in
        let rest := ms mod 86400000 in
        let '(y, m, d) := civil_from_days days in
        Some (iso_year y ++ "-" ++ padStart0 2 m ++ "-" ++ padStart0 2 d
              ++ "T" ++ padStart0 2 (rest / 3600000)
              ++ ":" ++ padStart0 2 (rest / 60000 mod 60)
              ++ ":" ++ padStart0 2 (rest / 1000 mod 60)
              ++ "." ++ padStart0 3 (rest mod 1000) ++ "Z")
      else None
  end.

(** The day number of a civil date, inverse of [civil_from_days]. *)
Definition days_from_civil (y m d : Z) : Z :=
  let y' := if m <=? 2 then y - 1 else y in
  let era := y' / 400 in
  let yoe := y' - era * 400 in
  let mp := if m <=? 2 then m + 9 else m - 3 in
  let doy := (153 * mp + 2) / 5 + d - 1 in
  let doe := yoe * 365 + yoe / 4 - yoe / 100 + doy in
  era * 146097 + doe - 719468.

(** A reader of the one timestamp format GitHub emits,
    [YYYY-MM-DDTHH:MM:SSZ]; every other string, and every impossible
    date, reads as an invalid date. On the timestamps GitHub emits it
    agrees with [new Date(s).getTime()]. It instantiates the [Date]
    variable in the examples. *)
Definition digit (a : ascii) : option Z :=
  let n := Z.of_nat (nat_of_ascii a) in
  if (48 <=? n) && (n <=? 57) then Some (n - 48) else None.

Fixpoint digits (acc : Z) (l : list ascii) : option Z :=
  match l with
  | [] => Some acc
  | a :: l' =>
      match digit a with
      | Some d => digits (acc * 10 + d) l'
      | None => None
      end
  end.

Definition days_in_month (y m : Z) : Z :=
  if m =? 2 then
    if ((y mod 4 =? 0) && negb (y mod 100 =? 0)) || (y mod 400 =? 0)
    then 29 else 28
  else if (m =? 4) || (m =? 6) || (m =? 9) || (m =? 11) then 30 else 31.

Definition isoTime (s : string) : JsNum :=
  match list_ascii_of_string s with
  | [y1; y2; y3; y4; "-"; m1; m2; "-"; d1; d2; "T";
     h1; h2; ":"; n1; n2; ":"; s1; s2; "Z"]%char =>
      match digits 0 [y1; y2; y3; y4], digits 0 [m1; m2],
            digits 0 [d1; d2], digits 0 [h1; h2],
            digits 0 [n1; n2], digits 0 [s1; s2] with
      | Some y, Some m, Some d, Some h, Some n, Some sec =>
          if (1 <=? m) && (m <=? 12) && (1 <=? d)
             && (d <=? days_in_month y m)
             && (h <=? 23) && (n <=? 59) && (sec <=? 59)
          then Int (days_from_civil y m d * 86400000
                    + h * 3600000 + n * 60000 + sec * 1000)
          else NaN
      | _, _, _, _, _, _ => NaN
      end
  | _ => NaN
  end.

(** A reader of unsigned decimal numerals; every other string is NaN. On
    such numerals it agrees with [Number(s)]. It instantiates the
    [Number] variable in the examples. *)
Definition decimalNumber (s : string) : JsNum :=
  match list_ascii_of_string s with
  | [] => NaN
  | l => match digits 0 l with
         | Some z => Int z
         | None => NaN
         end
  end.

(** Lower-casing of the ASCII letters, byte by byte. On ASCII strings it
    agrees with [toLowerCase]. It instantiates the [toLowerCase]
    variable in the examples. *)
Definition lower_ascii (a : ascii) : ascii :=
  let n := nat_of_ascii a in
  if (65 <=? n)%nat && (n <=? 90)%nat then ascii_of_nat (n + 32) else a.

Fixpoint asciiLower (s : string) : string :=
  match s with
  | EmptyString => EmptyString
  | String a s' => String (lower_ascii a) (asciiLower s')
  end.

(** [Date.UTC(y, m, d)]: the time value of midnight UTC of a civil
    date given by year, month counted from 0, and day of the month. A
    year from 0 to 99 stands for 1900 + year; months beyond 11 and days
    beyond the month's length carry over. *)
Definition Date_UTC (y m d : Z) : Z :=
  let y' := if (0 <=? y) && (y <=? 99) then 1900 + y else y in
  (days_from_civil (y' + m / 12) (m mod 12 + 1) 1 + d - 1) * 86400000.

(** [dt.getUTCDay()]: 0 for Sunday; 1970-01-01 was a Thursday. *)
Definition getUTCDay (t : Z) : Z := (t / 86400000 + 4) mod 7.

(** [dt.getUTCFullYear()] *)
Definition getUTCFullYear (t : Z) : Z :=
  let '(y, _, _) := civil_from_days (t / 86400000) in y.

(** [Math.ceil(n / d)] for an integer [n] and a positive integer [d]. *)
Definition ceil_div (n d : Z) : Z := (n + d - 1) / d.

(** [s.slice(n)] for a non-negative literal [n] *)
Fixpoint str_drop (n : nat) (s : string) : string :=
  match n, s with
  | S k, String _ s' => str_drop k s'
  | _, _ => s
  end.

(** [v?.length]: the length of an array or a string, the property of
    that name of an object. *)
Definition length_of (v : JsVal) : JsVal :=
  match v with
  | VArr items => VNum (Int (Z.of_nat (List.length items)))
  | VStr s => VNum (Int (Z.of_nat (String.length s)))
  | VObj props => lookup "length" props
  | _ => Undefined
  end.

End Js.

(** ** src/lib/renderMarkdown.ts *)

Module RenderMarkdown.

Definition escape (md : string) : string :=
  Js.replaceAll ">" "&gt;"
    (Js.replaceAll "<" "&lt;"
       (Js.replaceAll "&" "&amp;" md)).

(** The function is [async]: the value below is what the returned
    promise resolves to; it never rejects. *)
Definition renderMarkdownString (md : string) : string :=
  "<pre>" ++ escape md ++ "</pre>".

End RenderMarkdown.

(** ** Effects: network, console, file system, exceptions *)

Module Eff.

Inductive JsError : Type :=
| Error (msg : string)
| TypeError (msg : string)
| RangeError (msg : string)
| SyntaxError (msg : string).

(** [err.message] *)
Definition message (e : JsError) : string :=
  match e with
  | Error m | TypeError m | RangeError m | SyntaxError m => m
  end.

(** What a [fetch] promise resolves to. [text] is the body as
    [res.text()] gives it and [json] the value [res.json()] gives;
    [None] there stands for a body that does not parse, on which
    [res.json()] rejects. *)
Record Response : Type := {
  ok : bool;
  status : Z;
  header : string -> option string;
  text : string;
  json : option Js.JsVal
}.

Inductive FetchResult : Type :=
| Rejected (e : JsError)
| Resolved (r : Response).

Inductive Completion (A : Type) : Type :=
| Normal (a : A)
| Throw (e : JsError).

Arguments Normal {A} a.
Arguments Throw {A} e.

Section WithBody.

(** The type of request bodies, before [JSON.stringify]. *)
Context {B : Type}.

Record Request : Type := {
  url : string;
  method : string;
  headers : list (string * string);
  body : option B
}.

Inductive Effect : Type :=
| Fetch (rq : Request)
| ConsoleLog (s : string)
| ConsoleWarn (s : string)
| ConsoleError (s : string)
| WriteFile (path content : string).
(** [WriteFile] stands for [mkdirSync] of the directory followed by
    [writeFileSync] of the content. *)

(** A computation: the effects it performed, in order, and how it
    completed. *)
Definition M (A : Type) : Type := (list Effect * Completion A)%type.

Definition ret {A : Type} (a : A) : M A := ([], Normal a).

Definition throw {A : Type} (e : JsError) : M A := ([], Throw e).

Definition bind {A C : Type} (m : M A) (k : A -> M C) : M C :=
  match m with
  | (t, Normal a) => let (t', c) := k a in ((t ++ t')%list, c)
  | (t, Throw e) => (t, Throw e)
  end.

(** [try { m } catch (err) { h err }] *)
Definition try_catch {A : Type} (m : M A) (h : JsError -> M A) : M A :=
  match m with
  | (t, Throw e) => let (t', c) := h e in ((t ++ t')%list, c)
  | done => done
  end.

Definition emit (e : Effect) : M unit := ([e], Normal tt).

(** [await fetch(...)] against a remote [net]. *)
Definition fetch (net : Request -> FetchResult) (rq : Request)
    : M Response :=
  ([Fetch rq],
   match net rq with
   | Rejected e => Throw e
   | Resolved r => Normal r
   end).

(** [await res.json()] *)
Definition res_json (r : Response) : M Js.JsVal :=
  match json r with
  | Some v => ret v
  | None => throw (SyntaxError "Unexpected token in JSON")
  end.

(** [arr.map(f)] with a callback that may throw. *)
Fixpoint mapM {A C : Type} (f : A -> M C) (l : list A) : M (list C) :=
  match l with
  | [] => ret []
  | x :: l' =>
      bind (f x) (fun y => bind (mapM f l') (fun ys => ret (y :: ys)))
  end.

Definition trace {A : Type} (m : M A) : list Effect := fst m.

Definition completion {A : Type} (m : M A) : Completion A := snd m.

Definition is_fetch (e : Effect) : bool :=
  match e with
  | Fetch _ => true
  | _ => false
  end.

(** The requests sent, in order. *)
Definition fetches (t : list Effect) : list Request :=
  flat_map (fun e => match e with Fetch rq => [rq] | _ => [] end) t.

(** The files written, in order. *)
Definition writes (t : list Effect) : list (string * string) :=
  flat_map (fun e => match e with WriteFile p c => [(p, c)] | _ => [] end) t.

End WithBody.

Arguments Request : clear implicits.
Arguments Effect : clear implicits.
Arguments M : clear implicits.

End Eff.

Declare Scope eff_scope.
Delimit Scope eff_scope with eff.
Notation "x <- m ;; k" := (Eff.bind m (fun x => k))
  (at level 61, m at next level, right associativity) : eff_scope.
Notation "m ;;; k" := (Eff.bind m (fun _ => k))
  (at level 61, right associativity) : eff_scope.

(** ** The command line, as both scripts read it *)

Module Cli.

(** A value of the map [args]: [true] for a bare flag, or the text that
    follows the flag. *)
Inductive ArgVal : Type :=
| Flag : ArgVal
| Value (s : string) : ArgVal.

(** [Map<string, string | true>], keys in insertion order. *)
Definition Args : Type := list (string * ArgVal).

Fixpoint args_get (m : Args) (k : string) : option ArgVal :=
  match m with
  | [] => None
  | (k', v) :: m' => if String.eqb k k' then Some v else args_get m' k
  end.

Fixpoint args_set (m : Args) (k : string) (v : ArgVal) : Args :=
  match m with
  | [] => [(k, v)]
  | (k', v') :: m' =>
      if String.eqb k k' then (k, v) :: m'
      else (k', v') :: args_set m' k v
  end.

(** The loop over [process.argv] from a given index on: a token that
    starts with two dashes is a key; the next token is its value when it
    is there, is not empty and does not start with two dashes, and is
    then passed over. *)
Fixpoint parse_from (tokens : list string) (m : Args) : Args :=
  match tokens with
  | [] => m
  | a :: rest =>
      if Js.startsWith a "--" then
        let key := Js.str_drop 2 a in
        match rest with
        | nx :: rest' =>
            if Js.truthy nx && negb (Js.startsWith nx "--")
            then parse_from rest' (args_set m key (Value nx))
            else parse_from rest (args_set m key Flag)
        | [] => args_set m key Flag
        end
      else parse_from rest m
  end.

(** The loop starts at index 2 of [process.argv]. *)
Definition parse_args (argv : list string) : Args :=
  parse_from (skipn 2 argv) [].

(** [args.get(k) as string | undefined]: where the scripts use the
    value as text (in a template or a pattern test), a bare flag reads
    as the text of [true]. *)
Definition text_of (v : option ArgVal) : option string :=
  match v with
  | None => None
  | Some Flag => Some "true"
  | Some (Value s) => Some s
  end.

(** [Boolean(args.get(k))]: every stored value is truthy. *)
Definition present (v : option ArgVal) : bool :=
  match v with
  | None => false
  | Some _ => true
  end.

Section Numbers.

(** [Number(s)] *)
Variable Number : string -> Js.JsNum.

(** [Number(args.get(k) || dflt)]: [Number(true)] is 1. *)
Definition number_or (v : option ArgVal) (dflt : Z) : Js.JsNum :=
  match v with
  | None => Js.Int dflt
  | Some Flag => Js.Int 1
  | Some (Value s) => Number s
  end.

End Numbers.

End Cli.

(** ** The project list and its filter (tipos e utilidades para projetos) *)

Module Projects.

Record Project : Type := {
  slug : string;
  name : string;
  description : string;
  tags : option (list string);
  repo : option string;
  homepage : option string;
  featured : option bool;
  cover : option string;
  updatedAt : option string
}.

Record FilterOptions : Type := {
  q : option string;
  filter_tags : option (list string)
}.

Section Builtins.

(** [Date.parse(s)] *)
Variable Date_parse : string -> Js.JsNum.
(** [a.localeCompare(b)] *)
Variable localeCompare : string -> string -> Js.JsNum.
(** [s.toLowerCase()] *)
Variable toLowerCase : string -> string.

(** [a.featured ? 1 : 0] *)
Definition featured_rank (p : Project) : Z :=
  match featured p with
  | Some true => 1
  | _ => 0
  end.

(** [a.updatedAt ? Date.parse(a.updatedAt) : 0] *)
Definition updated_time (p : Project) : Js.JsNum :=
  match updatedAt p with
  | Some s => if Js.truthy s then Date_parse s else Js.Int 0
  | None => Js.Int 0
  end.

(** The comparator handed to [sort] in [PROJECTS]:
    featured > updatedAt desc > name asc. *)
Definition compareProjects (a b : Project) : Js.JsNum :=
  let fa := featured_rank a in
  let fb := featured_rank b in
  if negb (fa =? fb) then Js.Int (fb - fa)
  else
    let da := updated_time a in
    let db := updated_time b in
    if Js.strict_ne da db then Js.sub db da
    else localeCompare (name a) (name b).

(** The [map] step of [PROJECTS]: tags lower-cased, absent tags become
    the empty list. *)
Definition normalize (p : Project) : Project :=
  {| slug := slug p; name := name p; description := description p;
     tags := Some (map toLowerCase
                     (match tags p with Some l => l | None => [] end));
     repo := repo p; homepage := homepage p; featured := featured p;
     cover := cover p; updatedAt := updatedAt p |}.

Definition PROJECTS (projectsRaw : list Project) : list Project :=
  Js.sort compareProjects (map normalize projectsRaw).

(** [arr.includes(t)] on strings *)
Definition mem (t : string) (l : list string) : bool :=
  existsb (String.eqb t) l.

Definition matches (qs : string) (ts : list string) (p : Project) : bool :=
  let textMatch :=
    negb (Js.truthy qs)
    || Js.includes (toLowerCase (name p)) qs
    || Js.includes (toLowerCase (description p)) qs
    || Js.includes (toLowerCase (slug p)) qs in
  let tagMatch :=
    (Nat.eqb (List.length ts) 0)
    || match tags p with
       | Some ptags => forallb (fun t => mem t ptags) ts
       | None => false
       end in
  textMatch && tagMatch.

Definition filterProjects (projects : list Project) (opts : FilterOptions)
    : list Project :=
  let qs := toLowerCase (Js.trim (Js.or_else (q opts) "")) in
  let ts := map toLowerCase
              (match filter_tags opts with Some l => l | None => [] end) in
  filter (matches qs ts) projects.

End Builtins.

Section Tags.

(** [a.localeCompare(b)] *)
Variable localeCompare : string -> string -> Js.JsNum.

(** [set.add(t)] on a [Set<string>], elements in insertion order. *)
Definition set_add (set : list string) (t : string) : list string :=
  if existsb (String.eqb t) set then set else (set ++ [t])%list.

(** The set built by the two nested [forEach]. *)
Definition tag_set (projects : list Project) : list string :=
  fold_left
    (fun set p =>
       match tags p with
       | Some ts => fold_left set_add ts set
       | None => set
       end)
    projects [].

Definition getAllTags (projects : list Project) : list string :=
  Js.sort localeCompare (tag_set projects).

End Tags.

End Projects.

(** ** scripts/summarize-ai.mts: the Digest Builder *)

Module Summarize.

Module Repo.
Record t : Type := {
  name : string;
  full_name : string;
  description : option string;
  stargazers_count : Z;
  forks_count : Z;
  language : option string;
  topics : option (list string);
  html_url : string;
  homepage : option string;
  pushed_at : option string;
  updated_at : option string
}.
End Repo.

Module Event.
(** [repo.name] is optional here: the Collector's [pickEvent] copies
    [e.repo?.name], and the changelog guards against its absence. *)
Record repo_ref : Type := {
  name : option string;
  url : string
}.
Record t : Type := {
  id : string;
  type : string;
  created_at : string;
  repo : repo_ref;
  payload : option Js.JsVal
}.
End Event.

Module PR.
Record t : Type := {
  id : Z;
  number : Z;
  title : string;
  state : string;
  html_url : string;
  repository_url : option string;
  created_at : string;
  updated_at : string;
  closed_at : option string;
  merged_at : option string;
  user : option string
}.
End PR.

Module Cache.
(** [repos], [events] and [prs] are read as [cache.repos || []] and so
    on: an absent list is the empty list. *)
Record t : Type := {
  fetchedAt : string;
  user : string;
  repos : list Repo.t;
  events : list Event.t;
  prs : list PR.t;
  pinned : option (list Js.JsVal)
}.
End Cache.

(** The environment variables the script reads. *)
Record Env : Type := {
  OPENAI_API_KEY : option string;
  OPENROUTER_API_KEY : option string;
  AI_MODEL : option string;
  OPENAI_BASE_URL : option string;
  GH_USERNAME : option string
}.

(** The body of the chat-completion request, before [JSON.stringify].
    [temperature] is the fraction 3/10. *)
Record ChatBody : Type := {
  model : string;
  messages : list (string * string);
  temperature : Z * Z;
  max_tokens : Z
}.

(** What [aiSummarize] returns. *)
Record Summary : Type := {
  source : string;
  highlights : list string;
  changelog : string
}.

Definition toRepoLink (full : string) : string :=
  "https://github.com/" ++ full.

(** [pr.repository_url?.split('/').slice(-2).join('/')], then [r || '']. *)
Definition repoOfPR (pr : PR.t) : string :=
  let r :=
    match PR.repository_url pr with
    | Some u =>
        Some (Js.join "/" (Js.slice_from (Js.split u "/") (Js.Int (-2))))
    | None => None
    end in
  Js.or_else r "".

(** A bucket map: [Map<string, string[]>], keys in insertion order. *)
Definition Buckets : Type := list (string * list string).

Fixpoint buckets_get (b : Buckets) (k : string) : option (list string) :=
  match b with
  | [] => None
  | (k', v) :: b' => if String.eqb k k' then Some v else buckets_get b' k
  end.

Fixpoint buckets_set (b : Buckets) (k : string) (v : list string)
    : Buckets :=
  match b with
  | [] => [(k, v)]
  | (k', v') :: b' =>
      if String.eqb k k' then (k, v) :: b'
      else (k', v') :: buckets_set b' k v
  end.

(** The local function [add] of [buildHeuristicChangelog]. *)
Definition add (b : Buckets) (repo line : string) : Buckets :=
  let arr := match buckets_get b repo with Some a => a | None => [] end in
  buckets_set b repo (arr ++ [line])%list.

Definition pr_line (pr : PR.t) : string :=
  "- PR **#" ++ Js.string_of_Z (PR.number pr) ++ "** merged: "
  ++ PR.title pr ++ " — [link](" ++ PR.html_url pr ++ ")".

(** [(e as any).payload], undefined when absent. *)
Definition payload_of (e : Event.t) : Js.JsVal :=
  match Event.payload e with
  | Some v => v
  | None => Js.Undefined
  end.

(** [e.repo?.name || 'desconhecido'] *)
Definition event_repo (e : Event.t) : string :=
  Js.or_else (Event.name (Event.repo e)) "desconhecido".

(** The lines the five [if]s of the event loop add for one event. *)
Definition push_line (p : Js.JsVal) : string :=
  "- Push (" ++ Js.to_string (Js.nullish (Js.get p "size") (Js.VStr "n"))
  ++ " commit[s])".

Definition issue_line (p : Js.JsVal) : string :=
  "- Issue: " ++ Js.to_string (Js.get p "action") ++ " — #"
  ++ Js.to_string (Js.get (Js.get p "issue") "number").

Definition create_line (p : Js.JsVal) : string :=
  "- Create: " ++ Js.to_string (Js.get p "ref_type") ++ " "
  ++ Js.to_string (Js.or_val (Js.get p "ref") (Js.VStr "")).

Definition release_line (p : Js.JsVal) : string :=
  "- Release: "
  ++ Js.to_string
       (Js.or_val (Js.get (Js.get p "release") "tag_name") (Js.VStr "")).

Definition pull_line (p : Js.JsVal) : string :=
  "- PR: " ++ Js.to_string (Js.get p "action") ++ " — #"
  ++ Js.to_string (Js.get p "number").

Definition when_type (e : Event.t) (ty : string) (line : string)
    : list string :=
  if String.eqb (Event.type e) ty then [line] else [].

Definition event_lines (e : Event.t) : list string :=
  let p := payload_of e in
  List.app (when_type e "PushEvent" (push_line p))
    (List.app (when_type e "IssuesEvent" (issue_line p))
       (List.app (when_type e "CreateEvent" (create_line p))
          (List.app (when_type e "ReleaseEvent" (release_line p))
             (when_type e "PullRequestEvent" (pull_line p))))).

Definition add_event (b : Buckets) (e : Event.t) : Buckets :=
  fold_left (fun b' line => add b' (event_repo e) line) (event_lines e) b.

Definition placeholder : string := "_Sem mudanças relevantes nesta semana._".

Definition interesting_types : list string :=
  ["PushEvent"; "PullRequestEvent"; "ReleaseEvent"; "IssuesEvent";
   "CreateEvent"].

Section Script.

(** [new Date(s).getTime()] *)
Variable Date_getTime : string -> Js.JsNum.
(** [Date.now()]. The script reads the clock at every test, a few
    milliseconds apart; the model reads it once per run. *)
Variable now : Z.

Definition withinLastDays (iso : option string) (days : Z) : bool :=
  match iso with
  | None => false
  | Some s =>
      if negb (Js.truthy s) then false
      else
        let dt := Date_getTime s in
        Js.le (Js.sub (Js.Int now) dt)
              (Js.Int (days * 24 * 60 * 60 * 1000))
  end.

Variable cache : Cache.t.
(** [Number(args.get('max-highlights') || 5)]: any number, a fraction
    or an infinity included. *)
Variable maxHighlights : Js.JsReal.
Variable weekStr : string.
Variable dryRun : bool.
Variable env : Env.

Definition ghUser : string :=
  Js.or_else (GH_USERNAME env)
    (Js.or_else (Some (Cache.user cache)) "meu-usuario").

(** [new Date(r.pushed_at || r.updated_at || 0).getTime()]; the time
    value of [new Date(0)] is 0. *)
Definition repo_time (r : Repo.t) : Js.JsNum :=
  match Js.or_else (Repo.pushed_at r) (Js.or_else (Repo.updated_at r) "")
  with
  | EmptyString => Js.Int 0
  | s => Date_getTime s
  end.

Definition compareRepos (a b : Repo.t) : Js.JsNum :=
  Js.sub (repo_time b) (repo_time a).

Definition recentRepos : list Repo.t :=
  Js.slice
    (Js.sort compareRepos
       (filter (fun r => withinLastDays (Repo.pushed_at r) 14
                         || withinLastDays (Repo.updated_at r) 14)
               (Cache.repos cache)))
    (Js.Int 0) (Js.Int 20).

(** [new Date(pr.merged_at!).getTime()]. For an absent merge time the
    model takes NaN, the time value of [new Date(undefined)]; after the
    filter of [mergedPRs] the merge time is always present. *)
Definition merged_time (pr : PR.t) : Js.JsNum :=
  match PR.merged_at pr with
  | Some s => Date_getTime s
  | None => Js.NaN
  end.

Definition comparePRs (a b : PR.t) : Js.JsNum :=
  Js.sub (merged_time b) (merged_time a).

Definition mergedPRs : list PR.t :=
  Js.slice
    (Js.sort comparePRs
       (filter (fun pr => Js.truthy (Js.or_else (PR.merged_at pr) "")
                          && withinLastDays (PR.merged_at pr) 14)
               (Cache.prs cache)))
    (Js.Int 0) (Js.Int 50).

Definition interestingEvents : list Event.t :=
  Js.slice
    (filter (fun e => existsb (String.eqb (Event.type e)) interesting_types)
       (filter (fun e => withinLastDays (Some (Event.created_at e)) 14)
          (Cache.events cache)))
    (Js.Int 0) (Js.Int 80).

Definition pr_highlight (pr : PR.t) : string :=
  let repo := repoOfPR pr in
  "- **" ++ PR.title pr ++ "** — PR **#" ++ Js.string_of_Z (PR.number pr)
  ++ "** merged em [" ++ repo ++ "](" ++ toRepoLink repo
  ++ "). [Ver PR](" ++ PR.html_url pr ++ ").".

Definition repo_highlight (r : Repo.t) : string :=
  "- **" ++ Repo.full_name r ++ "** — atualizações recentes"
  ++ (match Repo.language r with
      | Some l => if Js.truthy l then " em " ++ l else ""
      | None => ""
      end)
  ++ ". [Repo](" ++ Repo.html_url r ++ ")"
  ++ (match Repo.homepage r with
      | Some h => if Js.truthy h then " · [Site](" ++ h ++ ")" else ""
      | None => ""
      end)
  ++ ".".

(** [`${rel.repo.name}`]: an absent name renders as "undefined". *)
Definition release_highlight (rel : Event.t) : string :=
  let n := match Event.name (Event.repo rel) with
           | Some s => s
           | None => "undefined"
           end in
  "- **Release** em [" ++ n ++ "](" ++ toRepoLink n ++ ").".

(** The second loop of [buildHeuristicHighlights], with its [break]. *)
Fixpoint push_repos (out : list string) (rs : list Repo.t) : list string :=
  match rs with
  | [] => out
  | r :: rs' =>
      if Js.count_ge (List.length out) maxHighlights then out
      else push_repos (out ++ [repo_highlight r])%list rs'
  end.

Definition buildHeuristicHighlights : list string :=
  let out := map pr_highlight (Js.slice_to mergedPRs maxHighlights) in
  let out := push_repos out recentRepos in
  let cap := Js.real_max (Js.Finite 3) maxHighlights in
  let out :=
    if Js.count_lt (List.length out) cap then
      match Js.find (fun e => String.eqb (Event.type e) "ReleaseEvent")
                    interestingEvents with
      | Some rel => (out ++ [release_highlight rel])%list
      | None => out
      end
    else out in
  Js.slice_to out cap.

(** The bucket map after both loops of [buildHeuristicChangelog]. *)
Definition changelog_buckets : Buckets :=
  let b := fold_left (fun b pr => add b (repoOfPR pr) (pr_line pr))
                     mergedPRs [] in
  fold_left add_event interestingEvents b.

Definition changelog_lines : list string :=
  let buckets := changelog_buckets in
  let keys := Js.sort_strings (map fst buckets) in
  let lines :=
    flat_map (fun k =>
                List.app
                  (("### " ++ k)
                   :: match buckets_get buckets k with
                      | Some ls => ls
                      | None => []
                      end)
                  [""])
             keys in
  match lines with
  | [] => [placeholder]
  | _ => lines
  end.

Definition buildHeuristicChangelog : string :=
  Js.join Js.nl changelog_lines.

(** *** The generative rewrite *)

(** The remote end of [fetch]. *)
Variable net : Eff.Request ChatBody -> Eff.FetchResult.

Local Open Scope eff_scope.

Definition heuristic (highlightsDraft : list string)
    (changelogDraft : string) : Summary :=
  {| source := "heuristic";
     highlights := highlightsDraft;
     changelog := changelogDraft |}.

Definition mask (s : string) : string :=
  if Js.truthy s then Js.str_take 4 s ++ "…(masked)" else "".

Definition sys : string :=
  Js.join Js.nl
    [ "Você é uma IA que escreve resumos técnicos curtos e objetivos.";
      "Tarefa: com base nos dados do GitHub (PRs merged, pushes, releases) gere:";
      "1) HIGHLIGHTS (3–5 bullets). Cada item: **título curto** + 1 frase objetiva + link.";
      "2) CHANGELOG (bullets agrupados por repositório).";
      "TOM: profissional, conciso, sem adjetivos exagerados.";
      "FORMATO DE SAÍDA ESTRICTO (sem rodeios, sem ```):";
      "===HIGHLIGHTS===";
      "- ...";
      "- ...";
      "===CHANGELOG===";
      "### owner/repo";
      "- ...";
      "### owner/another";
      "- ..." ].

Definition user_prompt (highlightsDraft : list string)
    (changelogDraft : string) : string :=
  Js.join Js.nl
    (List.app
       [ "Semana: " ++ weekStr ++ ". Usuário GitHub: " ++ ghUser ++ ".";
         "Amostra de dados (heurística prévia):";
         "--- HIGHLIGHTS BASE ---" ]
       (List.app highlightsDraft
          [ "--- CHANGELOG BASE ---";
            Js.str_take 4000 changelogDraft ])).

(** [json?.choices?.[0]?.message?.content ?? json?.choices?.[0]?.text ?? ''] *)
Definition response_text (json : Js.JsVal) : Js.JsVal :=
  let choice := Js.get0 (Js.get json "choices") in
  Js.nullish
    (Js.nullish (Js.get (Js.get choice "message") "content")
                (Js.get choice "text"))
    (Js.VStr "").

(** The highlights part of a reply:
    [parts[0].split('===HIGHLIGHTS===').pop() || ''], then its trimmed
    lines that start with a dash and a space. *)
Definition parse_highs (text : string) : list string :=
  let parts := Js.split text "===CHANGELOG===" in
  let highRaw := last (Js.split (hd "" parts) "===HIGHLIGHTS===") "" in
  filter (fun l => Js.startsWith l "- ")
         (map Js.trim (Js.split highRaw Js.nl)).

(** The changelog part of a reply: [parts[1] || ''], then
    [chgRaw.trim() || changelogDraft]. *)
Definition parse_chg (text changelogDraft : string) : string :=
  let parts := Js.split text "===CHANGELOG===" in
  let chgRaw := nth 1 parts "" in
  Js.or_else (Some (Js.trim chgRaw)) changelogDraft.

(** What [console.warn] prints for [err?.message || err]: the message,
    or the error itself when the message is empty. *)
Definition describe (err : Eff.JsError) : string :=
  Js.or_else (Some (Eff.message err))
    (match err with
     | Eff.Error _ => "Error"
     | Eff.TypeError _ => "TypeError"
     | Eff.RangeError _ => "RangeError"
     | Eff.SyntaxError _ => "SyntaxError"
     end).

(** [openaiKey ? 'openai' : (openrouterKey ? 'openrouter' : 'none')] *)
Definition openaiKey : string := Js.or_else (OPENAI_API_KEY env) "".
Definition openrouterKey : string := Js.or_else (OPENROUTER_API_KEY env) "".

Definition provider : string :=
  if Js.truthy openaiKey then "openai"
  else if Js.truthy openrouterKey then "openrouter" else "none".

(** The one request of [aiSummarize]: endpoint, headers and body. *)
Definition ai_request (highlightsDraft : list string)
    (changelogDraft : string) : Eff.Request ChatBody :=
  let model :=
    Js.or_else (AI_MODEL env)
      (if String.eqb provider "openai" then "gpt-4o-mini"
       else "openrouter/auto") in
  let endpoint :=
    if String.eqb provider "openai" then
      Js.or_else (OPENAI_BASE_URL env)
        "https://api.openai.com/v1/chat/completions"
    else "https://openrouter.ai/api/v1/chat/completions" in
  let headers :=
    [ ("Content-Type", "application/json");
      ("Accept", "application/json");
      ("Authorization",
       "Bearer " ++ (if String.eqb provider "openai" then openaiKey
                     else openrouterKey)) ] in
  let body :=
    {| model := model;
       messages :=
         [ ("system", sys);
           ("user", user_prompt highlightsDraft changelogDraft) ];
       temperature := (3, 10);
       max_tokens := 900 |} in
  {| Eff.url := endpoint; Eff.method := "POST";
     Eff.headers := headers; Eff.body := Some body |}.

(** The body of the [try] block once the response is in. *)
Definition read_reply (res : Eff.Response) (highlightsDraft : list string)
    (changelogDraft : string) : Eff.M ChatBody Summary :=
  if negb (Eff.ok res) then
    Eff.emit (Eff.ConsoleWarn
                ("⚠️ Falha na chamada de IA ("
                 ++ Js.string_of_Z (Eff.status res) ++ "): "
                 ++ Eff.text res)) ;;;
    Eff.ret (heuristic highlightsDraft changelogDraft)
  else
    json <- Eff.res_json res ;;
    let text := response_text json in
    if negb (Js.truthy_val text) then
      Eff.emit (Eff.ConsoleWarn
                  "⚠️ Resposta de IA vazia; usando heurística.") ;;;
      Eff.ret (heuristic highlightsDraft changelogDraft)
    else
      match text with
      | Js.VStr t =>
          let highs := parse_highs t in
          let chg := parse_chg t changelogDraft in
          if Nat.eqb (List.length highs) 0 then
            Eff.emit (Eff.ConsoleWarn
                        "⚠️ IA não retornou bullets válidos; usando heurística para highlights.") ;;;
            Eff.ret {| source := "ai";
                       highlights := highlightsDraft;
                       changelog := chg |}
          else
            Eff.ret {| source := "ai";
                       highlights :=
                         Js.slice_to highs
                           (Js.real_max (Js.Finite 3) maxHighlights);
                       changelog := chg |}
      | _ => Eff.throw (Eff.TypeError "text.split is not a function")
      end.

Definition aiSummarize (highlightsDraft : list string)
    (changelogDraft : string) : Eff.M ChatBody Summary :=
  if String.eqb provider "none" then
    Eff.ret (heuristic highlightsDraft changelogDraft)
  else
    let upper := if String.eqb provider "openai" then "OPENAI"
                 else "OPENROUTER" in
    Eff.emit (Eff.ConsoleLog
                ("🧠 IA ativada via " ++ upper ++ " (key="
                 ++ mask (if Js.truthy openaiKey then openaiKey
                          else openrouterKey) ++ ")")) ;;;
    Eff.try_catch
      (res <- Eff.fetch net (ai_request highlightsDraft changelogDraft) ;;
       read_reply res highlightsDraft changelogDraft)
      (fun err =>
         Eff.emit (Eff.ConsoleWarn
                     ("⚠️ Erro na chamada de IA: " ++ describe err)) ;;;
         Eff.ret (heuristic highlightsDraft changelogDraft)).

(** *** Writing the two documents *)

(** The closure [front] of [main]; [now_iso] is
    [new Date().toISOString()]. *)
Definition front (source now_iso title : string) : string :=
  Js.join Js.nl
    [ "---";
      "title: " ++ Js.dq ++ title ++ Js.dq;
      "week: " ++ Js.dq ++ weekStr ++ Js.dq;
      "generatedAt: " ++ Js.dq ++ now_iso ++ Js.dq;
      "source: " ++ Js.dq ++ source ++ Js.dq;
      "author: " ++ Js.dq ++ ghUser ++ Js.dq;
      "---";
      "" ].

Definition highlightsMD (s : Summary) (now_iso : string) : string :=
  Js.join Js.nl
    (front (source s) now_iso ("Destaques — Semana " ++ weekStr)
     :: highlights s).

Definition changelogMD (s : Summary) (now_iso : string) : string :=
  Js.join Js.nl
    [ front (source s) now_iso ("Changelog — Semana " ++ weekStr);
      changelog s ].

Definition hiPath : string := "src/content/highlights/" ++ weekStr ++ ".md".
Definition chPath : string := "src/content/changelog/" ++ weekStr ++ ".md".

(** [(size / 1024).toFixed(1)] of a byte count *)
Definition kb (size : nat) : string :=
  let tenths := (Z.of_nat size * 10 + 512) / 1024 in
  Js.string_of_Z (tenths / 10) ++ "." ++ Js.string_of_Z (tenths mod 10).

(** [new Date().toISOString()]. The clock is within the range of
    dates, where [toISOString] does not throw; the other case is there
    for totality. *)
Definition now_iso : string :=
  match Js.toISOString (Js.Int now) with
  | Some iso => iso
  | None => ""
  end.

Definition main : Eff.M ChatBody unit :=
  Eff.emit (Eff.ConsoleLog
              ("🗞️  Gerando conteúdo para a semana " ++ weekStr
               ++ " (dryRun=" ++ (if dryRun then "true" else "false")
               ++ ")")) ;;;
  let baseHighlights := buildHeuristicHighlights in
  let baseChangelog := buildHeuristicChangelog in
  s <- aiSummarize baseHighlights baseChangelog ;;
  let hi := highlightsMD s now_iso in
  let ch := changelogMD s now_iso in
  if dryRun then
    Eff.emit (Eff.ConsoleLog "🧪 --dry-run: prévia dos arquivos") ;;;
    Eff.emit (Eff.ConsoleLog
                ("--- Highlights ---" ++ Js.nl ++ " " ++ Js.str_take 1200 hi
                 ++ " " ++ Js.nl ++ "...")) ;;;
    Eff.emit (Eff.ConsoleLog
                ("--- Changelog ---" ++ Js.nl ++ " " ++ Js.str_take 1200 ch
                 ++ " " ++ Js.nl ++ "..."))
  else
    Eff.emit (Eff.WriteFile hiPath hi) ;;;
    Eff.emit (Eff.WriteFile chPath ch) ;;;
    Eff.emit (Eff.ConsoleLog
                ("💾 Gravado: " ++ hiPath ++ " ("
                 ++ kb (String.length hi) ++ " kB)")) ;;;
    Eff.emit (Eff.ConsoleLog
                ("💾 Gravado: " ++ chPath ++ " ("
                 ++ kb (String.length ch) ++ " kB)")) ;;;
    Eff.emit (Eff.ConsoleLog "✅ Concluído.").

End Script.

(** *** The ISO week and the command line *)

(** [isoWeek(d)], from the local calendar fields of [d]: [y] is
    [d.getFullYear()], [m] is [d.getMonth()] and [day] is
    [d.getDate()]. They are the fields of an existing date, so every
    time value computed from them is within the range of dates and no
    step yields an invalid date. *)
Definition isoWeek (y m day : Z) : Z * Z :=
  let dt := Js.Date_UTC y m day in
  let wd := let w := Js.getUTCDay dt in if w =? 0 then 7 else w in
  let dt := dt + (4 - wd) * 86400000 in
  let yearStart := Js.Date_UTC (Js.getUTCFullYear dt) 0 1 in
  let weekNo := Js.ceil_div ((dt - yearStart) / 86400000 + 1) 7 in
  (Js.getUTCFullYear dt, weekNo).

Definition fmtWeek (y m day : Z) : string :=
  let '(year, week) := isoWeek y m day in
  Js.string_of_Z year ++ "-" ++ Js.padStart0 2 week.

(** [/^\d{4}-\d{2}$/.test(arg)] *)
Definition is_digit (a : ascii) : bool :=
  let n := nat_of_ascii a in (48 <=? n)%nat && (n <=? 57)%nat.

Definition week_pattern (arg : string) : bool :=
  match list_ascii_of_string arg with
  | [y1; y2; y3; y4; dash; w1; w2] =>
      is_digit y1 && is_digit y2 && is_digit y3 && is_digit y4
      && Ascii.eqb dash "-" && is_digit w1 && is_digit w2
  | _ => false
  end.

(** [parseWeek(arg)]; [y], [m] and [day] are the calendar fields of the
    current date, which [fmtWeek()] reads. *)
Definition parseWeek (y m day : Z) (arg : option string)
    : Eff.Completion string :=
  match arg with
  | None => Eff.Normal (fmtWeek y m day)
  | Some a =>
      if negb (Js.truthy a) then Eff.Normal (fmtWeek y m day)
      else if week_pattern a then Eff.Normal a
      else Eff.Throw
             (Eff.Error ("Formato de --week inválido: " ++ Js.dq ++ a ++ Js.dq
                         ++ ". Use YYYY-WW (ex.: 2025-34)."))
  end.

Section CommandLine.

(** [Number(s)] *)
Variable Number : string -> Js.JsNum.
(** [process.argv] *)
Variable argv : list string.

Definition args : Cli.Args := Cli.parse_args argv.

(** [parseWeek(args.get('week') as string | undefined)] *)
Definition weekStr_of (y m day : Z) : Eff.Completion string :=
  parseWeek y m day (Cli.text_of (Cli.args_get args "week")).

(** [Number(args.get('max-highlights') || 5)] *)
Definition maxHighlights_of : Js.JsNum :=
  Cli.number_or Number (Cli.args_get args "max-highlights") 5.

(** [Boolean(args.get('dry-run'))] *)
Definition dryRun_of : bool := Cli.present (Cli.args_get args "dry-run").

End CommandLine.

End Summarize.

(** ** scripts/fetch-github.mts: the Collector *)

Module Fetch.

Definition GH_API : string := "https://api.github.com".
Definition GH_GQL : string := "https://api.github.com/graphql".

(** The [rate] object that [ghGet] returns. *)
Record Rate : Type := {
  rate_limit : Js.JsNum;
  remaining : Js.JsNum;
  reset : Js.JsNum
}.

Definition rate_value (r : Rate) : Js.JsVal :=
  Js.VObj [ ("limit", Js.VNum (rate_limit r));
            ("remaining", Js.VNum (remaining r));
            ("reset", Js.VNum (reset r)) ].

Definition pinned_query : string :=
  "query($login: String!) { user(login: $login) { pinnedItems(first: 6, types: REPOSITORY) { nodes { ... on Repository { name description stargazerCount forkCount url homepageUrl primaryLanguage { name } } } } } rateLimit { limit remaining resetAt } }".

Section Script.

(** [Number(s)] *)
Variable Number : string -> Js.JsNum.
(** [Date.parse(v) / 1000] *)
Variable resetSeconds : Js.JsVal -> Js.JsVal.
(** [JSON.stringify(v, null, 2)] *)
Variable JSON_stringify : Js.JsVal -> string.
(** [Date.now()] at the moment the cache is assembled. *)
Variable now : Z.
(** The remote end of [fetch]. *)
Variable net : Eff.Request Js.JsVal -> Eff.FetchResult.

(** [Number(args.get('limit') || 60)] *)
Variable limit : Js.JsNum.
Variable dryRun : bool.
(** [process.env.GITHUB_TOKEN || process.env.GH_TOKEN || ''] *)
Variable token : string.
Variable USE_GRAPHQL : option string.

Local Open Scope eff_scope.

Definition useGraphQL : bool :=
  Js.truthy token
  && match USE_GRAPHQL with
     | Some v => String.eqb v "1"
     | None => false
     end.

Definition headers : list (string * string) :=
  List.app
    [ ("Accept", "application/vnd.github+json");
      ("User-Agent", "aurora-dev-cache/1.0");
      ("X-GitHub-Api-Version", "2022-11-28") ]
    (if Js.truthy token then [("Authorization", "Bearer " ++ token)]
     else []).

(** [res.headers.get(name) || '0'], then [Number]. *)
Definition header_number (res : Eff.Response) (name : string) : Js.JsNum :=
  Number (Js.or_else (Eff.header res name) "0").

Definition rate_limit_message (lim rem : Js.JsNum) (iso : string) : string :=
  "Rate limit esgotado. limit=" ++ Js.string_of_num lim
  ++ ", remaining=" ++ Js.string_of_num rem ++ ", reset=" ++ iso.

Definition ghGet (url : string) : Eff.M Js.JsVal (Js.JsVal * Rate) :=
  res <- Eff.fetch net
           {| Eff.url := url; Eff.method := "GET";
              Eff.headers := headers; Eff.body := None |} ;;
  let lim := header_number res "x-ratelimit-limit" in
  let rem := header_number res "x-ratelimit-remaining" in
  let rst := header_number res "x-ratelimit-reset" in
  if Js.le rem (Js.Int 0) then
    match Js.toISOString (Js.mul rst (Js.Int 1000)) with
    | Some iso => Eff.throw (Eff.Error (rate_limit_message lim rem iso))
    | None => Eff.throw (Eff.RangeError "Invalid time value")
    end
  else if negb (Eff.ok res) then
    Eff.throw
      (Eff.Error ("Falha " ++ Js.string_of_Z (Eff.status res) ++ " em "
                  ++ url ++ ": " ++ Eff.text res))
  else
    json <- Eff.res_json res ;;
    Eff.ret (json, {| rate_limit := lim; remaining := rem; reset := rst |}).

(** [v.k] where [v] may be null or undefined: reading a property of
    either throws. *)
Definition prop (v : Js.JsVal) (k : string) : Eff.M Js.JsVal Js.JsVal :=
  match v with
  | Js.Undefined | Js.Null =>
      Eff.throw (Eff.TypeError ("Cannot read properties of null (reading '"
                                ++ k ++ "')"))
  | _ => Eff.ret (Js.get v k)
  end.

(** [(v as any[]).slice(0, n)]: only an array has a [slice] whose
    result can be mapped over. *)
Definition array_slice (v : Js.JsVal) (n : Js.JsNum)
    : Eff.M Js.JsVal (list Js.JsVal) :=
  match v with
  | Js.VArr items => Eff.ret (Js.slice items (Js.Int 0) n)
  | _ => Eff.throw (Eff.TypeError "slice(...).map is not a function")
  end.

(** [x ? { login: x.login } : undefined] *)
Definition login_of (x : Js.JsVal) : Js.JsVal :=
  if Js.truthy_val x then Js.VObj [("login", Js.get x "login")]
  else Js.Undefined.

Definition pickRepo (r : Js.JsVal) : Eff.M Js.JsVal Js.JsVal :=
  id <- prop r "id" ;;
  Eff.ret
    (Js.VObj
       [ ("id", id);
         ("name", Js.get r "name");
         ("full_name", Js.get r "full_name");
         ("description", Js.get r "description");
         ("stargazers_count", Js.get r "stargazers_count");
         ("forks_count", Js.get r "forks_count");
         ("language", Js.get r "language");
         ("topics", Js.get r "topics");
         ("html_url", Js.get r "html_url");
         ("homepage", Js.get r "homepage");
         ("archived", Js.get r "archived");
         ("disabled", Js.get r "disabled");
         ("pushed_at", Js.get r "pushed_at");
         ("updated_at", Js.get r "updated_at");
         ("created_at", Js.get r "created_at");
         ("owner", login_of (Js.get r "owner"));
         ("visibility", Js.get r "visibility") ]).

Definition pickEvent (e : Js.JsVal) : Eff.M Js.JsVal Js.JsVal :=
  id <- prop e "id" ;;
  let name := Js.get (Js.get e "repo") "name" in
  let actor := Js.get e "actor" in
  Eff.ret
    (Js.VObj
       [ ("id", id);
         ("type", Js.get e "type");
         ("created_at", Js.get e "created_at");
         ("repo",
          Js.VObj [ ("name", name);
                    ("url", Js.VStr (GH_API ++ "/repos/"
                                     ++ Js.to_string name)) ]);
         ("actor",
          if Js.truthy_val actor then
            Js.VObj [ ("login", Js.get actor "login");
                      ("display_login", Js.get actor "display_login");
                      ("url", Js.get actor "url") ]
          else Js.Undefined);
         ("payload", Js.get e "payload") ]).

Definition pickPR (it : Js.JsVal) : Eff.M Js.JsVal Js.JsVal :=
  id <- prop it "id" ;;
  Eff.ret
    (Js.VObj
       [ ("id", id);
         ("number", Js.get it "number");
         ("title", Js.get it "title");
         ("state", Js.get it "state");
         ("html_url", Js.get it "html_url");
         ("repository_url", Js.get it "repository_url");
         ("created_at", Js.get it "created_at");
         ("updated_at", Js.get it "updated_at");
         ("closed_at", Js.get it "closed_at");
         ("merged_at",
          Js.or_val (Js.get (Js.get it "pull_request") "merged_at") Js.Null);
         ("user", login_of (Js.get it "user")) ]).

Definition ghSearchPRs (author : string) (perPage : Js.JsNum)
    : Eff.M Js.JsVal (list Js.JsVal * Rate) :=
  let url :=
    GH_API ++ "/search/issues?q="
    ++ Js.form_encode ("author:" ++ author ++ " type:pr is:public")
    ++ "&sort=updated&order=desc&per_page="
    ++ Js.form_encode (Js.string_of_num (Js.min (Js.Int 100) perPage)) in
  r <- ghGet url ;;
  items <- prop (fst r) "items" ;;
  sliced <- array_slice (Js.or_val items (Js.VArr [])) perPage ;;
  mapped <- Eff.mapM pickPR sliced ;;
  Eff.ret (mapped, snd r).

Definition pickPinned (n : Js.JsVal) : Eff.M Js.JsVal Js.JsVal :=
  name <- prop n "name" ;;
  Eff.ret
    (Js.VObj
       [ ("name", name);
         ("description", Js.get n "description");
         ("stargazers_count", Js.get n "stargazerCount");
         ("forks_count", Js.get n "forkCount");
         ("primaryLanguage",
          Js.or_val (Js.get (Js.get n "primaryLanguage") "name") Js.Null);
         ("url", Js.get n "url");
         ("homepageUrl", Js.get n "homepageUrl") ]).

(** The result of [fetchPinnedGraphQL]: the pinned list and, when the
    reply carries a [rateLimit] object, the rate read from it. *)
Definition fetchPinnedGraphQL (author : string)
    : Eff.M Js.JsVal (list Js.JsVal * Js.JsVal) :=
  if negb useGraphQL then Eff.ret ([], Js.Undefined)
  else
    res <- Eff.fetch net
             {| Eff.url := GH_GQL; Eff.method := "POST";
                Eff.headers :=
                  List.app headers [("Content-Type", "application/json")];
                Eff.body :=
                  Some (Js.VObj
                          [ ("query", Js.VStr pinned_query);
                            ("variables",
                             Js.VObj [("login", Js.VStr author)]) ]) |} ;;
    if negb (Eff.ok res) then
      Eff.emit (Eff.ConsoleWarn ("⚠️ GraphQL falhou: " ++ Eff.text res)) ;;;
      Eff.ret ([], Js.Undefined)
    else
      data <- Eff.res_json res ;;
      let nodes :=
        Js.or_val
          (Js.get (Js.get (Js.get (Js.get data "data") "user")
                     "pinnedItems") "nodes")
          (Js.VArr []) in
      pinned <- match nodes with
                | Js.VArr items => Eff.mapM pickPinned items
                | _ => Eff.throw (Eff.TypeError "nodes.map is not a function")
                end ;;
      let rl := Js.get (Js.get data "data") "rateLimit" in
      let rate :=
        if Js.truthy_val rl then
          Js.VObj
            [ ("limit", Js.get rl "limit");
              ("remaining", Js.get rl "remaining");
              ("reset",
               if Js.truthy_val (Js.get rl "resetAt")
               then resetSeconds (Js.get rl "resetAt")
               else Js.Undefined) ]
        else Js.Undefined in
      Eff.ret (pinned, rate).

(** [(size / 1024).toFixed(1)] of a byte count *)
Definition kb (size : nat) : string :=
  let tenths := (Z.of_nat size * 10 + 512) / 1024 in
  Js.string_of_Z (tenths / 10) ++ "." ++ Js.string_of_Z (tenths mod 10).

Definition outFile : string := "src/data/github.cache.json".

(** [new Date().toISOString()]. The clock is within the range of
    dates, where [toISOString] does not throw; the other case is there
    for totality. *)
Definition fetchedAt : string :=
  match Js.toISOString (Js.Int now) with
  | Some iso => iso
  | None => ""
  end.

Definition first_two (l : list Js.JsVal) : Js.JsVal :=
  Js.VArr (Js.slice l (Js.Int 0) (Js.Int 2)).

Definition main (username : string) : Eff.M Js.JsVal unit :=
  Eff.emit (Eff.ConsoleLog
              ("🔎 Buscando dados GitHub para " ++ Js.dq ++ username ++ Js.dq
               ++ " (limit=" ++ Js.string_of_num limit
               ++ ", dryRun=" ++ (if dryRun then "true" else "false")
               ++ ", token=" ++ (if Js.truthy token then "yes" else "no")
               ++ ")")) ;;;
  u <- ghGet (GH_API ++ "/users/" ++ username) ;;
  login <- prop (fst u) "login" ;;
  Eff.emit (Eff.ConsoleLog
              ("👤 Usuário: " ++ Js.to_string login
               ++ ", repos públicos: "
               ++ Js.to_string (Js.get (fst u) "public_repos")
               ++ ", followers: "
               ++ Js.to_string (Js.get (fst u) "followers"))) ;;;
  let per_page := Js.form_encode (Js.string_of_num (Js.min limit (Js.Int 100))) in
  reposRes <- ghGet (GH_API ++ "/users/" ++ username
                     ++ "/repos?sort=updated&per_page=" ++ per_page) ;;
  reposRaw <- array_slice (fst reposRes) limit ;;
  repos <- Eff.mapM pickRepo reposRaw ;;
  eventsRes <- ghGet (GH_API ++ "/users/" ++ username
                      ++ "/events/public?per_page=" ++ per_page) ;;
  eventsRaw <- array_slice (fst eventsRes) limit ;;
  events <- Eff.mapM pickEvent eventsRaw ;;
  prsRes <- ghSearchPRs username limit ;;
  pinnedRes <- fetchPinnedGraphQL username ;;
  let rate := rate_value (snd reposRes) in
  let cache (repos events prs pinned : Js.JsVal) :=
    Js.VObj [ ("fetchedAt", Js.VStr fetchedAt);
              ("user", Js.VStr username);
              ("rate", rate);
              ("repos", repos);
              ("events", events);
              ("prs", prs);
              ("pinned", pinned) ] in
  if dryRun then
    Eff.emit (Eff.ConsoleLog
                ("🧪 --dry-run: amostra do cache:" ++ Js.nl ++ " "
                 ++ JSON_stringify
                      (cache (first_two repos) (first_two events)
                         (first_two (fst prsRes))
                         (first_two (fst pinnedRes)))))
  else
    let content :=
      JSON_stringify
        (cache (Js.VArr repos) (Js.VArr events) (Js.VArr (fst prsRes))
           (Js.VArr (fst pinnedRes))) in
    Eff.emit (Eff.WriteFile outFile content) ;;;
    Eff.emit (Eff.ConsoleLog
                ("💾 Gravado: " ++ outFile ++ " ("
                 ++ kb (String.length content) ++ " kB)")) ;;;
    Eff.emit (Eff.ConsoleLog "✅ Concluído.").

(** The whole script: the username check, [main], and the handler of
    its rejection. The result is the trace and the exit status. *)
Definition script (username : option string)
    : list (Eff.Effect Js.JsVal) * Z :=
  match Js.or_else username "" with
  | EmptyString =>
      ([Eff.ConsoleError
          "❌ Informe o usuário GitHub com --user <login> ou GH_USERNAME=<login>"],
       1)
  | login =>
      match main login with
      | (t, Eff.Normal _) => (t, 0)
      | (t, Eff.Throw e) =>
          (List.app t [Eff.ConsoleError ("❌ Erro: " ++ Eff.message e)], 1)
      end
  end.

End Script.

Section CommandLine.

(** [Number(s)] *)
Variable Number : string -> Js.JsNum.
(** [process.argv] *)
Variable argv : list string.
(** [process.env.GH_USERNAME] *)
Variable GH_USERNAME : option string.

Definition args : Cli.Args := Cli.parse_args argv.

(** [(args.get('user') as string) || process.env.GH_USERNAME] *)
Definition username_of : option string :=
  match Cli.text_of (Cli.args_get args "user") with
  | Some u => Some u
  | None => GH_USERNAME
  end.

(** [Number(args.get('limit') || 60)] *)
Definition limit_of : Js.JsNum :=
  Cli.number_or Number (Cli.args_get args "limit") 60.

(** [Boolean(args.get('dry-run'))] *)
Definition dryRun_of : bool := Cli.present (Cli.args_get args "dry-run").

End CommandLine.

End Fetch.

(** ** src/pages/api.json.ts: the status endpoint *)

Module ApiJson.

Section Endpoint.

(** [JSON.parse(text)]; [None] stands for its SyntaxError. *)
Variable JSON_parse : string -> option Js.JsVal.
(** [Date.now()] *)
Variable now : Z.

(** [v?.length ?? 0] *)
Definition count (v : Js.JsVal) : Js.JsVal :=
  Js.nullish (Js.length_of v) (Js.VNum (Js.Int 0)).

(** The body of the [try] block: reading a property of [null] throws. *)
Definition summarize (cache : Js.JsVal) : option Js.JsVal :=
  match cache with
  | Js.Undefined | Js.Null => None
  | _ =>
      Some (Js.VObj
              [ ("exists", Js.VBool true);
                ("user", Js.get cache "user");
                ("fetchedAt", Js.get cache "fetchedAt");
                ("repos", count (Js.get cache "repos"));
                ("events", count (Js.get cache "events"));
                ("prs", count (Js.get cache "prs")) ])
  end.

Definition absent : Js.JsVal := Js.VObj [("exists", Js.VBool false)].

Definition invalid : Js.JsVal :=
  Js.VObj [("exists", Js.VBool false); ("error", Js.VStr "invalid_json")].

(** [payload.cache] at the end of [GET]; [file] is the text of
    [src/data/github.cache.json], [None] when [existsSync] is false. *)
Definition cache_status (file : option string) : Js.JsVal :=
  match file with
  | None => absent
  | Some text =>
      match JSON_parse text with
      | Some cache =>
          match summarize cache with
          | Some status => status
          | None => invalid
          end
      | None => invalid
      end
  end.

(** The payload that [GET] serializes into its response. *)
Definition payload (file : option string) : Js.JsVal :=
  Js.VObj
    [ ("name", Js.VStr "Aurora.dev");
      ("builtAt",
       Js.VStr (match Js.toISOString (Js.Int now) with
                | Some iso => iso
                | None => ""
                end));
      ("cache", cache_status file) ].

End Endpoint.

End ApiJson.

(** ** Notions the statements use *)

(** [Subseq l1 l2]: [l1] is [l2] with some elements removed, the others
    in their order. *)
Inductive Subseq {A : Type} : list A -> list A -> Prop :=
| Subseq_nil : Subseq [] []
| Subseq_keep x l1 l2 : Subseq l1 l2 -> Subseq (x :: l1) (x :: l2)
| Subseq_drop x l1 l2 : Subseq l1 l2 -> Subseq l1 (x :: l2).

(** A string made of white space only. *)
Definition whitespace_only (s : string) : Prop :=
  exists ws : list string,
    Forall (fun w => In w Js.whitespace) ws
    /\ s = fold_right String.append "" ws.

(** The characters of a string. *)
Definition chars (s : string) : list ascii := list_ascii_of_string s.

(** A comparator result that places its first argument first. *)
Definition first_wins (v : Js.JsNum) : Prop := Js.lt v (Js.Int 0) = true.

(** What the three passes of [escape] make of one character. *)
Definition escape_char (a : ascii) : list ascii :=
  if Ascii.eqb a "&" then chars "&amp;"
  else if Ascii.eqb a "<" then chars "&lt;"
  else if Ascii.eqb a ">" then chars "&gt;"
  else [a].

(** The bullets of the changelog with the repository each belongs to:
    one per merged pull request, then those of the events, in the order
    of the two loops. *)
Definition changelog_entries (Date_getTime : string -> Js.JsNum) (now : Z)
    (cache : Summarize.Cache.t) : list (string * string) :=
  (map (fun pr => (Summarize.repoOfPR pr, Summarize.pr_line pr))
     (Summarize.mergedPRs Date_getTime now cache)
   ++ flat_map (fun e => map (pair (Summarize.event_repo e))
                           (Summarize.event_lines e))
        (Summarize.interestingEvents Date_getTime now cache))%list.

(** The bullets of one repository: those of its merged pull requests,
    then those of its events, each group in encounter order. *)
Definition section_lines (Date_getTime : string -> Js.JsNum) (now : Z)
    (cache : Summarize.Cache.t) (k : string) : list string :=
  (map Summarize.pr_line
     (filter (fun pr => String.eqb (Summarize.repoOfPR pr) k)
        (Summarize.mergedPRs Date_getTime now cache))
   ++ flat_map Summarize.event_lines
        (filter (fun e => String.eqb (Summarize.event_repo e) k)
           (Summarize.interestingEvents Date_getTime now cache)))%list.

(** The repository names of the section headers, in output order. *)
Definition section_keys (Date_getTime : string -> Js.JsNum) (now : Z)
    (cache : Summarize.Cache.t) : list string :=
  Js.sort_strings (map fst (Summarize.changelog_buckets Date_getTime now cache)).

(** Strictly ascending in the order of [String.compare]. *)
Definition string_lt (a b : string) : Prop := String.compare a b = Lt.

(** Adding a list of keyed lines to a bucket map. *)
Definition add_all (es : list (string * string)) (b : Summarize.Buckets)
    : Summarize.Buckets :=
  fold_left (fun b' kl => Summarize.add b' (fst kl) (snd kl)) es b.

(** The lines filed under the key [k], in order. *)
Definition lines_for (k : string) (es : list (string * string))
    : list string :=
  map snd (filter (fun kl => String.eqb (fst kl) k) es).

(** Ascending in the order of [String.compare]. *)
Definition string_le (a b : string) : Prop := String.compare a b <> Gt.

(** The merged pull requests of the cache within the window, and its
    events within the window and of a listed type, in cache order. *)
Definition windowed_merged (Date_getTime : string -> Js.JsNum) (now : Z)
    (cache : Summarize.Cache.t) : list Summarize.PR.t :=
  filter (fun pr => Summarize.withinLastDays Date_getTime now
                      (Summarize.PR.merged_at pr) 14)
         (Summarize.Cache.prs cache).

Definition windowed_events (Date_getTime : string -> Js.JsNum) (now : Z)
    (cache : Summarize.Cache.t) : list Summarize.Event.t :=
  filter (fun e => existsb (String.eqb (Summarize.Event.type e))
                     Summarize.interesting_types)
    (filter (fun e => Summarize.withinLastDays Date_getTime now
                        (Some (Summarize.Event.created_at e)) 14)
       (Summarize.Cache.events cache)).

(** The repositories of the cache pushed to or updated within the
    window, in cache order. *)
Definition windowed_repos (Date_getTime : string -> Js.JsNum) (now : Z)
    (cache : Summarize.Cache.t) : list Summarize.Repo.t :=
  filter (fun r => Summarize.withinLastDays Date_getTime now
                     (Summarize.Repo.pushed_at r) 14
                   || Summarize.withinLastDays Date_getTime now
                        (Summarize.Repo.updated_at r) 14)
         (Summarize.Cache.repos cache).

(** One when a release event is among the first 80 events of the
    window that are of a listed type, else none. *)
Definition release_count (Date_getTime : string -> Js.JsNum) (now : Z)
    (cache : Summarize.Cache.t) : nat :=
  if existsb (fun e => String.eqb (Summarize.Event.type e) "ReleaseEvent")
       (firstn 80 (windowed_events Date_getTime now cache))
  then 1 else 0.

(** The number of items the highlights can draw from: the merged pull
    requests of the window, 50 of them at most; the repositories pushed
    to or updated in the window, 20 at most; and one for a release
    event among the first 80 events of the window that are of a listed
    type. *)
Definition available (Date_getTime : string -> Js.JsNum) (now : Z)
    (cache : Summarize.Cache.t) : nat :=
  Nat.min 50 (List.length (windowed_merged Date_getTime now cache))
  + Nat.min 20 (List.length (windowed_repos Date_getTime now cache))
  + release_count Date_getTime now cache.

(** The length of the list, step by step as the function builds it,
    for [P] merged pull requests, [R] recent repositories and [k]
    release bullets at hand, when [maxHighlights] truncates to [t] and
    lies between the integers [f] and [c]. *)
Definition count_highlights (t c f : Z) (P R k : nat) : nat :=
  let p := if t <? 0 then Z.to_nat (Z.max (Z.of_nat P + t) 0)
           else Nat.min (Z.to_nat t) P in
  let n := if c <=? Z.of_nat p then p
           else Z.to_nat (Z.min c (Z.of_nat (p + R))) in
  let n' := if Z.of_nat n <? Z.max 3 c then (n + k)%nat else n in
  Nat.min (Z.to_nat (Z.max 3 f)) n'.

(** The ways the call to the provider fails: the request is rejected
    (network error), the status is not a success, the body does not
    parse, or the reply carries no text. *)
Inductive call_fails : Eff.FetchResult -> Prop :=
| fails_network (e : Eff.JsError) : call_fails (Eff.Rejected e)
| fails_status (r : Eff.Response) :
    Eff.ok r = false -> call_fails (Eff.Resolved r)
| fails_body (r : Eff.Response) :
    Eff.ok r = true -> Eff.json r = None -> call_fails (Eff.Resolved r)
| fails_empty (r : Eff.Response) (j : Js.JsVal) :
    Eff.ok r = true -> Eff.json r = Some j ->
    Js.truthy_val (Summarize.response_text j) = false ->
    call_fails (Eff.Resolved r).

(** The provider answered with the non-empty text [t]. *)
Definition replies (res : Eff.FetchResult) (t : string) : Prop :=
  exists r j, res = Eff.Resolved r /\ Eff.ok r = true
              /\ Eff.json r = Some j
              /\ Summarize.response_text j = Js.VStr t /\ t <> "".

(** The error a completion carries, if it is a thrown one. *)
Definition thrown {A : Type} (c : Eff.Completion A) : option Eff.JsError :=
  match c with
  | Eff.Throw e => Some e
  | Eff.Normal _ => None
  end.

(** The response to [rq] reports no remaining calls. *)
Definition exhausted (Number : string -> Js.JsNum)
    (net : Eff.Request Js.JsVal -> Eff.FetchResult)
    (rq : Eff.Request Js.JsVal) (r : Eff.Response) : Prop :=
  net rq = Eff.Resolved r
  /\ Js.le (Fetch.header_number Number r "x-ratelimit-remaining") (Js.Int 0)
     = true.

(** The error [ghGet] raises on such a response: the rate-limit error
    with the reset time in ISO form, or the RangeError of
    [toISOString] when the reported reset time is no valid date. *)
Definition rate_limit_error (Number : string -> Js.JsNum)
    (r : Eff.Response) : Eff.JsError :=
  match Js.toISOString
          (Js.mul (Fetch.header_number Number r "x-ratelimit-reset")
             (Js.Int 1000)) with
  | Some iso =>
      Eff.Error
        (Fetch.rate_limit_message
           (Fetch.header_number Number r "x-ratelimit-limit")
           (Fetch.header_number Number r "x-ratelimit-remaining") iso)
  | None => Eff.RangeError "Invalid time value"
  end.

(** A computation is guarded when a REST request answered by an
    exhausted response is its last effect and makes it throw the
    rate-limit error. *)
Definition Guarded {A : Type} (Number : string -> Js.JsNum)
    (net : Eff.Request Js.JsVal -> Eff.FetchResult)
    (m : Eff.M Js.JsVal A) : Prop :=
  forall t1 rq t2 r,
    Eff.trace m = (t1 ++ Eff.Fetch rq :: t2)%list ->
    Eff.url rq <> Fetch.GH_GQL ->
    exhausted Number net rq r ->
    t2 = [] /\ thrown (Eff.completion m) = Some (rate_limit_error Number r).

(** A computation without effects. *)
Definition silent {A : Type} (m : Eff.M Js.JsVal A) : Prop :=
  Eff.trace m = [].

(** The request [ghGet] sends for a URL. *)
Definition get_request (token url : string) : Eff.Request Js.JsVal :=
  {| Eff.url := url; Eff.method := "GET";
     Eff.headers := Fetch.headers token; Eff.body := None |}.

(** ** Example data *)

(** Example data: a pull request with a given repository URL and merge
    time. *)
Definition example_pr (n : Z) (url merged : option string)
    : Summarize.PR.t :=
  {| Summarize.PR.id := n; Summarize.PR.number := n;
     Summarize.PR.title := "Fix bug"; Summarize.PR.state := "closed";
     Summarize.PR.html_url := "https://github.com/me/proj/pull/42";
     Summarize.PR.repository_url := url;
     Summarize.PR.created_at := "2025-01-01T00:00:00Z";
     Summarize.PR.updated_at := "2025-01-02T00:00:00Z";
     Summarize.PR.closed_at := merged;
     Summarize.PR.merged_at := merged;
     Summarize.PR.user := Some "me" |}.

(** Example data: two projects, and a time-free name order standing for
    [localeCompare] on ASCII names. *)
Definition example_project (n : string) (f : option bool)
    (updated : option string) (ts : option (list string))
    : Projects.Project :=
  {| Projects.slug := n; Projects.name := n;
     Projects.description := "A project";
     Projects.tags := ts; Projects.repo := None;
     Projects.homepage := None; Projects.featured := f;
     Projects.cover := None; Projects.updatedAt := updated |}.

(** Example data: a cache with three pull requests merged within the
    window, nothing else; the run time is 2025-01-15T00:00:00Z. *)
Definition example_now : Z := 1736899200000.

Definition example_cache : Summarize.Cache.t :=
  {| Summarize.Cache.fetchedAt := "2025-01-15T00:00:00Z";
     Summarize.Cache.user := "me";
     Summarize.Cache.repos := [];
     Summarize.Cache.events := [];
     Summarize.Cache.prs :=
       [ example_pr 41 (Some "https://api.github.com/repos/me/proj")
           (Some "2025-01-10T00:00:00Z");
         example_pr 42 (Some "https://api.github.com/repos/me/proj")
           (Some "2025-01-14T00:00:00Z");
         example_pr 43 (Some "https://api.github.com/repos/me/site")
           (Some "2025-01-12T00:00:00Z") ];
     Summarize.Cache.pinned := None |}.

(** Example data: a cache with 51 pull requests merged in the window,
    numbered 1 to 51. *)
Definition crowded_cache : Summarize.Cache.t :=
  {| Summarize.Cache.fetchedAt := "2025-01-15T00:00:00Z";
     Summarize.Cache.user := "me";
     Summarize.Cache.repos := [];
     Summarize.Cache.events := [];
     Summarize.Cache.prs :=
       map (fun n => example_pr (Z.of_nat n)
                       (Some "https://api.github.com/repos/me/proj")
                       (Some "2025-01-14T00:00:00Z"))
           (seq 1 51);
     Summarize.Cache.pinned := None |}.

(** Example data: an environment with an OpenAI key, a provider that
    answers with a server error, and one that answers with a given
    text. *)
Definition example_env : Summarize.Env :=
  {| Summarize.OPENAI_API_KEY := Some "sk-test-key";
     Summarize.OPENROUTER_API_KEY := None;
     Summarize.AI_MODEL := None;
     Summarize.OPENAI_BASE_URL := None;
     Summarize.GH_USERNAME := None |}.

Definition failing_provider (rq : Eff.Request Summarize.ChatBody)
    : Eff.FetchResult :=
  Eff.Resolved
    {| Eff.ok := false; Eff.status := 500;
       Eff.header := fun _ => None;
       Eff.text := "Internal Server Error";
       Eff.json := None |}.

Definition replying_provider (content : string)
    (rq : Eff.Request Summarize.ChatBody) : Eff.FetchResult :=
  Eff.Resolved
    {| Eff.ok := true; Eff.status := 200;
       Eff.header := fun _ => None;
       Eff.text := "";
       Eff.json :=
         Some (Js.VObj
                 [ ("choices",
                    Js.VArr
                      [ Js.VObj
                          [ ("message",
                             Js.VObj [("content", Js.VStr content)]) ] ]) ])
    |}.

(** Example data: a GitHub that answers every request with success. The
    REST responses report [remaining] calls left; the GraphQL response
    reports none left, in its header and in its [rateLimit] object. The
    serializer of the cache and the reader of [resetAt] play no part in
    the examples and are stand-ins. *)
Definition example_headers (remaining : string) (name : string)
    : option string :=
  if String.eqb name "x-ratelimit-limit" then Some "60"
  else if String.eqb name "x-ratelimit-remaining" then Some remaining
  else if String.eqb name "x-ratelimit-reset" then Some "1736900000"
  else None.

Definition example_response (remaining : string) (v : Js.JsVal)
    : Eff.Response :=
  {| Eff.ok := true; Eff.status := 200;
     Eff.header := example_headers remaining;
     Eff.text := ""; Eff.json := Some v |}.

Definition example_graphql_response : Eff.Response :=
  example_response "0"
    (Js.VObj
       [ ("data",
          Js.VObj
            [ ("user",
               Js.VObj
                 [ ("pinnedItems",
                    Js.VObj
                      [ ("nodes",
                         Js.VArr [Js.VObj [("name", Js.VStr "proj")]]) ]) ]);
              ("rateLimit",
               Js.VObj [ ("limit", Js.VNum (Js.Int 5000));
                         ("remaining", Js.VNum (Js.Int 0)) ]) ]) ]).

Definition example_github (remaining : string) (rq : Eff.Request Js.JsVal)
    : Eff.FetchResult :=
  let u := Eff.url rq in
  if String.eqb u Fetch.GH_GQL then Eff.Resolved example_graphql_response
  else if String.eqb u "https://api.github.com/users/me" then
    Eff.Resolved
      (example_response remaining
         (Js.VObj [ ("login", Js.VStr "me");
                    ("public_repos", Js.VNum (Js.Int 1));
                    ("followers", Js.VNum (Js.Int 0)) ]))
  else if Js.includes u "/search/issues" then
    Eff.Resolved (example_response remaining (Js.VObj [("items", Js.VArr [])]))
  else Eff.Resolved (example_response remaining (Js.VArr [])).

Definition stand_in_reset (v : Js.JsVal) : Js.JsVal := Js.Undefined.
Definition stand_in_json (v : Js.JsVal) : string := "{}".

(** Example data: a cache whose window holds 80 push events followed by
    a release event, and nothing else; and a cache with the three pull
    requests of [example_cache] and one repository pushed to in the
    window. *)
Definition example_event (ty : string) : Summarize.Event.t :=
  {| Summarize.Event.id := "1"; Summarize.Event.type := ty;
     Summarize.Event.created_at := "2025-01-14T00:00:00Z";
     Summarize.Event.repo :=
       {| Summarize.Event.name := Some "me/proj";
          Summarize.Event.url := "https://api.github.com/repos/me/proj" |};
     Summarize.Event.payload := None |}.

Definition eventful_cache : Summarize.Cache.t :=
  {| Summarize.Cache.fetchedAt := "2025-01-15T00:00:00Z";
     Summarize.Cache.user := "me";
     Summarize.Cache.repos := [];
     Summarize.Cache.events :=
       (repeat (example_event "PushEvent") 80
        ++ [example_event "ReleaseEvent"])%list;
     Summarize.Cache.prs := [];
     Summarize.Cache.pinned := None |}.

Definition example_repo : Summarize.Repo.t :=
  {| Summarize.Repo.name := "proj"; Summarize.Repo.full_name := "me/proj";
     Summarize.Repo.description := None;
     Summarize.Repo.stargazers_count := 0; Summarize.Repo.forks_count := 0;
     Summarize.Repo.language := None; Summarize.Repo.topics := None;
     Summarize.Repo.html_url := "https://github.com/me/proj";
     Summarize.Repo.homepage := None;
     Summarize.Repo.pushed_at := Some "2025-01-14T00:00:00Z";
     Summarize.Repo.updated_at := Some "2025-01-14T00:00:00Z" |}.

Definition mixed_cache : Summarize.Cache.t :=
  {| Summarize.Cache.fetchedAt := "2025-01-15T00:00:00Z";
     Summarize.Cache.user := "me";
     Summarize.Cache.repos := [example_repo];
     Summarize.Cache.events := [];
     Summarize.Cache.prs := Summarize.Cache.prs example_cache;
     Summarize.Cache.pinned := None |}.

(** Example data: a reply in the format of the prompt, with a bullet
    line before the highlights delimiter. *)
Definition example_reply_body : string :=
  Js.nl ++ "- Shipped v2" ++ Js.nl ++ "  - Fixed the build" ++ Js.nl.

Definition example_reply_tail : string :=
  Js.nl ++ "### me/proj" ++ Js.nl ++ "- v2" ++ Js.nl.

Definition example_reply : string :=
  "- not a highlight" ++ Js.nl ++ "===HIGHLIGHTS===" ++ example_reply_body
  ++ "===CHANGELOG===" ++ example_reply_tail.

(** ** Notions of the further properties *)

(** A check of [P] on [n] consecutive integers from [z] on. *)
Fixpoint check_from (P : Z -> bool) (n : nat) (z : Z) : bool :=
  match n with
  | O => true
  | S k => if P z then check_from P k (z + 1) else false
  end.

(** The day of the calendar year, counted from 0, of the day [doe] of a
    400-year era that starts on a first of March. *)
Definition doe_offset (doe : Z) : Z :=
  let yoe := (doe - doe / 1460 + doe / 36524 - doe / 146096) / 365 in
  let doy := doe - (365 * yoe + yoe / 4 - yoe / 100) in
  let mp := (5 * doy + 2) / 153 in
  let m := if mp <? 10 then mp + 3 else mp - 9 in
  if m <=? 2 then doy - 306
  else if yoe =? 0 then doe + 60
  else doe - ((yoe - 1) * 365 + (yoe - 1) / 4 - (yoe - 1) / 100) - 306.

Definition doe_ok (doe : Z) : bool :=
  let yoe := (doe - doe / 1460 + doe / 36524 - doe / 146096) / 365 in
  let off := doe_offset doe in
  (0 <=? off) && (off <=? 365) && (0 <=? yoe) && (yoe <=? 399).

(** The Thursday of the Monday-to-Sunday week of a date, as a time
    value: the date that [isoWeek] moves to. *)
Definition week_thursday (y m day : Z) : Z :=
  let dt := Js.Date_UTC y m day in
  let w := Js.getUTCDay dt in
  dt + (4 - (if w =? 0 then 7 else w)) * 86400000.

(** The time value of the first of January of a year. *)
Definition year_start (year : Z) : Z :=
  Js.days_from_civil year 1 1 * 86400000.

Definition all_digits (n : nat) (s : string) : bool :=
  Nat.eqb (String.length s) n
  && forallb Summarize.is_digit (list_ascii_of_string s).

(** Four digits, a dash, two digits. *)
Definition week_shape (a : string) : Prop :=
  exists y1 y2 y3 y4 w1 w2 : ascii,
    a = String y1 (String y2 (String y3 (String y4
          (String "-" (String w1 (String w2 EmptyString))))))
    /\ Forall (fun c => Summarize.is_digit c = true) [y1; y2; y3; y4; w1; w2].

(** The message of the error [parseWeek] throws. *)
Definition week_error (a : string) : Eff.JsError :=
  Eff.Error ("Formato de --week inválido: " ++ Js.dq ++ a ++ Js.dq
             ++ ". Use YYYY-WW (ex.: 2025-34).").

(** The command-line token that names the option [k]. *)
Definition option_token (k : string) : string := "--" ++ k.

(** A token that the loop takes as the value of the option before it. *)
Definition value_token (v : string) : Prop :=
  v <> "" /\ Js.startsWith v "--" = false.

(** The option [k] is given without a value: the last occurrence of its
    token is the last argument, or is followed by an empty argument or
    by another option. *)
Definition bare_option (k : string) (argv : list string) : Prop :=
  exists pre post,
    skipn 2 argv = (pre ++ option_token k :: post)%list
    /\ ~ In (option_token k) post
    /\ match post with
       | [] => True
       | v :: _ => v = "" \/ Js.startsWith v "--" = true
       end.

(** The featured projects stand before the others. *)
Definition featured_first (l : list Projects.Project) : Prop :=
  StronglySorted
    (fun a b => Projects.featured_rank b <= Projects.featured_rank a) l.

(** The tags of a list of projects. *)
Definition has_tag (projects : list Projects.Project) (t : string) : Prop :=
  exists p ts, In p projects /\ Projects.tags p = Some ts /\ In t ts.

(** The bullet of the first release event of the window, if there is
    one. *)
Definition release_bullet (Date_getTime : string -> Js.JsNum) (now : Z)
    (cache : Summarize.Cache.t) : list string :=
  match Js.find (fun e => String.eqb (Summarize.Event.type e) "ReleaseEvent")
          (Summarize.interestingEvents Date_getTime now cache) with
  | Some rel => [Summarize.release_highlight rel]
  | None => []
  end.

(** The merge time of a pull request and the time a repository is
    sorted by, in milliseconds. *)
Definition merged_ms (Date_getTime : string -> Js.JsNum)
    (pr : Summarize.PR.t) : Z :=
  Js.to_integer (Summarize.merged_time Date_getTime pr).

Definition repo_ms (Date_getTime : string -> Js.JsNum)
    (r : Summarize.Repo.t) : Z :=
  Js.to_integer (Summarize.repo_time Date_getTime r).

(** A timestamp that reads as a time at most 14 days before [now]. *)
Definition recent (Date_getTime : string -> Js.JsNum) (now : Z)
    (iso : option string) : Prop :=
  exists s t, iso = Some s /\ s <> "" /\ Date_getTime s = Js.Int t
              /\ now - t <= 14 * 86400000.

(** A computation that writes no file, and one that sends no request. *)
Definition quiet {B A : Type} (m : Eff.M B A) : Prop :=
  Eff.writes (Eff.trace m) = [].

Definition fetchless {B A : Type} (m : Eff.M B A) : Prop :=
  Eff.fetches (Eff.trace m) = [].

(** A computation that writes nothing when it throws, and whose writes
    satisfy [W] when it completes. *)
Definition outcome {B A : Type} (W : list (string * string) -> Prop)
    (m : Eff.M B A) : Prop :=
  match Eff.completion m with
  | Eff.Throw _ => Eff.writes (Eff.trace m) = []
  | Eff.Normal _ => W (Eff.writes (Eff.trace m))
  end.

(** A computation that sends the requests [l] in this order, all of
    them when it completes and the first few of them when it throws. *)
Definition sends {B A : Type} (l : list (Eff.Request B)) (m : Eff.M B A)
    : Prop :=
  exists rest,
    l = (Eff.fetches (Eff.trace m) ++ rest)%list
    /\ forall a, Eff.completion m = Eff.Normal a -> rest = [].

(** The request of [fetchPinnedGraphQL]. *)
Definition gql_request (token author : string) : Eff.Request Js.JsVal :=
  {| Eff.url := Fetch.GH_GQL; Eff.method := "POST";
     Eff.headers :=
       List.app (Fetch.headers token) [("Content-Type", "application/json")];
     Eff.body :=
       Some (Js.VObj
               [ ("query", Js.VStr Fetch.pinned_query);
                 ("variables", Js.VObj [("login", Js.VStr author)]) ]) |}.

(** The requests of a complete run of the Collector. *)
Definition collector_requests (token : string) (limit : Js.JsNum)
    (USE_GRAPHQL : option string) (username : string)
    : list (Eff.Request Js.JsVal) :=
  let per_page :=
    Js.form_encode (Js.string_of_num (Js.min limit (Js.Int 100))) in
  ([ get_request token (Fetch.GH_API ++ "/users/" ++ username);
     get_request token
       (Fetch.GH_API ++ "/users/" ++ username
        ++ "/repos?sort=updated&per_page=" ++ per_page);
     get_request token
       (Fetch.GH_API ++ "/users/" ++ username
        ++ "/events/public?per_page=" ++ per_page);
     get_request token
       (Fetch.GH_API ++ "/search/issues?q="
        ++ Js.form_encode ("author:" ++ username ++ " type:pr is:public")
        ++ "&sort=updated&order=desc&per_page="
        ++ Js.form_encode (Js.string_of_num (Js.min (Js.Int 100) limit))) ]
   ++ (if Fetch.useGraphQL token USE_GRAPHQL
       then [gql_request token username] else []))%list.

(** The one write of a complete run of the Collector: the cache
    document, with lists no longer than a non-negative limit. *)
Definition cache_written (JSON_stringify : Js.JsVal -> string) (now : Z)
    (limit : Js.JsNum) (username : string)
    (ws : list (string * string)) : Prop :=
  exists rate repos events prs pinned,
    ws = [ (Fetch.outFile,
            JSON_stringify
              (Js.VObj [ ("fetchedAt", Js.VStr (Fetch.fetchedAt now));
                         ("user", Js.VStr username);
                         ("rate", rate);
                         ("repos", Js.VArr repos);
                         ("events", Js.VArr events);
                         ("prs", Js.VArr prs);
                         ("pinned", Js.VArr pinned) ])) ]
    /\ forall n, limit = Js.Int n -> 0 <= n ->
                 Z.of_nat (length repos) <= n
                 /\ Z.of_nat (length events) <= n
                 /\ Z.of_nat (length prs) <= n.

(** The delimiters of the reply format that the prompt asks for. *)
Definition highlights_mark : string := "===HIGHLIGHTS===".
Definition changelog_mark : string := "===CHANGELOG===".

(** A string without its last character. *)
Fixpoint init (s : string) : string :=
  match s with
  | EmptyString => EmptyString
  | String a s' =>
      match s' with
      | EmptyString => EmptyString
      | _ => String a (init s')
      end
  end.

(** In a text that goes on with [sep] after [x], that occurrence of
    [sep] is the first one: none starts within [x]. *)
Definition before_first (sep x : string) : Prop :=
  Js.includes (x ++ init sep) sep = false.

(** A reply in the format of the prompt: possibly some text and the
    highlights delimiter, then a body, the changelog delimiter and a
    tail, where the body holds no highlights delimiter, the changelog
    delimiter after the body is the first of the reply and the tail
    holds none. *)
Definition formatted_reply (t body tail : string) : Prop :=
  exists head,
    t = head ++ body ++ changelog_mark ++ tail
    /\ (head = ""
        \/ exists intro, head = intro ++ highlights_mark
                         /\ before_first highlights_mark intro)
    /\ Js.includes body highlights_mark = false
    /\ before_first changelog_mark (head ++ body)
    /\ Js.includes tail changelog_mark = false.

(** The lines of a text that, trimmed, start with a dash and a space. *)
Definition bullets (body : string) : list string :=
  filter (fun l => Js.startsWith l "- ")
    (map Js.trim (Js.split body Js.nl)).

(** * Properties *)

(** ** Strings *)

Lemma chars_app (s t : string) : chars (s ++ t) = (chars s ++ chars t)%list.
Proof.
  induction s as [|a s IH]; simpl; [reflexivity|].
  unfold chars in *. simpl. now rewrite IH.
Qed.

Lemma append_nil_r (s : string) : s ++ "" = s.
Proof. induction s as [|a s IH]; simpl; congruence. Qed.

Lemma append_assoc (s t u : string) : (s ++ t) ++ u = s ++ (t ++ u).
Proof. induction s as [|a s IH]; simpl; congruence. Qed.

Lemma replaceAll_chars (c : ascii) (r s : string) :
  chars (Js.replaceAll c r s)
  = flat_map (fun a => if Ascii.eqb a c then chars r else [a]) (chars s).
Proof.
  induction s as [|a s IH]; [reflexivity|].
  simpl. destruct (Ascii.eqb a c).
  - rewrite chars_app, IH. reflexivity.
  - unfold chars in *. simpl. now rewrite IH.
Qed.

Lemma flat_map_flat_map {A B C : Type} (f : A -> list B) (g : B -> list C)
    (l : list A) :
  flat_map g (flat_map f l) = flat_map (fun a => flat_map g (f a)) l.
Proof.
  induction l as [|a l IH]; [reflexivity|].
  simpl. now rewrite flat_map_app, IH.
Qed.

Lemma escape_chars (md : string) :
  chars (RenderMarkdown.escape md) = flat_map escape_char (chars md).
Proof.
  unfold RenderMarkdown.escape.
  rewrite !replaceAll_chars, !flat_map_flat_map.
  apply flat_map_ext. intros a. unfold escape_char.
  destruct (Ascii.eqb_spec a "&") as [->|Hamp]; [reflexivity|].
  destruct (Ascii.eqb_spec a "<") as [->|Hlt]; [reflexivity|].
  destruct (Ascii.eqb_spec a ">") as [->|Hgt]; [reflexivity|].
  simpl.
  destruct (Ascii.eqb_spec a "<") as [|_]; [contradiction|].
  simpl.
  destruct (Ascii.eqb_spec a ">") as [|_]; [contradiction|].
  reflexivity.
Qed.

Lemma escape_char_safe (b a : ascii) :
  In a (escape_char b) -> a <> "<"%char /\ a <> ">"%char.
Proof.
  unfold escape_char.
  destruct (Ascii.eqb b "&") eqn:Eamp.
  { simpl. intuition (subst; discriminate). }
  destruct (Ascii.eqb b "<") eqn:Elt.
  { simpl. intuition (subst; discriminate). }
  destruct (Ascii.eqb b ">") eqn:Egt.
  { simpl. intuition (subst; discriminate). }
  intros [<-|[]].
  apply Ascii.eqb_neq in Elt, Egt. split; assumption.
Qed.

(** C10: [renderMarkdownString md] is ["<pre>" ++ e ++ "</pre>"] where
    [e] is [md] after the three replacements, in the order ampersand,
    less-than, greater-than; character by character, [e] is [md] with
    each of the three characters replaced by its entity; and [e]
    contains neither a less-than nor a greater-than sign. *)
Theorem renderMarkdownString_escapes (md : string) :
  RenderMarkdown.renderMarkdownString md
  = "<pre>"
    ++ Js.replaceAll ">" "&gt;"
         (Js.replaceAll "<" "&lt;" (Js.replaceAll "&" "&amp;" md))
    ++ "</pre>"
  /\ chars (RenderMarkdown.escape md) = flat_map escape_char (chars md)
  /\ (forall a, In a (chars (RenderMarkdown.escape md)) ->
                a <> "<"%char /\ a <> ">"%char).
Proof.
  split; [reflexivity|]. split; [apply escape_chars|].
  intros a. rewrite escape_chars, in_flat_map.
  intros (b & _ & Hin). exact (escape_char_safe b a Hin).
Qed.

(** ** [split] on a one-character separator *)

Lemma rev_string_app (acc : list ascii) (s : string) :
  Js.rev_string acc s = Js.rev_string acc "" ++ s.
Proof.
  revert s. induction acc as [|a acc IH]; intros s; [reflexivity|].
  simpl. rewrite (IH (String a s)), (IH (String a "")).
  rewrite append_assoc. reflexivity.
Qed.

Lemma rev_string_chars (acc : list ascii) (s : string) :
  chars (Js.rev_string acc s) = (rev acc ++ chars s)%list.
Proof.
  revert s. induction acc as [|a acc IH]; intros s; [reflexivity|].
  simpl. rewrite IH, <- app_assoc. reflexivity.
Qed.

Lemma split_go_nonempty (sep s : string) (k : nat) (acc : list ascii) :
  Js.split_go sep s k acc <> [].
Proof.
  revert k acc. induction s as [|a s IH]; intros k acc; cbn [Js.split_go].
  - discriminate.
  - destruct k; [|apply IH].
    destruct (String.prefix sep (String a s)); [discriminate|apply IH].
Qed.

Lemma concat_cons (sep x : string) (l : list string) :
  l <> [] -> String.concat sep (x :: l) = x ++ sep ++ String.concat sep l.
Proof. destruct l; [congruence|reflexivity]. Qed.

Lemma prefix_char (c a : ascii) (s : string) :
  String.prefix (String c "") (String a s) = Ascii.eqb c a.
Proof.
  simpl. destruct (ascii_dec c a) as [->|Hne].
  - rewrite Ascii.eqb_refl. now destruct s.
  - symmetry. now apply Ascii.eqb_neq.
Qed.

Lemma split_go_char_join (c : ascii) (s : string) (acc : list ascii) :
  Js.join (String c "") (Js.split_go (String c "") s 0 acc)
  = Js.rev_string acc s.
Proof.
  unfold Js.join. revert acc.
  induction s as [|a s IH]; intros acc; [reflexivity|].
  cbn [Js.split_go]. rewrite prefix_char.
  destruct (Ascii.eqb_spec c a) as [->|Hne].
  - rewrite concat_cons by apply split_go_nonempty.
    cbn [String.length Nat.sub]. rewrite IH. simpl.
    now rewrite (rev_string_app acc (String a s)).
  - rewrite IH. reflexivity.
Qed.

Lemma split_go_char_free (c : ascii) (s : string) (acc : list ascii) :
  ~ In c acc ->
  Forall (fun seg => ~ In c (chars seg)) (Js.split_go (String c "") s 0 acc).
Proof.
  revert acc. induction s as [|a s IH]; intros acc Hacc.
  - constructor; [|constructor].
    rewrite rev_string_chars, in_app_iff, <- in_rev. simpl. tauto.
  - cbn [Js.split_go]. rewrite prefix_char.
    destruct (Ascii.eqb_spec c a) as [->|Hne].
    + constructor.
      * rewrite rev_string_chars, in_app_iff, <- in_rev. simpl. tauto.
      * cbn [String.length Nat.sub]. apply IH. simpl. tauto.
    + apply IH. simpl. intros [Heq|Hin]; [congruence|tauto].
Qed.

Lemma split_char_join (c : ascii) (s : string) :
  Js.join (String c "") (Js.split s (String c "")) = s.
Proof. unfold Js.split. now rewrite split_go_char_join. Qed.

Lemma split_char_free (c : ascii) (s : string) :
  Forall (fun seg => ~ In c (chars seg)) (Js.split s (String c "")).
Proof. unfold Js.split. apply split_go_char_free. simpl. tauto. Qed.

(** Without an occurrence of the separator, [split] returns the string
    itself as the only piece. *)
Lemma split_go_absent (sep s : string) (acc : list ascii) :
  Js.includes s sep = false ->
  Js.split_go sep s 0 acc = [Js.rev_string acc s].
Proof.
  revert acc. induction s as [|a s IH]; intros acc Hinc.
  - simpl in Hinc. destruct sep; [discriminate|]. simpl.
    now rewrite rev_string_app.
  - cbn [Js.includes] in Hinc. apply orb_false_iff in Hinc as [Hp Hrest].
    cbn [Js.split_go]. rewrite Hp, (IH _ Hrest). reflexivity.
Qed.

Lemma split_absent (sep s : string) :
  Js.includes s sep = false -> Js.split s sep = [s].
Proof. intros H. unfold Js.split. now rewrite split_go_absent. Qed.

(** ** Slices *)

Lemma rel_index_neg (len : nat) (i : Z) :
  i < 0 -> Js.rel_index len i = Z.to_nat (Z.max (Z.of_nat len + i) 0).
Proof.
  intros H. unfold Js.rel_index.
  destruct (Z.ltb_spec i 0); [reflexivity|lia].
Qed.

Lemma rel_index_nonneg (len : nat) (i : Z) :
  0 <= i -> Js.rel_index len i = Nat.min (Z.to_nat i) len.
Proof.
  intros H. unfold Js.rel_index.
  destruct (Z.ltb_spec i 0); [lia|reflexivity].
Qed.

Lemma slice_from_last_two {A : Type} (pre : list A) (a b : A) :
  Js.slice_from (pre ++ [a; b]) (Js.Int (-2)) = [a; b].
Proof.
  unfold Js.slice_from. simpl Js.to_integer.
  rewrite rel_index_neg by lia. rewrite length_app. simpl List.length.
  replace (Z.to_nat (Z.max (Z.of_nat (List.length pre + 2) + -2) 0))
    with (List.length pre) by lia.
  rewrite skipn_app, skipn_all, Nat.sub_diag. reflexivity.
Qed.

Lemma split_last_two_or_one (u : string) :
  (exists pre a b, Js.split u "/" = (pre ++ [a; b])%list)
  \/ Js.split u "/" = [u].
Proof.
  pose proof (split_char_join "/" u) as Hj.
  destruct (Js.split u "/") as [|x l] eqn:E.
  { unfold Js.split in E. now apply split_go_nonempty in E. }
  destruct l as [|y l].
  - right. simpl in Hj. now subst.
  - left. destruct (@exists_last _ (y :: l)) as (m & b & Hm); [discriminate|].
    rewrite Hm.
    destruct m as [|z m].
    + exists [], x, b. reflexivity.
    + destruct (@exists_last _ (z :: m)) as (m' & a & Hm'); [discriminate|].
      exists (x :: m'), a, b. rewrite Hm'. simpl. now rewrite <- app_assoc.
Qed.

(** ** C7: the repository of a pull request *)

Lemma or_else_some (s d : string) : s <> "" -> Js.or_else (Some s) d = s.
Proof. destruct s; [congruence|reflexivity]. Qed.

Lemma append_not_empty_r (s t : string) : t <> "" -> s ++ t <> "".
Proof. destruct s; simpl; [tauto|discriminate]. Qed.

Lemma join_two_not_empty (a b : string) : Js.join "/" [a; b] <> "".
Proof. simpl. apply append_not_empty_r. discriminate. Qed.

(** C7 (as amended): an absent [repository_url] gives the empty string;
    a present one is cut at its slashes (the pieces joined by slashes
    give the URL back and hold no slash), and [repoOfPR] returns the
    last two pieces joined by a slash, or the URL itself when it holds
    no slash. The result is empty only for an absent or empty URL: a
    malformed URL is not turned into the empty string. *)
Theorem repoOfPR_last_two_segments (pr : Summarize.PR.t) :
  (Summarize.PR.repository_url pr = None -> Summarize.repoOfPR pr = "")
  /\ (forall u, Summarize.PR.repository_url pr = Some u ->
        Js.join "/" (Js.split u "/") = u
        /\ Forall (fun seg => ~ In "/"%char (chars seg)) (Js.split u "/")
        /\ (forall pre a b, Js.split u "/" = (pre ++ [a; b])%list ->
              Summarize.repoOfPR pr = a ++ "/" ++ b)
        /\ (Js.split u "/" = [u] -> Summarize.repoOfPR pr = u))
  /\ (Summarize.repoOfPR pr = ""
      <-> Summarize.PR.repository_url pr = None
          \/ Summarize.PR.repository_url pr = Some "").
Proof.
  unfold Summarize.repoOfPR.
  split; [intros ->; reflexivity|]. split.
  - intros u ->. split; [apply (split_char_join "/")|].
    split; [apply (split_char_free "/")|]. split.
    + intros pre a b E. rewrite E, slice_from_last_two.
      apply or_else_some, join_two_not_empty.
    + intros E. rewrite E. destruct u; reflexivity.
  - destruct (Summarize.PR.repository_url pr) as [u|]; [|intuition].
    split.
    + intros H. right. f_equal.
      destruct (split_last_two_or_one u) as [(pre & a & b & E)|E];
        rewrite E in H.
      * rewrite slice_from_last_two in H.
        rewrite or_else_some in H by apply join_two_not_empty.
        now apply join_two_not_empty in H.
      * destruct u; [reflexivity|discriminate H].
    + intros [H|H]; [discriminate|]. injection H as ->. reflexivity.
Qed.

Lemma repoOfPR_last_two_segments_witness :
  Summarize.repoOfPR
    (example_pr 42 (Some "https://api.github.com/repos/me/proj") None)
  = "me/proj".
Proof.
  exact (proj1 (proj2 (proj2
           (proj1 (proj2 (repoOfPR_last_two_segments
              (example_pr 42 (Some "https://api.github.com/repos/me/proj")
                 None)))
              "https://api.github.com/repos/me/proj" eq_refl)))
           ["https:"; ""; "api.github.com"; "repos"] "me" "proj" eq_refl).
Defined.

(** C7, the claim as stated fails: a malformed URL is not mapped to the
    empty string. A URL without slashes comes back whole, and a URL that
    lacks the name segment yields the two segments before it. *)
Lemma repoOfPR_malformed_not_empty :
  Summarize.repoOfPR (example_pr 42 (Some "not a url") None) = "not a url"
  /\ Summarize.repoOfPR
       (example_pr 42 (Some "https://api.github.com/repos/me") None)
     = "repos/me".
Proof. split; reflexivity. Qed.

(** ** C3: the 14-day window *)

Lemma window_ms : 14 * 24 * 60 * 60 * 1000 = 14 * 86400000.
Proof. reflexivity. Qed.

(** C3 (as amended): [withinLastDays ts 14] is true exactly when [ts] is
    a non-empty string that [Date] reads as a time [t] with
    [now - t <= 14 * 86400000]. So it is false for null or undefined,
    for the empty string, for a string that is no date, and for a time
    strictly older than 14 days; it is true at exactly 14 days, and for
    every later time. *)
Theorem withinLastDays_14 (Date_getTime : string -> Js.JsNum) (now : Z)
    (iso : option string) :
  (Summarize.withinLastDays Date_getTime now iso 14 = true
   <-> exists s t, iso = Some s /\ s <> "" /\ Date_getTime s = Js.Int t
                   /\ now - t <= 14 * 86400000)
  /\ Summarize.withinLastDays Date_getTime now None 14 = false
  /\ Summarize.withinLastDays Date_getTime now (Some "") 14 = false
  /\ (forall s, Date_getTime s = Js.NaN ->
        Summarize.withinLastDays Date_getTime now (Some s) 14 = false)
  /\ (forall s t, Date_getTime s = Js.Int t -> 14 * 86400000 < now - t ->
        Summarize.withinLastDays Date_getTime now (Some s) 14 = false)
  /\ (forall s, s <> "" -> Date_getTime s = Js.Int (now - 14 * 86400000) ->
        Summarize.withinLastDays Date_getTime now (Some s) 14 = true).
Proof.
  assert (Hiff : forall i,
    Summarize.withinLastDays Date_getTime now i 14 = true
    <-> exists s t, i = Some s /\ s <> "" /\ Date_getTime s = Js.Int t
                    /\ now - t <= 14 * 86400000).
  { intros i. unfold Summarize.withinLastDays. rewrite window_ms.
    destruct i as [s|].
    - destruct s as [|a s].
      + simpl. split; [discriminate|].
        intros (s & t & E & Hs & _). injection E as <-. congruence.
      + cbn [Js.truthy negb]. destruct (Date_getTime (String a s)) as [|t] eqn:Et.
        * simpl. split; [discriminate|].
          intros (s' & t & E & _ & Ht & _). injection E as <-. congruence.
        * simpl. rewrite Z.leb_le. split.
          -- intros H. exists (String a s), t. repeat split; auto. discriminate.
          -- intros (s' & t' & E & _ & Ht & Hle). injection E as <-.
             rewrite Et in Ht. injection Ht as <-. exact Hle.
    - split; [discriminate|]. intros (s & t & E & _). discriminate. }
  split; [apply Hiff|].
  split; [reflexivity|]. split; [reflexivity|]. split; [|split].
  - intros s Hs. destruct (Summarize.withinLastDays _ _ _ _) eqn:E; [|reflexivity].
    apply Hiff in E as (s' & t & E & _ & Ht & _). injection E as <-. congruence.
  - intros s t Ht Hold.
    destruct (Summarize.withinLastDays _ _ _ _) eqn:E; [|reflexivity].
    apply Hiff in E as (s' & t' & E & _ & Ht' & Hle). injection E as <-.
    rewrite Ht in Ht'. injection Ht' as <-. lia.
  - intros s Hs Ht. apply Hiff. exists s, (now - 14 * 86400000).
    repeat split; auto. lia.
Qed.

Lemma withinLastDays_14_witness :
  Summarize.withinLastDays Js.isoTime example_now
    (Some "2025-01-01T00:00:00Z") 14 = true.
Proof.
  apply (proj2 (proj2 (proj2 (proj2 (proj2
           (withinLastDays_14 Js.isoTime example_now None)))))).
  - discriminate.
  - reflexivity.
Defined.

(** C3, the claim as stated fails: an empty string and a string that is
    no date are neither null nor older than 14 days, and both give
    false. The run time is 2025-01-15T00:00:00Z. *)
Lemma withinLastDays_false_otherwise :
  Summarize.withinLastDays Js.isoTime 1736899200000 (Some "") 14 = false
  /\ Summarize.withinLastDays Js.isoTime 1736899200000 (Some "yesterday") 14
     = false
  /\ Js.isoTime "yesterday" = Js.NaN
  /\ Js.isoTime "2025-01-15T00:00:00Z" = Js.Int 1736899200000.
Proof. repeat split; reflexivity. Qed.

(** ** C8: the recency comparators *)

Lemma sub_later_first (ta tb : Z) :
  tb < ta ->
  first_wins (Js.sub (Js.Int tb) (Js.Int ta))
  /\ Js.after (Js.sub (Js.Int ta) (Js.Int tb)) = true.
Proof.
  intros H. unfold first_wins, Js.after. simpl.
  split; apply Z.ltb_lt; lia.
Qed.

Lemma sort_pair {A : Type} (cmp : A -> A -> Js.JsNum) (a b : A) :
  first_wins (cmp a b) -> Js.after (cmp b a) = true ->
  Js.sort cmp [a; b] = [a; b] /\ Js.sort cmp [b; a] = [a; b].
Proof.
  unfold first_wins. intros Hab Hba.
  cbn [Js.sort Js.sort_insert]. rewrite Hba.
  unfold Js.after. destruct (cmp a b) as [|v]; [discriminate|].
  simpl in *. apply Z.ltb_lt in Hab.
  destruct (Z.ltb_spec 0 v); [lia|]. split; reflexivity.
Qed.

Lemma later_first {A : Type} (cmp : A -> A -> Js.JsNum) (a b : A)
    (ta tb : Z) :
  cmp a b = Js.sub (Js.Int tb) (Js.Int ta) ->
  cmp b a = Js.sub (Js.Int ta) (Js.Int tb) ->
  tb < ta ->
  first_wins (cmp a b)
  /\ Js.after (cmp b a) = true
  /\ Js.sort cmp [a; b] = [a; b]
  /\ Js.sort cmp [b; a] = [a; b].
Proof.
  intros Hab Hba Hlt.
  destruct (sub_later_first ta tb Hlt) as [H1 H2].
  rewrite <- Hab in H1. rewrite <- Hba in H2.
  split; [exact H1|]. split; [exact H2|]. now apply sort_pair.
Qed.

Lemma compareProjects_same_rank (Date_getTime : string -> Js.JsNum)
    (localeCompare : string -> string -> Js.JsNum)
    (a b : Projects.Project) (ta tb : Z) :
  Projects.featured_rank a = Projects.featured_rank b ->
  Projects.updated_time Date_getTime a = Js.Int ta ->
  Projects.updated_time Date_getTime b = Js.Int tb ->
  Projects.compareProjects Date_getTime localeCompare a b
  = if ta =? tb then localeCompare (Projects.name a) (Projects.name b)
    else Js.sub (Js.Int tb) (Js.Int ta).
Proof.
  intros Hf Ha Hb. unfold Projects.compareProjects.
  rewrite Hf, Z.eqb_refl, Ha, Hb. simpl.
  now destruct (ta =? tb).
Qed.

(** C8 (as amended): for repositories and for merged pull requests, of
    two records whose recency timestamps are valid and differ, the
    later one is ordered first. For projects the featured flag is
    compared before the timestamp: a featured project is ordered before
    one that is not, whatever their timestamps; between two projects
    with the same flag the later timestamp is ordered first, and with
    equal timestamps the order is that of [localeCompare] on the names.
    "Ordered first" is read off the comparator (negative for the first
    argument, positive when the arguments are swapped) and off the
    sorted pair. *)
Theorem recency_comparators (Date_getTime : string -> Js.JsNum)
    (localeCompare : string -> string -> Js.JsNum) :
  (forall (a b : Summarize.Repo.t) ta tb,
      Summarize.repo_time Date_getTime a = Js.Int ta ->
      Summarize.repo_time Date_getTime b = Js.Int tb ->
      tb < ta ->
      first_wins (Summarize.compareRepos Date_getTime a b)
      /\ Js.after (Summarize.compareRepos Date_getTime b a) = true
      /\ Js.sort (Summarize.compareRepos Date_getTime) [a; b] = [a; b]
      /\ Js.sort (Summarize.compareRepos Date_getTime) [b; a] = [a; b])
  /\ (forall (a b : Summarize.PR.t) ta tb,
      Summarize.merged_time Date_getTime a = Js.Int ta ->
      Summarize.merged_time Date_getTime b = Js.Int tb ->
      tb < ta ->
      first_wins (Summarize.comparePRs Date_getTime a b)
      /\ Js.after (Summarize.comparePRs Date_getTime b a) = true
      /\ Js.sort (Summarize.comparePRs Date_getTime) [a; b] = [a; b]
      /\ Js.sort (Summarize.comparePRs Date_getTime) [b; a] = [a; b])
  /\ (forall (a b : Projects.Project) ta tb,
      Projects.featured_rank a = Projects.featured_rank b ->
      Projects.updated_time Date_getTime a = Js.Int ta ->
      Projects.updated_time Date_getTime b = Js.Int tb ->
      tb < ta ->
      first_wins (Projects.compareProjects Date_getTime localeCompare a b)
      /\ Js.after (Projects.compareProjects Date_getTime localeCompare b a)
         = true
      /\ Js.sort (Projects.compareProjects Date_getTime localeCompare) [a; b]
         = [a; b]
      /\ Js.sort (Projects.compareProjects Date_getTime localeCompare) [b; a]
         = [a; b])
  /\ (forall (a b : Projects.Project) t,
      Projects.featured_rank a = Projects.featured_rank b ->
      Projects.updated_time Date_getTime a = Js.Int t ->
      Projects.updated_time Date_getTime b = Js.Int t ->
      Projects.compareProjects Date_getTime localeCompare a b
      = localeCompare (Projects.name a) (Projects.name b))
  /\ (forall (a b : Projects.Project),
      Projects.featured_rank b < Projects.featured_rank a ->
      first_wins (Projects.compareProjects Date_getTime localeCompare a b)
      /\ Js.after (Projects.compareProjects Date_getTime localeCompare b a)
         = true).
Proof.
  split; [|split; [|split; [|split]]].
  - intros a b ta tb Ha Hb Hlt. apply (later_first _ a b ta tb); [| |exact Hlt];
      unfold Summarize.compareRepos; now rewrite Ha, Hb.
  - intros a b ta tb Ha Hb Hlt. apply (later_first _ a b ta tb); [| |exact Hlt];
      unfold Summarize.comparePRs; now rewrite Ha, Hb.
  - intros a b ta tb Hf Ha Hb Hlt.
    apply (later_first _ a b ta tb); [| |exact Hlt].
    + rewrite (compareProjects_same_rank _ _ a b ta tb Hf Ha Hb).
      destruct (Z.eqb_spec ta tb); [lia|reflexivity].
    + rewrite (compareProjects_same_rank _ _ b a tb ta (eq_sym Hf) Hb Ha).
      destruct (Z.eqb_spec tb ta); [lia|reflexivity].
  - intros a b t Hf Ha Hb.
    rewrite (compareProjects_same_rank _ _ a b t t Hf Ha Hb).
    now rewrite Z.eqb_refl.
  - intros a b Hlt. unfold Projects.compareProjects, first_wins, Js.after.
    destruct (Z.eqb_spec (Projects.featured_rank a) (Projects.featured_rank b));
      [lia|].
    destruct (Z.eqb_spec (Projects.featured_rank b) (Projects.featured_rank a));
      [lia|].
    simpl. split; apply Z.ltb_lt; lia.
Qed.

Lemma recency_comparators_witness :
  Js.sort (Summarize.comparePRs Js.isoTime)
    [ example_pr 1 None (Some "2025-01-05T00:00:00Z");
      example_pr 2 None (Some "2025-01-10T00:00:00Z") ]
  = [ example_pr 2 None (Some "2025-01-10T00:00:00Z");
      example_pr 1 None (Some "2025-01-05T00:00:00Z") ].
Proof.
  exact (proj2 (proj2 (proj2
           (proj1 (proj2 (recency_comparators Js.isoTime Js.default_compare))
              (example_pr 2 None (Some "2025-01-10T00:00:00Z"))
              (example_pr 1 None (Some "2025-01-05T00:00:00Z"))
              1736467200000 1736035200000 eq_refl eq_refl eq_refl)))).
Defined.

(** C8, the claim as stated fails for projects: the featured flag is
    compared before the timestamp, so a featured project updated in 2020
    is ordered before a project updated in 2024 that is not featured. *)
Lemma compareProjects_featured_before_later :
  Projects.updated_time Js.isoTime
    (example_project "old" (Some true) (Some "2020-01-01T00:00:00Z") None)
  = Js.Int 1577836800000
  /\ Projects.updated_time Js.isoTime
       (example_project "new" None (Some "2024-01-01T00:00:00Z") None)
     = Js.Int 1704067200000
  /\ Projects.compareProjects Js.isoTime Js.default_compare
       (example_project "old" (Some true) (Some "2020-01-01T00:00:00Z") None)
       (example_project "new" None (Some "2024-01-01T00:00:00Z") None)
     = Js.Int (-1)
  /\ Js.sort (Projects.compareProjects Js.isoTime Js.default_compare)
       [ example_project "new" None (Some "2024-01-01T00:00:00Z") None;
         example_project "old" (Some true) (Some "2020-01-01T00:00:00Z") None ]
     = [ example_project "old" (Some true) (Some "2020-01-01T00:00:00Z") None;
         example_project "new" None (Some "2024-01-01T00:00:00Z") None ].
Proof. repeat split; reflexivity. Qed.

(** ** C9: the project filter *)

Lemma strip_first_whitespace (w rest : string) :
  In w Js.whitespace -> Js.strip_first Js.whitespace (w ++ rest) = Some rest.
Proof.
  unfold Js.whitespace. simpl In.
  intros H. repeat (destruct H as [<-|H]; [reflexivity|]). contradiction.
Qed.

Lemma whitespace_not_empty (w : string) :
  In w Js.whitespace -> (1 <= String.length w)%nat.
Proof.
  unfold Js.whitespace. simpl In.
  intros H. repeat (destruct H as [<-|H]; [simpl; lia|]). contradiction.
Qed.

Lemma append_length (s t : string) :
  String.length (s ++ t) = (String.length s + String.length t)%nat.
Proof. induction s as [|a s IH]; simpl; congruence. Qed.

Lemma trim_go_whitespace (ws : list string) (fuel : nat) :
  Forall (fun w => In w Js.whitespace) ws ->
  (List.length ws <= fuel)%nat ->
  Js.trim_go Js.whitespace fuel (fold_right String.append "" ws) = "".
Proof.
  revert fuel. induction ws as [|w ws IH]; intros fuel Hws Hfuel.
  - destruct fuel; reflexivity.
  - inversion Hws as [|? ? Hw Hws']; subst.
    destruct fuel as [|n]; [simpl in Hfuel; lia|].
    cbn [fold_right Js.trim_go]. rewrite strip_first_whitespace by assumption.
    apply IH; [assumption|]. simpl in Hfuel. lia.
Qed.

Lemma whitespace_tokens_length (ws : list string) :
  Forall (fun w => In w Js.whitespace) ws ->
  (List.length ws <= String.length (fold_right String.append "" ws))%nat.
Proof.
  induction 1 as [|w ws Hw _ IH]; simpl; [lia|].
  rewrite append_length. apply whitespace_not_empty in Hw. lia.
Qed.

Lemma trim_whitespace_only (s : string) : whitespace_only s -> Js.trim s = "".
Proof.
  intros (ws & Hws & ->). unfold Js.trim, Js.trimStart.
  rewrite trim_go_whitespace;
    [reflexivity|assumption|now apply whitespace_tokens_length].
Qed.

Lemma filter_Subseq {A : Type} (f : A -> bool) (l : list A) :
  Subseq (filter f l) l.
Proof.
  induction l as [|x l IH]; simpl; [constructor|].
  destruct (f x); now constructor.
Qed.

Lemma filter_all {A : Type} (f : A -> bool) (l : list A) :
  (forall x, f x = true) -> filter f l = l.
Proof.
  intros H. induction l as [|x l IH]; simpl; [reflexivity|].
  now rewrite H, IH.
Qed.

(** C9: with a query that is absent, empty or white space only, and a
    tag list that is absent or empty, [filterProjects] returns its input
    list; and for every filter the result is the input with some
    projects removed, the others in their order. The first part uses
    that [toLowerCase] maps the empty string to itself. *)
Theorem filterProjects_keeps_order (toLowerCase : string -> string)
    (projects : list Projects.Project) (opts : Projects.FilterOptions) :
  (toLowerCase "" = "" ->
   whitespace_only (Js.or_else (Projects.q opts) "") ->
   Projects.filter_tags opts = None \/ Projects.filter_tags opts = Some [] ->
   Projects.filterProjects toLowerCase projects opts = projects)
  /\ Subseq (Projects.filterProjects toLowerCase projects opts) projects.
Proof.
  split; [|apply filter_Subseq].
  intros Hlow Hq Htags. unfold Projects.filterProjects.
  rewrite (trim_whitespace_only _ Hq), Hlow.
  apply filter_all. intros p. unfold Projects.matches.
  destruct Htags as [-> | ->]; reflexivity.
Qed.

Lemma filterProjects_keeps_order_witness :
  Projects.filterProjects Js.asciiLower
    [ example_project "aurora" (Some true) None (Some ["astro"]);
      example_project "Zeta" None None None ]
    {| Projects.q := Some (Js.bytes [32; 9; 194; 160]%nat);
       Projects.filter_tags := Some [] |}
  = [ example_project "aurora" (Some true) None (Some ["astro"]);
      example_project "Zeta" None None None ].
Proof.
  apply (proj1 (filterProjects_keeps_order Js.asciiLower _ _)).
  - reflexivity.
  - exists [Js.bytes [32]%nat; Js.bytes [9]%nat; Js.bytes [194; 160]%nat].
    split; [|reflexivity].
    repeat constructor; unfold Js.whitespace; simpl; tauto.
  - right. reflexivity.
Defined.

(** ** Slices from the start *)

Lemma slice_0 {A : Type} (l : list A) (n : Js.JsNum) :
  Js.slice l (Js.Int 0) n
  = firstn (Js.rel_index (List.length l) (Js.to_integer n)) l.
Proof.
  unfold Js.slice. simpl Js.to_integer.
  rewrite (rel_index_nonneg _ 0) by lia. simpl. now rewrite Nat.sub_0_r.
Qed.

Lemma slice_0_length {A : Type} (l : list A) (m : Z) :
  List.length (Js.slice l (Js.Int 0) (Js.Int m))
  = if m <? 0 then Z.to_nat (Z.max (Z.of_nat (List.length l) + m) 0)
    else Nat.min (Z.to_nat m) (List.length l).
Proof.
  rewrite slice_0, length_firstn. simpl Js.to_integer. unfold Js.rel_index.
  destruct (Z.ltb_spec m 0); lia.
Qed.

Lemma slice_0_NaN {A : Type} (l : list A) : Js.slice l (Js.Int 0) Js.NaN = [].
Proof. rewrite slice_0. reflexivity. Qed.

(** ** C2: the changelog groups its bullets by repository *)

Lemma buckets_get_set_same (b : Summarize.Buckets) (k : string)
    (v : list string) :
  Summarize.buckets_get (Summarize.buckets_set b k v) k = Some v.
Proof.
  induction b as [|[k' v'] b IH]; simpl.
  - now rewrite String.eqb_refl.
  - destruct (String.eqb_spec k k') as [->|Hne]; simpl.
    + now rewrite String.eqb_refl.
    + destruct (String.eqb_spec k k'); [contradiction|exact IH].
Qed.

Lemma buckets_get_set_other (b : Summarize.Buckets) (k k' : string)
    (v : list string) :
  k <> k' ->
  Summarize.buckets_get (Summarize.buckets_set b k v) k'
  = Summarize.buckets_get b k'.
Proof.
  intros Hne. induction b as [|[k0 v0] b IH]; simpl.
  - destruct (String.eqb_spec k' k); [congruence|reflexivity].
  - destruct (String.eqb_spec k k0) as [->|Hk]; simpl.
    + destruct (String.eqb_spec k' k0); [congruence|reflexivity].
    + destruct (String.eqb_spec k' k0); [reflexivity|exact IH].
Qed.

Lemma buckets_keys_get (b : Summarize.Buckets) (k : string) :
  In k (map fst b) <-> Summarize.buckets_get b k <> None.
Proof.
  induction b as [|[k' v'] b IH]; simpl; [tauto|].
  destruct (String.eqb_spec k k') as [->|Hne].
  - split; [discriminate|auto].
  - rewrite <- IH. split; [intros [H|H]; congruence|auto].
Qed.

Lemma buckets_set_keys (b : Summarize.Buckets) (k : string)
    (v : list string) :
  map fst (Summarize.buckets_set b k v)
  = if existsb (String.eqb k) (map fst b) then map fst b
    else (map fst b ++ [k])%list.
Proof.
  induction b as [|[k' v'] b IH]; simpl; [reflexivity|].
  destruct (String.eqb_spec k k') as [->|Hne]; simpl; [reflexivity|].
  rewrite IH. now destruct (existsb _ _).
Qed.

Lemma buckets_set_NoDup (b : Summarize.Buckets) (k : string)
    (v : list string) :
  NoDup (map fst b) -> NoDup (map fst (Summarize.buckets_set b k v)).
Proof.
  intros Hnd. rewrite buckets_set_keys.
  destruct (existsb (String.eqb k) (map fst b)) eqn:E; [assumption|].
  apply NoDup_app; [assumption|repeat constructor; auto|].
  intros x Hx [Heq|[]]. subst x.
  assert (existsb (String.eqb k) (map fst b) = true); [|congruence].
  apply existsb_exists. exists k. split; [assumption|apply String.eqb_refl].
Qed.

Lemma add_all_NoDup (es : list (string * string)) (b : Summarize.Buckets) :
  NoDup (map fst b) -> NoDup (map fst (add_all es b)).
Proof.
  revert b. induction es as [|[k l] es IH]; intros b Hnd; [assumption|].
  apply IH. now apply buckets_set_NoDup.
Qed.

Lemma add_all_get (es : list (string * string)) (b : Summarize.Buckets)
    (k : string) :
  Summarize.buckets_get (add_all es b) k
  = match Summarize.buckets_get b k, lines_for k es with
    | Some old, new => Some (old ++ new)%list
    | None, [] => None
    | None, new => Some new
    end.
Proof.
  revert b. induction es as [|[k0 l0] es IH]; intros b.
  - simpl. destruct (Summarize.buckets_get b k); [|reflexivity].
    now rewrite app_nil_r.
  - change (add_all ((k0, l0) :: es) b)
      with (add_all es (Summarize.add b k0 l0)).
    rewrite IH. unfold Summarize.add, lines_for. cbn [filter fst snd].
    destruct (String.eqb_spec k0 k) as [->|Hne].
    + rewrite buckets_get_set_same. cbn [map snd].
      destruct (Summarize.buckets_get b k);
        [now rewrite <- app_assoc|reflexivity].
    + rewrite buckets_get_set_other by assumption. reflexivity.
Qed.

(** The two loops of [buildHeuristicChangelog] add the entries one by
    one. *)
Lemma fold_left_flat_map {A B C : Type} (f : C -> B -> C) (g : A -> list B)
    (l : list A) (c : C) :
  fold_left f (flat_map g l) c
  = fold_left (fun c' a => fold_left f (g a) c') l c.
Proof.
  revert c. induction l as [|a l IH]; intros c; [reflexivity|].
  simpl. now rewrite fold_left_app, IH.
Qed.

Lemma fold_left_map' {A B C : Type} (f : C -> B -> C) (g : A -> B)
    (l : list A) (c : C) :
  fold_left f (map g l) c = fold_left (fun c' a => f c' (g a)) l c.
Proof.
  revert c. induction l as [|a l IH]; intros c; [reflexivity|].
  simpl. now rewrite IH.
Qed.

Lemma fold_left_pointwise {A C : Type} (f g : C -> A -> C) (l : list A)
    (c : C) :
  (forall c' a, f c' a = g c' a) -> fold_left f l c = fold_left g l c.
Proof.
  intros H. revert c. induction l as [|a l IH]; intros c; [reflexivity|].
  simpl. now rewrite H, IH.
Qed.

Lemma changelog_buckets_entries (Date_getTime : string -> Js.JsNum) (now : Z)
    (cache : Summarize.Cache.t) :
  Summarize.changelog_buckets Date_getTime now cache
  = add_all (changelog_entries Date_getTime now cache) [].
Proof.
  unfold Summarize.changelog_buckets, changelog_entries, add_all.
  rewrite fold_left_app, fold_left_map', fold_left_flat_map.
  cbn [fst snd].
  apply fold_left_pointwise. intros b e. unfold Summarize.add_event.
  now rewrite fold_left_map'.
Qed.

(** The sort is a permutation, and on strings it yields an ascending
    list. *)
Lemma sort_insert_perm {A : Type} (cmp : A -> A -> Js.JsNum) (x : A)
    (l : list A) :
  Permutation (Js.sort_insert cmp x l) (x :: l).
Proof.
  induction l as [|y l IH]; simpl; [reflexivity|].
  destruct (Js.after (cmp x y)); [|reflexivity].
  rewrite IH. apply perm_swap.
Qed.

Lemma sort_perm {A : Type} (cmp : A -> A -> Js.JsNum) (l : list A) :
  Permutation (Js.sort cmp l) l.
Proof.
  induction l as [|x l IH]; simpl; [reflexivity|].
  rewrite sort_insert_perm. now constructor.
Qed.

Lemma after_default_compare (x y : string) :
  Js.after (Js.default_compare x y) = true <-> String.compare x y = Gt.
Proof.
  unfold Js.after, Js.default_compare.
  destruct (String.compare x y); cbv; split; congruence.
Qed.

Lemma sort_insert_HdRel (y x : string) (l : list string) :
  HdRel string_le y l -> string_le y x ->
  HdRel string_le y (Js.sort_insert Js.default_compare x l).
Proof.
  intros Hl Hx. destruct l as [|z l]; simpl; [now constructor|].
  destruct (Js.after (Js.default_compare x z)); constructor;
    [now inversion Hl|assumption].
Qed.

Lemma sort_insert_sorted (x : string) (l : list string) :
  Sorted string_le l -> Sorted string_le (Js.sort_insert Js.default_compare x l).
Proof.
  induction 1 as [|y l Hs IH Hhd]; simpl; [repeat constructor|].
  destruct (Js.after (Js.default_compare x y)) eqn:E.
  - apply after_default_compare in E.
    constructor; [exact IH|].
    apply sort_insert_HdRel; [assumption|].
    unfold string_le. rewrite String.compare_antisym, E. discriminate.
  - constructor; [now constructor|]. constructor.
    unfold string_le. intros Hgt. apply after_default_compare in Hgt.
    congruence.
Qed.

Lemma sort_strings_sorted (l : list string) :
  Sorted string_le (Js.sort_strings l).
Proof.
  unfold Js.sort_strings. induction l as [|x l IH]; simpl; [constructor|].
  now apply sort_insert_sorted.
Qed.

Lemma sorted_NoDup_strict (l : list string) :
  Sorted string_le l -> NoDup l -> Sorted string_lt l.
Proof.
  induction 1 as [|a l Hs IH Hhd]; intros Hnd; [constructor|].
  inversion Hnd as [|? ? Hnotin Hnd']; subst.
  constructor; [now apply IH|].
  destruct Hhd as [|b l Hab]; constructor.
  unfold string_le in Hab. unfold string_lt.
  destruct (String.compare a b) eqn:E; [|reflexivity|congruence].
  apply String.compare_eq_iff in E. subst. exfalso. apply Hnotin. now left.
Qed.

Lemma In_firstn {A : Type} (n : nat) (l : list A) (x : A) :
  In x (firstn n l) -> In x l.
Proof.
  intros H. rewrite <- (firstn_skipn n l). apply in_or_app. now left.
Qed.

Lemma flat_map_ext_in {A B : Type} (f g : A -> list B) (l : list A) :
  (forall a, In a l -> f a = g a) -> flat_map f l = flat_map g l.
Proof.
  induction l as [|a l IH]; intros H; [reflexivity|].
  simpl. rewrite (H a) by now left.
  rewrite IH; [reflexivity|]. intros b Hb. apply H. now right.
Qed.

(** The lines gathered under a key are those of its pull requests, then
    those of its events. *)
Lemma lines_for_app (k : string) (es es' : list (string * string)) :
  lines_for k (es ++ es') = (lines_for k es ++ lines_for k es')%list.
Proof. unfold lines_for. now rewrite filter_app, map_app. Qed.

Lemma lines_for_entries (Date_getTime : string -> Js.JsNum) (now : Z)
    (cache : Summarize.Cache.t) (k : string) :
  lines_for k (changelog_entries Date_getTime now cache)
  = section_lines Date_getTime now cache k.
Proof.
  unfold changelog_entries, section_lines. rewrite lines_for_app. f_equal.
  - induction (Summarize.mergedPRs Date_getTime now cache) as [|pr l IH];
      [reflexivity|].
    unfold lines_for in *. cbn [map filter fst].
    destruct (String.eqb (Summarize.repoOfPR pr) k); cbn [map snd];
      now rewrite IH.
  - induction (Summarize.interestingEvents Date_getTime now cache)
      as [|e l IH]; [reflexivity|].
    cbn [flat_map filter]. rewrite lines_for_app, IH.
    assert (Hone : lines_for k (map (pair (Summarize.event_repo e))
                                  (Summarize.event_lines e))
                   = if String.eqb (Summarize.event_repo e) k
                     then Summarize.event_lines e else []).
    { unfold lines_for.
      induction (Summarize.event_lines e) as [|x xs IHx];
        [now destruct (String.eqb _ _)|].
      cbn [map filter fst]. destruct (String.eqb (Summarize.event_repo e) k);
        cbn [map snd]; [now rewrite IHx|exact IHx]. }
    rewrite Hone. now destruct (String.eqb (Summarize.event_repo e) k).
Qed.

Lemma lines_for_not_nil (k : string) (es : list (string * string)) :
  lines_for k es <> [] <-> exists line, In (k, line) es.
Proof.
  unfold lines_for. induction es as [|[k0 l0] es IH]; cbn [filter map fst].
  - split; [congruence|intros (? & [])].
  - destruct (String.eqb_spec k0 k) as [->|Hne].
    + split; [|discriminate]. intros _. exists l0. now left.
    + rewrite IH. split; intros (line & H); exists line.
      * now right.
      * destruct H as [H|H]; [congruence|assumption].
Qed.

Lemma lines_for_skip (k k0 l0 : string) (es : list (string * string)) :
  k0 <> k -> lines_for k ((k0, l0) :: es) = lines_for k es.
Proof.
  intros Hne. unfold lines_for. cbn [filter fst].
  destruct (String.eqb_spec k0 k); [contradiction|reflexivity].
Qed.

(** Every line lands in exactly one group. *)
Lemma lines_for_partition (K : list string) (es : list (string * string)) :
  NoDup K -> (forall e, In e es -> In (fst e) K) ->
  Permutation (flat_map (fun k => lines_for k es) K) (map snd es).
Proof.
  intros Hnd. induction es as [|[k0 l0] es IH]; intros Hin.
  - simpl. induction K; [reflexivity|assumption || (simpl; apply IHK;
      now inversion Hnd)].
  - assert (Hk0 : In k0 K) by (apply (Hin (k0, l0)); now left).
    destruct (in_split _ _ Hk0) as (K1 & K2 & ->).
    apply NoDup_remove_2 in Hnd as Hnot.
    assert (H1 : forall k, In k K1 -> k0 <> k).
    { intros k Hk ->. apply Hnot, in_or_app. now left. }
    assert (H2 : forall k, In k K2 -> k0 <> k).
    { intros k Hk ->. apply Hnot, in_or_app. now right. }
    specialize (IH (fun e He => Hin e (or_intror He))).
    rewrite flat_map_app in *. cbn [flat_map] in *.
    rewrite (flat_map_ext_in (fun k => lines_for k ((k0, l0) :: es))
               (fun k => lines_for k es) K1)
      by (intros k Hk; apply lines_for_skip; auto).
    rewrite (flat_map_ext_in (fun k => lines_for k ((k0, l0) :: es))
               (fun k => lines_for k es) K2)
      by (intros k Hk; apply lines_for_skip; auto).
    unfold lines_for at 2. cbn [filter fst]. rewrite String.eqb_refl.
    cbn [map snd]. fold (lines_for k0 es).
    rewrite <- app_comm_cons, <- Permutation_middle.
    now constructor.
Qed.

Lemma changelog_buckets_get (Date_getTime : string -> Js.JsNum) (now : Z)
    (cache : Summarize.Cache.t) (k : string) :
  Summarize.buckets_get (Summarize.changelog_buckets Date_getTime now cache) k
  = match section_lines Date_getTime now cache k with
    | [] => None
    | ls => Some ls
    end.
Proof.
  rewrite changelog_buckets_entries, add_all_get, lines_for_entries.
  reflexivity.
Qed.

Lemma section_keys_spec (Date_getTime : string -> Js.JsNum) (now : Z)
    (cache : Summarize.Cache.t) (k : string) :
  In k (section_keys Date_getTime now cache)
  <-> section_lines Date_getTime now cache k <> [].
Proof.
  unfold section_keys, Js.sort_strings.
  split.
  - intros H. apply (Permutation_in _ (sort_perm _ _)) in H.
    apply buckets_keys_get in H. rewrite changelog_buckets_get in H.
    destruct (section_lines _ _ _ k); [congruence|discriminate].
  - intros H. apply (Permutation_in _ (Permutation_sym (sort_perm _ _))).
    apply buckets_keys_get. rewrite changelog_buckets_get.
    destruct (section_lines _ _ _ k); [congruence|discriminate].
Qed.

Lemma event_lines_one (e : Summarize.Event.t) :
  existsb (String.eqb (Summarize.Event.type e)) Summarize.interesting_types
  = true ->
  exists line, Summarize.event_lines e = [line].
Proof.
  intros H. apply existsb_exists in H as (ty & Hin & Heq).
  apply String.eqb_eq in Heq.
  unfold Summarize.event_lines, Summarize.when_type. rewrite Heq.
  simpl in Hin.
  repeat (destruct Hin as [<-|Hin]; [eexists; reflexivity|]).
  contradiction.
Qed.

Lemma slice_0_firstn {A : Type} (l : list A) (n : nat) :
  Js.slice l (Js.Int 0) (Js.Int (Z.of_nat n)) = firstn n l.
Proof.
  rewrite slice_0. simpl Js.to_integer.
  rewrite rel_index_nonneg by lia. rewrite Nat2Z.id.
  destruct (Nat.le_ge_cases n (List.length l)) as [H|H].
  - now rewrite Nat.min_l.
  - rewrite Nat.min_r by assumption.
    now rewrite firstn_all, firstn_all2.
Qed.

Lemma windowed_lists (Date_getTime : string -> Js.JsNum) (now : Z)
    (cache : Summarize.Cache.t) :
  Summarize.mergedPRs Date_getTime now cache
  = firstn 50 (Js.sort (Summarize.comparePRs Date_getTime)
                 (windowed_merged Date_getTime now cache))
  /\ Summarize.interestingEvents Date_getTime now cache
     = firstn 80 (windowed_events Date_getTime now cache).
Proof.
  split.
  - unfold Summarize.mergedPRs, windowed_merged.
    rewrite (slice_0_firstn _ 50). do 2 f_equal.
    apply filter_ext. intros pr. unfold Summarize.withinLastDays.
    destruct (Summarize.PR.merged_at pr) as [[|a m]|]; reflexivity.
  - unfold Summarize.interestingEvents, windowed_events.
    apply (slice_0_firstn _ 80).
Qed.

(** C2 (as amended): the changelog is built from the lists [mergedPRs]
    (the 50 most recently merged pull requests of the window, or all of
    them when there are fewer) and [interestingEvents] (the first 80
    windowed events of a listed type, or all of them when there are
    fewer): one bullet per pull request and one per event, each filed
    under its repository name. The section headers are the names that
    received a bullet, each once, in ascending order; a section lists
    the bullets of its pull requests, then those of its events, in
    encounter order; every bullet is in exactly one section; and
    without any bullet the output is the placeholder line. *)
Theorem buildHeuristicChangelog_groups (Date_getTime : string -> Js.JsNum)
    (now : Z) (cache : Summarize.Cache.t) :
  Summarize.mergedPRs Date_getTime now cache
  = firstn 50 (Js.sort (Summarize.comparePRs Date_getTime)
                 (windowed_merged Date_getTime now cache))
  /\ Summarize.interestingEvents Date_getTime now cache
     = firstn 80 (windowed_events Date_getTime now cache)
  /\ NoDup (section_keys Date_getTime now cache)
  /\ Sorted string_lt (section_keys Date_getTime now cache)
  /\ (forall k, In k (section_keys Date_getTime now cache)
                <-> exists line,
                      In (k, line) (changelog_entries Date_getTime now cache))
  /\ (forall e, In e (Summarize.interestingEvents Date_getTime now cache) ->
                exists line, Summarize.event_lines e = [line])
  /\ Permutation
       (flat_map (section_lines Date_getTime now cache)
          (section_keys Date_getTime now cache))
       (map snd (changelog_entries Date_getTime now cache))
  /\ (changelog_entries Date_getTime now cache <> [] ->
      Summarize.buildHeuristicChangelog Date_getTime now cache
      = Js.join Js.nl
          (flat_map
             (fun k => ("### " ++ k)
                       :: (section_lines Date_getTime now cache k ++ [""])%list)
             (section_keys Date_getTime now cache)))
  /\ (changelog_entries Date_getTime now cache = [] ->
      Summarize.buildHeuristicChangelog Date_getTime now cache
      = "_Sem mudanças relevantes nesta semana._").
Proof.
  assert (Hnd : NoDup (section_keys Date_getTime now cache)).
  { unfold section_keys, Js.sort_strings.
    apply (Permutation_NoDup (Permutation_sym (sort_perm _ _))).
    rewrite changelog_buckets_entries. apply add_all_NoDup. constructor. }
  assert (Hkeys : forall k, In k (section_keys Date_getTime now cache)
                  <-> exists line,
                        In (k, line) (changelog_entries Date_getTime now cache)).
  { intros k. rewrite section_keys_spec, <- lines_for_entries.
    apply lines_for_not_nil. }
  assert (Hlines : Summarize.changelog_lines Date_getTime now cache
                   = match flat_map
                             (fun k => ("### " ++ k)
                                       :: (section_lines Date_getTime now cache k
                                           ++ [""])%list)
                             (section_keys Date_getTime now cache) with
                     | [] => [Summarize.placeholder]
                     | _ =>
                         flat_map
                           (fun k => ("### " ++ k)
                                     :: (section_lines Date_getTime now cache k
                                         ++ [""])%list)
                           (section_keys Date_getTime now cache)
                     end).
  { unfold Summarize.changelog_lines. fold (section_keys Date_getTime now cache).
    rewrite (flat_map_ext_in _
               (fun k => ("### " ++ k)
                         :: (section_lines Date_getTime now cache k ++ [""])%list));
      [reflexivity|].
    intros k Hk. rewrite changelog_buckets_get.
    apply section_keys_spec in Hk.
    destruct (section_lines Date_getTime now cache k); [congruence|reflexivity]. }
  split; [apply windowed_lists|]. split; [apply windowed_lists|].
  split; [exact Hnd|]. split.
  { apply sorted_NoDup_strict; [apply sort_strings_sorted|exact Hnd]. }
  split; [exact Hkeys|]. split.
  { intros e He. apply event_lines_one.
    unfold Summarize.interestingEvents in He. rewrite slice_0 in He.
    apply In_firstn, filter_In in He. tauto. }
  split.
  { rewrite (flat_map_ext_in (section_lines Date_getTime now cache)
               (fun k => lines_for k (changelog_entries Date_getTime now cache)))
      by (intros k _; symmetry; apply lines_for_entries).
    apply lines_for_partition; [exact Hnd|].
    intros [k line] He. apply Hkeys. now exists line. }
  split.
  - intros Hne. unfold Summarize.buildHeuristicChangelog. rewrite Hlines.
    destruct (changelog_entries Date_getTime now cache) as [|[k line] es] eqn:E;
      [congruence|].
    assert (Hk : In k (section_keys Date_getTime now cache)).
    { apply Hkeys. exists line. now left. }
    destruct (section_keys Date_getTime now cache); [contradiction|].
    reflexivity.
  - intros Hnil. unfold Summarize.buildHeuristicChangelog. rewrite Hlines.
    destruct (section_keys Date_getTime now cache) as [|k K] eqn:E;
      [reflexivity|].
    exfalso. assert (Hk : In k (k :: K)) by now left.
    apply Hkeys in Hk as (line & Hin). rewrite Hnil in Hin. contradiction.
Qed.

Lemma buildHeuristicChangelog_groups_witness :
  Summarize.buildHeuristicChangelog Js.isoTime example_now example_cache
  = Js.join Js.nl
      [ "### me/proj";
        "- PR **#42** merged: Fix bug — [link](https://github.com/me/proj/pull/42)";
        "- PR **#41** merged: Fix bug — [link](https://github.com/me/proj/pull/42)";
        "";
        "### me/site";
        "- PR **#43** merged: Fix bug — [link](https://github.com/me/proj/pull/42)";
        "" ].
Proof.
  rewrite (proj1 (proj2 (proj2 (proj2 (proj2 (proj2 (proj2 (proj2
             (buildHeuristicChangelog_groups Js.isoTime example_now
                example_cache))))))))).
  - vm_compute. reflexivity.
  - vm_compute. discriminate.
Defined.

(** C2, the claim as stated fails: with 51 pull requests merged in the
    window, the last one is a merged pull request of the window and has
    no bullet in the changelog, which lists 50. *)
Lemma changelog_misses_pull_request :
  Summarize.withinLastDays Js.isoTime example_now
    (Summarize.PR.merged_at
       (example_pr 51 (Some "https://api.github.com/repos/me/proj")
          (Some "2025-01-14T00:00:00Z"))) 14 = true
  /\ existsb
       (fun pr => Z.eqb (Summarize.PR.number pr) 51)
       (Summarize.Cache.prs crowded_cache) = true
  /\ List.length (Summarize.changelog_lines Js.isoTime example_now
                    crowded_cache) = 52%nat
  /\ existsb
       (String.eqb
          (Summarize.pr_line
             (example_pr 51 (Some "https://api.github.com/repos/me/proj")
                (Some "2025-01-14T00:00:00Z"))))
       (Summarize.changelog_lines Js.isoTime example_now crowded_cache)
     = false
  /\ existsb
       (String.eqb
          (Summarize.pr_line
             (example_pr 50 (Some "https://api.github.com/repos/me/proj")
                (Some "2025-01-14T00:00:00Z"))))
       (Summarize.changelog_lines Js.isoTime example_now crowded_cache)
     = true.
Proof. repeat split; vm_compute; reflexivity. Qed.

(** ** C1: the length of the heuristic highlights *)

(** The whole numbers next to a rational. *)

Lemma Qle_bool_ceiling (q : Q) (n : Z) :
  Qle_bool q (inject_Z n) = (Qceiling q <=? n).
Proof.
  destruct (Z.leb_spec (Qceiling q) n) as [H|H].
  - apply Qle_bool_iff.
    apply Qle_trans with (inject_Z (Qceiling q)); [apply Qle_ceiling|].
    rewrite <- Zle_Qle. exact H.
  - destruct (Qle_bool q (inject_Z n)) eqn:E; [|reflexivity].
    apply Qle_bool_iff in E. apply Qceiling_resp_le in E.
    rewrite Qceiling_Z in E. lia.
Qed.

Lemma Qfloor_ge (k : Z) (q : Q) : (inject_Z k <= q)%Q -> k <= Qfloor q.
Proof.
  intros H. apply Qfloor_resp_le in H. rewrite Qfloor_Z in H. exact H.
Qed.

Lemma Qfloor_ceiling (q : Q) : Qfloor q <= Qceiling q <= Qfloor q + 1.
Proof.
  split.
  - rewrite Zle_Qle.
    apply Qle_trans with q; [apply Qfloor_le|apply Qle_ceiling].
  - apply Z.leb_le. rewrite <- Qle_bool_ceiling. apply Qle_bool_iff.
    apply Qlt_le_weak, Qlt_floor.
Qed.

Lemma truncate_nonneg (q : Q) :
  (0 <= q)%Q -> Js.truncate q = Qfloor q /\ 0 <= Qfloor q.
Proof.
  intros H. unfold Js.truncate.
  rewrite (proj2 (Qle_bool_iff 0 q) H).
  split; [reflexivity|]. apply (Qfloor_ge 0 q H).
Qed.

Lemma cap_whole (q : Q) :
  Qfloor (if Qle_bool 3 q then q else 3) = Z.max 3 (Qfloor q)
  /\ Qceiling (if Qle_bool 3 q then q else 3) = Z.max 3 (Qceiling q)
  /\ Js.truncate (if Qle_bool 3 q then q else 3) = Z.max 3 (Qfloor q).
Proof.
  pose proof (Qfloor_ceiling q) as Hfc.
  destruct (Qle_bool 3 q) eqn:E.
  - apply Qle_bool_iff in E.
    pose proof (Qfloor_ge 3 q E) as Hf.
    assert (H0 : (0 <= q)%Q).
    { apply Qle_trans with 3%Q; [discriminate|exact E]. }
    destruct (truncate_nonneg q H0) as [Ht _]. rewrite Ht. lia.
  - assert (Hc : Qceiling q <= 3).
    { apply Z.leb_le. rewrite <- (Qle_bool_ceiling q 3).
      apply Qle_bool_iff. apply Qlt_le_weak, Qnot_le_lt.
      intros H. apply Qle_bool_iff in H.
      change (inject_Z 3) with 3%Q in H. congruence. }
    change (Qfloor 3) with 3. change (Qceiling 3) with 3.
    change (Js.truncate 3) with 3. lia.
Qed.

(** The lists the function draws from, counted over the window. *)

Lemma find_count {A : Type} (p : A -> bool) (l : list A) :
  match Js.find p l with Some _ => 1%nat | None => 0%nat end
  = if existsb p l then 1%nat else 0%nat.
Proof.
  unfold Js.find. induction l as [|x l IH]; [reflexivity|].
  cbn [find existsb]. destruct (p x); [reflexivity|exact IH].
Qed.

Lemma drawn_lists (Date_getTime : string -> Js.JsNum) (now : Z)
    (cache : Summarize.Cache.t) :
  List.length (Summarize.mergedPRs Date_getTime now cache)
  = Nat.min 50 (List.length (windowed_merged Date_getTime now cache))
  /\ List.length (Summarize.recentRepos Date_getTime now cache)
     = Nat.min 20 (List.length (windowed_repos Date_getTime now cache))
  /\ match Js.find
             (fun e => String.eqb (Summarize.Event.type e) "ReleaseEvent")
             (Summarize.interestingEvents Date_getTime now cache) with
     | Some _ => 1%nat
     | None => 0%nat
     end = release_count Date_getTime now cache.
Proof.
  destruct (windowed_lists Date_getTime now cache) as [Hprs Hev].
  split; [|split].
  - rewrite Hprs, length_firstn.
    rewrite (Permutation_length (sort_perm _ _)). reflexivity.
  - unfold Summarize.recentRepos. rewrite (slice_0_firstn _ 20).
    rewrite length_firstn, (Permutation_length (sort_perm _ _)).
    reflexivity.
  - rewrite Hev. apply find_count.
Qed.

(** The length, step by step. *)

Lemma push_repos_length (q : Q) (rs : list Summarize.Repo.t)
    (out : list string) :
  List.length (Summarize.push_repos (Js.Finite q) out rs)
  = if Qceiling q <=? Z.of_nat (List.length out) then List.length out
    else Z.to_nat (Z.min (Qceiling q)
                     (Z.of_nat (List.length out + List.length rs))).
Proof.
  revert out. induction rs as [|r rs IH]; intros out;
    cbn [Summarize.push_repos Js.count_ge List.length].
  - destruct (Z.leb_spec (Qceiling q) (Z.of_nat (List.length out))); lia.
  - rewrite Qle_bool_ceiling.
    destruct (Z.leb_spec (Qceiling q) (Z.of_nat (List.length out)))
      as [Hle|Hlt]; [reflexivity|].
    rewrite IH, length_app. cbn [List.length].
    destruct (Z.leb_spec (Qceiling q) (Z.of_nat (List.length out + 1))); lia.
Qed.

Lemma buildHeuristicHighlights_count (Date_getTime : string -> Js.JsNum)
    (now : Z) (cache : Summarize.Cache.t) (q : Q) :
  List.length
    (Summarize.buildHeuristicHighlights Date_getTime now cache (Js.Finite q))
  = count_highlights (Js.truncate q) (Qceiling q) (Qfloor q)
      (Nat.min 50 (List.length (windowed_merged Date_getTime now cache)))
      (Nat.min 20 (List.length (windowed_repos Date_getTime now cache)))
      (release_count Date_getTime now cache).
Proof.
  destruct (drawn_lists Date_getTime now cache) as (HP & HR & Hk).
  rewrite <- HP, <- HR, <- Hk.
  destruct (cap_whole q) as (Hcf & Hcc & Hct).
  unfold Summarize.buildHeuristicHighlights, count_highlights.
  cbn [Js.real_max Js.slice_to Js.count_lt].
  rewrite slice_0_length, Hct.
  set (out := Summarize.push_repos _ _ _).
  assert (Hcap : (Z.max 3 (Qfloor q) <? 0) = false) by (apply Z.ltb_ge; lia).
  rewrite Hcap.
  pose proof (push_repos_length q
                (Summarize.recentRepos Date_getTime now cache)
                (map Summarize.pr_highlight
                   (Js.slice (Summarize.mergedPRs Date_getTime now cache)
                      (Js.Int 0) (Js.Int (Js.truncate q))))) as Hn.
  fold out in Hn. rewrite length_map, slice_0_length in Hn.
  rewrite <- Hn. rewrite Qle_bool_ceiling, Hcc.
  replace (negb (Z.max 3 (Qceiling q) <=? Z.of_nat (List.length out)))
    with (Z.of_nat (List.length out) <? Z.max 3 (Qceiling q))
    by (destruct (Z.ltb_spec (Z.of_nat (List.length out))
                    (Z.max 3 (Qceiling q)));
        destruct (Z.leb_spec (Z.max 3 (Qceiling q))
                    (Z.of_nat (List.length out))); (reflexivity || lia)).
  f_equal.
  destruct (Z.of_nat (List.length out) <? Z.max 3 (Qceiling q));
    [|reflexivity].
  destruct (Js.find _ _); [rewrite length_app; reflexivity|].
  now rewrite Nat.add_0_r.
Qed.

Lemma count_highlights_le (t c f : Z) (P R k : nat) :
  Z.of_nat (count_highlights t c f P R k) <= Z.max 3 f.
Proof.
  unfold count_highlights. cbv zeta.
  apply Z.le_trans with (Z.of_nat (Z.to_nat (Z.max 3 f)));
    [apply Nat2Z.inj_le, Nat.le_min_l|lia].
Qed.

Ltac count_cases f c P :=
  unfold count_highlights;
  destruct (Z.ltb_spec f 0); [lia|];
  destruct (Z.leb_spec c (Z.of_nat (Nat.min (Z.to_nat f) P)));
    [destruct (Z.ltb_spec (Z.of_nat (Nat.min (Z.to_nat f) P)) (Z.max 3 c))
    |match goal with
     | |- context [Z.of_nat (Z.to_nat ?n) <? Z.max 3 c] =>
         destruct (Z.ltb_spec (Z.of_nat (Z.to_nat n)) (Z.max 3 c))
     end];
  lia.

Lemma count_highlights_lower (c f : Z) (P R k : nat) :
  f <= c <= f + 1 -> 0 <= f ->
  Z.min f (Z.of_nat (P + R + k)) <= Z.of_nat (count_highlights f c f P R k).
Proof. intros Hc Hf. count_cases f c P. Qed.

Lemma count_highlights_full (c f : Z) (P R k : nat) :
  f <= c <= f + 1 -> 3 <= f ->
  Z.of_nat (count_highlights f c f P R k) = Z.min f (Z.of_nat (P + R + k)).
Proof. intros Hc Hf. count_cases f c P. Qed.

Lemma push_repos_all (rs : list Summarize.Repo.t) (out : list string) :
  Summarize.push_repos (Js.Infinity false) out rs
  = (out ++ map Summarize.repo_highlight rs)%list.
Proof.
  revert out. induction rs as [|r rs IH]; intros out;
    cbn [Summarize.push_repos Js.count_ge map].
  - now rewrite app_nil_r.
  - rewrite IH, <- app_assoc. reflexivity.
Qed.

Lemma push_repos_none (rs : list Summarize.Repo.t) (out : list string) :
  Summarize.push_repos (Js.Infinity true) out rs = out.
Proof. destruct rs; reflexivity. Qed.

(** C1 (as amended): the length of the list for every value of
    [maxHighlights] -- NaN, an infinity, or a finite number with or
    without a fraction. The list is empty for NaN. For a finite
    [maxHighlights] it has at most [max(3, floor maxHighlights)]
    entries; from 0 on it has at least
    [min(floor maxHighlights, available)] of them, and from 3 on
    exactly that many, hence at least [min(3, available)]; from 1 on it
    is not empty when something is available. For plus infinity it has
    [available] entries, for minus infinity the release bullet only.
    [available] counts what the function draws from: the merged pull
    requests of the window, 50 at most, the repositories pushed to or
    updated in the window, 20 at most, and one for a release event
    among the first 80 events of the window that are of a listed type.
    Below 3 the first two steps stop at [maxHighlights], so the lower
    bound [min(3, available)] need not hold there. *)
Theorem buildHeuristicHighlights_length (Date_getTime : string -> Js.JsNum)
    (now : Z) (cache : Summarize.Cache.t) (maxHighlights : Js.JsReal) :
  (maxHighlights = Js.RealNaN ->
   Summarize.buildHeuristicHighlights Date_getTime now cache maxHighlights
   = [])
  /\ (forall q, maxHighlights = Js.Finite q ->
        Z.of_nat (List.length
                    (Summarize.buildHeuristicHighlights Date_getTime now cache
                       maxHighlights))
        <= Z.max 3 (Qfloor q))
  /\ (forall q, maxHighlights = Js.Finite q -> (0 <= q)%Q ->
        Z.min (Qfloor q) (Z.of_nat (available Date_getTime now cache))
        <= Z.of_nat (List.length
                       (Summarize.buildHeuristicHighlights Date_getTime now
                          cache maxHighlights)))
  /\ (forall q, maxHighlights = Js.Finite q -> (3 <= q)%Q ->
        Z.of_nat (List.length
                    (Summarize.buildHeuristicHighlights Date_getTime now cache
                       maxHighlights))
        = Z.min (Qfloor q) (Z.of_nat (available Date_getTime now cache))
        /\ Z.min 3 (Z.of_nat (available Date_getTime now cache))
           <= Z.of_nat (List.length
                          (Summarize.buildHeuristicHighlights Date_getTime now
                             cache maxHighlights)))
  /\ (forall q, maxHighlights = Js.Finite q -> (1 <= q)%Q ->
        (0 < available Date_getTime now cache)%nat ->
        Summarize.buildHeuristicHighlights Date_getTime now cache maxHighlights
        <> [])
  /\ (maxHighlights = Js.Infinity false ->
      List.length
        (Summarize.buildHeuristicHighlights Date_getTime now cache
           maxHighlights)
      = available Date_getTime now cache)
  /\ (maxHighlights = Js.Infinity true ->
      List.length
        (Summarize.buildHeuristicHighlights Date_getTime now cache
           maxHighlights)
      = release_count Date_getTime now cache).
Proof.
  split; [|split; [|split; [|split; [|split; [|split]]]]].
  - intros ->. reflexivity.
  - intros q ->. rewrite buildHeuristicHighlights_count.
    apply count_highlights_le.
  - intros q -> Hq. rewrite buildHeuristicHighlights_count.
    destruct (truncate_nonneg q Hq) as [-> Hf].
    apply (count_highlights_lower _ _ _ _ _ (Qfloor_ceiling q) Hf).
  - intros q -> Hq. rewrite buildHeuristicHighlights_count.
    assert (H0 : (0 <= q)%Q).
    { apply Qle_trans with 3%Q; [discriminate|exact Hq]. }
    destruct (truncate_nonneg q H0) as [-> _].
    pose proof (Qfloor_ge 3 q Hq) as Hf.
    unfold available.
    rewrite (count_highlights_full _ _ _ _ _ (Qfloor_ceiling q) Hf). lia.
  - intros q -> Hq Hav Hnil.
    apply (f_equal (@List.length string)) in Hnil.
    rewrite buildHeuristicHighlights_count in Hnil.
    assert (H0 : (0 <= q)%Q).
    { apply Qle_trans with 1%Q; [discriminate|exact Hq]. }
    destruct (truncate_nonneg q H0) as [Ht _]. rewrite Ht in Hnil.
    pose proof (Qfloor_ge 1 q Hq) as Hf.
    pose proof (count_highlights_lower (Qceiling q) (Qfloor q)
                  (Nat.min 50 (List.length
                                 (windowed_merged Date_getTime now cache)))
                  (Nat.min 20 (List.length
                                 (windowed_repos Date_getTime now cache)))
                  (release_count Date_getTime now cache)
                  (Qfloor_ceiling q) ltac:(lia)) as Hlow.
    rewrite Hnil in Hlow. unfold available in Hav. cbn [List.length] in Hlow.
    lia.
  - intros ->. destruct (drawn_lists Date_getTime now cache) as (HP & HR & Hk).
    unfold available. rewrite <- HP, <- HR, <- Hk.
    unfold Summarize.buildHeuristicHighlights.
    cbn [Js.real_max Js.slice_to Js.count_lt negb].
    rewrite push_repos_all.
    destruct (Js.find _ _);
      rewrite ?length_app, !length_map; cbn [List.length]; lia.
  - intros ->. destruct (drawn_lists Date_getTime now cache) as (_ & _ & Hk).
    rewrite <- Hk.
    unfold Summarize.buildHeuristicHighlights.
    cbn [Js.real_max Js.slice_to map]. rewrite push_repos_none.
    cbn [Js.count_lt List.length Z.of_nat].
    change (negb (Qle_bool 3 (inject_Z 0))) with true. cbv iota.
    destruct (Js.find _ _); reflexivity.
Qed.

Lemma buildHeuristicHighlights_length_witness :
  Z.of_nat (List.length
              (Summarize.buildHeuristicHighlights Js.isoTime example_now
                 mixed_cache (Js.Finite (7 # 2))))
  = Z.min (Qfloor (7 # 2))
      (Z.of_nat (available Js.isoTime example_now mixed_cache)).
Proof.
  apply (proj1 (proj2 (proj2 (proj2 (buildHeuristicHighlights_length
                 Js.isoTime example_now mixed_cache (Js.Finite (7 # 2))))))
           (7 # 2) eq_refl).
  - discriminate.
Defined.

(** C1, the claim as stated fails. With three merged pull requests in
    the window, [maxHighlights = 1] gives one highlight, fewer than
    [min(3, available) = 3], and [maxHighlights = 0] gives none at all
    although pull requests qualify. And with 80 push events followed by
    a release event, all in the window, the release event qualifies but
    lies beyond the first 80 events: the list is empty at
    [maxHighlights = 5]. *)
Lemma buildHeuristicHighlights_below_floor :
  available Js.isoTime example_now example_cache = 3%nat
  /\ List.length
       (Summarize.buildHeuristicHighlights Js.isoTime example_now
          example_cache (Js.Finite 1)) = 1%nat
  /\ Summarize.buildHeuristicHighlights Js.isoTime example_now example_cache
       (Js.Finite 0) = []
  /\ existsb
       (fun e =>
          String.eqb (Summarize.Event.type e) "ReleaseEvent"
          && Summarize.withinLastDays Js.isoTime example_now
               (Some (Summarize.Event.created_at e)) 14)
       (Summarize.Cache.events eventful_cache) = true
  /\ Summarize.buildHeuristicHighlights Js.isoTime example_now eventful_cache
       (Js.Finite 5) = [].
Proof. repeat split; vm_compute; reflexivity. Qed.

(** ** C4 and C5: the generative rewrite and its fallbacks *)

Section AiSummarize.

Variable cache : Summarize.Cache.t.
Variable maxHighlights : Js.JsReal.
Variable weekStr : string.
Variable env : Summarize.Env.
Variable net : Eff.Request Summarize.ChatBody -> Eff.FetchResult.
Variable highlightsDraft : list string.
Variable changelogDraft : string.

Local Notation "'run'" :=
  (Summarize.aiSummarize cache maxHighlights weekStr env net
     highlightsDraft changelogDraft).
Local Notation "'request'" :=
  (Summarize.ai_request cache weekStr env highlightsDraft changelogDraft).
Local Notation "'draft'" :=
  (Summarize.heuristic highlightsDraft changelogDraft).

Lemma read_reply_trace (res : Eff.Response) :
  Eff.fetches
    (Eff.trace (Summarize.read_reply maxHighlights res highlightsDraft
                  changelogDraft)) = [].
Proof.
  unfold Summarize.read_reply.
  destruct (Eff.ok res); [|reflexivity]. cbn [negb].
  unfold Eff.res_json. destruct (Eff.json res) as [j|]; [|reflexivity].
  cbn [Eff.bind Eff.ret].
  destruct (Js.truthy_val (Summarize.response_text j));
    [|reflexivity]. cbn [negb].
  destruct (Summarize.response_text j); try reflexivity.
  destruct (Nat.eqb _ 0); reflexivity.
Qed.

Lemma read_reply_failed (r : Eff.Response) :
  call_fails (Eff.Resolved r) ->
  Eff.completion (Summarize.read_reply maxHighlights r highlightsDraft
                    changelogDraft) = Eff.Normal draft
  \/ exists e, Eff.completion (Summarize.read_reply maxHighlights r
                                 highlightsDraft changelogDraft)
               = Eff.Throw e.
Proof.
  intros H. unfold Summarize.read_reply.
  inversion H as [|? Hok|? Hok Hj|? j Hok Hj Ht]; subst; rewrite Hok.
  - left. reflexivity.
  - right. unfold Eff.res_json. rewrite Hj. eexists. reflexivity.
  - left. unfold Eff.res_json. rewrite Hj. cbn [negb Eff.bind Eff.ret].
    rewrite Ht. reflexivity.
Qed.

Lemma aiSummarize_run :
  Summarize.provider env <> "none" ->
  exists log warn,
    run = match net request with
          | Eff.Rejected e =>
              ([Eff.ConsoleLog log; Eff.Fetch request;
                Eff.ConsoleWarn (warn e)],
               Eff.Normal draft)
          | Eff.Resolved r =>
              match Summarize.read_reply maxHighlights r highlightsDraft
                      changelogDraft with
              | (t, Eff.Normal s) =>
                  ((Eff.ConsoleLog log :: Eff.Fetch request :: t)%list,
                   Eff.Normal s)
              | (t, Eff.Throw e) =>
                  ((Eff.ConsoleLog log :: Eff.Fetch request :: t
                    ++ [Eff.ConsoleWarn (warn e)])%list,
                   Eff.Normal draft)
              end
          end.
Proof.
  intros Hp. unfold Summarize.aiSummarize.
  destruct (String.eqb_spec (Summarize.provider env) "none") as [|_];
    [contradiction|].
  eexists. exists (fun e => "⚠️ Erro na chamada de IA: " ++ Summarize.describe e).
  unfold Eff.fetch, Eff.emit.
  destruct (net request) as [e|r].
  - reflexivity.
  - cbn [Eff.bind Eff.try_catch Eff.ret].
    destruct (Summarize.read_reply maxHighlights r highlightsDraft
                changelogDraft) as [t [s|e]]; reflexivity.
Qed.

(** C4: when the call to the provider fails -- the request is rejected,
    the status is not a success, the body does not parse or the reply
    is empty -- [aiSummarize] returns the heuristic highlights and
    changelog unchanged with source ["heuristic"], having sent exactly
    one request; and whatever the provider does, no run sends more than
    one request. *)
Theorem aiSummarize_falls_back :
  (Summarize.provider env <> "none" ->
   call_fails (net request) ->
   Eff.completion run = Eff.Normal draft
   /\ Summarize.source draft = "heuristic"
   /\ Summarize.highlights draft = highlightsDraft
   /\ Summarize.changelog draft = changelogDraft
   /\ Eff.fetches (Eff.trace run) = [request])
  /\ (List.length (Eff.fetches (Eff.trace run)) <= 1)%nat.
Proof.
  split.
  - intros Hp Hfail. destruct (aiSummarize_run Hp) as (log & warn & Hrun).
    rewrite Hrun. repeat split.
    + destruct (net request) as [e|r]; [reflexivity|].
      destruct (read_reply_failed r Hfail) as [Hn|(e & He)];
        destruct (Summarize.read_reply maxHighlights r highlightsDraft
                    changelogDraft) as [t c]; simpl in *; subst; reflexivity.
    + destruct (net request) as [e|r]; [reflexivity|].
      pose proof (read_reply_trace r) as Ht.
      destruct (Summarize.read_reply maxHighlights r highlightsDraft
                  changelogDraft) as [t [s|e]]; unfold Eff.trace in *;
        cbn [fst Eff.fetches flat_map List.app] in *.
      * now rewrite Ht.
      * unfold Eff.fetches in *. rewrite flat_map_app, Ht. reflexivity.
  - destruct (String.eqb_spec (Summarize.provider env) "none") as [Hn|Hp].
    + unfold Summarize.aiSummarize. rewrite Hn. simpl. lia.
    + destruct (aiSummarize_run Hp) as (log & warn & Hrun). rewrite Hrun.
      destruct (net request) as [e|r]; [simpl; lia|].
      pose proof (read_reply_trace r) as Ht.
      destruct (Summarize.read_reply maxHighlights r highlightsDraft
                  changelogDraft) as [t [s|e]]; unfold Eff.trace in *;
        cbn [fst Eff.fetches flat_map List.app] in *.
      * rewrite Ht. simpl. lia.
      * unfold Eff.fetches in *. rewrite flat_map_app, Ht. simpl. lia.
Qed.

End AiSummarize.

Section Attribution.

Variable Date_getTime : string -> Js.JsNum.
Variable now : Z.
Variable cache : Summarize.Cache.t.
Variable maxHighlights : Js.JsReal.
Variable weekStr : string.
Variable dryRun : bool.
Variable env : Summarize.Env.
Variable net : Eff.Request Summarize.ChatBody -> Eff.FetchResult.

Local Notation "'summarize'" :=
  (Summarize.aiSummarize cache maxHighlights weekStr env net).
Local Notation "'request'" := (Summarize.ai_request cache weekStr env).






End Attribution.

Lemma aiSummarize_falls_back_witness :
  Eff.completion
    (Summarize.aiSummarize example_cache (Js.Finite 5) "2025-03" example_env
       failing_provider ["- a highlight"] "### me/proj")
  = Eff.Normal (Summarize.heuristic ["- a highlight"] "### me/proj")
  /\ Summarize.source (Summarize.heuristic ["- a highlight"] "### me/proj")
     = "heuristic"
  /\ Summarize.highlights (Summarize.heuristic ["- a highlight"] "### me/proj")
     = ["- a highlight"]
  /\ Summarize.changelog (Summarize.heuristic ["- a highlight"] "### me/proj")
     = "### me/proj"
  /\ Eff.fetches
       (Eff.trace
          (Summarize.aiSummarize example_cache (Js.Finite 5) "2025-03"
             example_env failing_provider ["- a highlight"] "### me/proj"))
     = [ Summarize.ai_request example_cache "2025-03" example_env
           ["- a highlight"] "### me/proj" ].
Proof.
  apply (proj1 (aiSummarize_falls_back example_cache (Js.Finite 5) "2025-03"
                  example_env failing_provider ["- a highlight"]
                  "### me/proj")).
  - vm_compute. discriminate.
  - apply fails_status. reflexivity.
Defined.



(** ** C6: the rate-limit guard of the Collector *)

Section Guard.

Variable Number : string -> Js.JsNum.
Variable net : Eff.Request Js.JsVal -> Eff.FetchResult.

Lemma silent_Guarded {A : Type} (m : Eff.M Js.JsVal A) :
  silent m -> Guarded Number net m.
Proof.
  intros Hs t1 rq t2 r Ht. rewrite Hs in Ht.
  now destruct t1.
Qed.

Lemma silent_bind {A C : Type} (m : Eff.M Js.JsVal A)
    (k : A -> Eff.M Js.JsVal C) :
  silent m -> (forall a, silent (k a)) -> silent (Eff.bind m k).
Proof.
  unfold silent, Eff.trace. intros Hm Hk.
  destruct m as [t [a|e]]; simpl in *; subst; [|reflexivity].
  specialize (Hk a). destruct (k a) as [t' c]. simpl in *. now subst.
Qed.

Lemma silent_mapM {A C : Type} (f : A -> Eff.M Js.JsVal C) (l : list A) :
  (forall a, silent (f a)) -> silent (Eff.mapM f l).
Proof.
  intros Hf. induction l as [|x l IH]; [reflexivity|].
  cbn [Eff.mapM]. apply silent_bind; [apply Hf|].
  intros y. apply silent_bind; [exact IH|]. intros ys. reflexivity.
Qed.

Lemma silent_prop (v : Js.JsVal) (k : string) : silent (Fetch.prop v k).
Proof. destruct v; reflexivity. Qed.

Lemma silent_array_slice (v : Js.JsVal) (n : Js.JsNum) :
  silent (Fetch.array_slice v n).
Proof. destruct v; reflexivity. Qed.

Lemma silent_pick (v : Js.JsVal) :
  silent (Fetch.pickRepo v) /\ silent (Fetch.pickEvent v)
  /\ silent (Fetch.pickPR v) /\ silent (Fetch.pickPinned v).
Proof.
  repeat split;
    (apply silent_bind; [apply silent_prop|intros; reflexivity]).
Qed.

Lemma log_Guarded (e : Eff.Effect Js.JsVal) :
  Eff.is_fetch e = false -> Guarded Number net (Eff.emit e).
Proof.
  intros He t1 rq t2 r Ht. unfold Eff.emit, Eff.trace in Ht. simpl in Ht.
  destruct t1 as [|x t1]; simpl in Ht.
  - injection Ht as -> _. discriminate.
  - injection Ht as _ Ht. now destruct t1.
Qed.

Lemma Guarded_bind {A C : Type} (m : Eff.M Js.JsVal A)
    (k : A -> Eff.M Js.JsVal C) :
  Guarded Number net m -> (forall a, Guarded Number net (k a)) -> Guarded Number net (Eff.bind m k).
Proof.
  intros Hm Hk t1 rq t2 r Ht Hurl Hex.
  destruct m as [t [a|e]]; unfold Eff.bind in *.
  - specialize (Hk a). destruct (k a) as [t' c'] eqn:Ek.
    unfold Eff.trace, Eff.completion in *. cbn [fst snd] in *.
    apply app_eq_app in Ht as (l & [[-> Hl]|[-> Hl]]).
    + destruct l as [|x l].
      * rewrite app_nil_r in *. simpl in Hl.
        apply (Hk [] rq t2 r); auto.
      * simpl in Hl. injection Hl as <- ->.
        destruct (Hm t1 rq (l ++ [])%list r) as [_ Habs]; auto.
        { unfold Eff.trace. cbn [fst]. now rewrite app_nil_r. }
        discriminate Habs.
    + apply (Hk l rq t2 r); auto.
  - apply (Hm t1 rq t2 r); auto.
Qed.

Variable resetSeconds : Js.JsVal -> Js.JsVal.
Variable JSON_stringify : Js.JsVal -> string.
Variable now : Z.
Variable limit : Js.JsNum.
Variable dryRun : bool.
Variable token : string.
Variable USE_GRAPHQL : option string.

Lemma ghGet_trace (url : string) :
  Eff.trace (Fetch.ghGet Number net token url) = [Eff.Fetch (get_request token url)].
Proof.
  unfold Fetch.ghGet, Eff.fetch, Eff.trace. fold (get_request token url).
  destruct (net (get_request token url)) as [e|r]; [reflexivity|].
  cbn [Eff.bind].
  destruct (Js.le _ _).
  - destruct (Js.toISOString _); reflexivity.
  - destruct (negb (Eff.ok r)); [reflexivity|].
    unfold Eff.res_json. destruct (Eff.json r); reflexivity.
Qed.

Lemma ghGet_exhausted (url : string) (r : Eff.Response) :
  exhausted Number net (get_request token url) r ->
  Eff.completion (Fetch.ghGet Number net token url)
  = Eff.Throw (rate_limit_error Number r).
Proof.
  intros [Hnet Hrem].
  unfold Fetch.ghGet, Eff.fetch, Eff.completion. fold (get_request token url).
  rewrite Hnet. cbn [Eff.bind]. rewrite Hrem. unfold rate_limit_error.
  destruct (Js.toISOString _); reflexivity.
Qed.

Lemma ghGet_Guarded (url : string) :
  Guarded Number net (Fetch.ghGet Number net token url).
Proof.
  intros t1 rq t2 r Ht _ Hex. rewrite ghGet_trace in Ht.
  destruct t1 as [|x t1]; simpl in Ht.
  - injection Ht as <- <-. split; [reflexivity|].
    now rewrite (ghGet_exhausted url r Hex).
  - injection Ht as _ Ht. now destruct t1.
Qed.

Lemma ghSearchPRs_Guarded (author : string) (perPage : Js.JsNum) :
  Guarded Number net (Fetch.ghSearchPRs Number net token author perPage).
Proof.
  unfold Fetch.ghSearchPRs.
  apply Guarded_bind; [apply ghGet_Guarded|]. intros r.
  apply silent_Guarded.
  apply silent_bind; [apply silent_prop|]. intros items.
  apply silent_bind; [apply silent_array_slice|]. intros sliced.
  apply silent_bind; [apply silent_mapM; intros; apply silent_pick|].
  intros mapped. reflexivity.
Qed.

(** The pinned-items call is the one request to the GraphQL endpoint;
    the guard does not cover it. *)
Lemma fetchPinnedGraphQL_Guarded (author : string) :
  Guarded Number net (Fetch.fetchPinnedGraphQL resetSeconds net token USE_GRAPHQL author).
Proof.
  intros t1 rq t2 r Ht Hurl _. exfalso. apply Hurl.
  assert (Hall : forall x, In (Eff.Fetch x)
                     (Eff.trace (Fetch.fetchPinnedGraphQL resetSeconds net
                                   token USE_GRAPHQL author)) ->
                   Eff.url x = Fetch.GH_GQL).
  { unfold Fetch.fetchPinnedGraphQL.
    destruct (negb (Fetch.useGraphQL token USE_GRAPHQL));
      [intros x []|].
    unfold Eff.fetch. set (q := {| Eff.url := Fetch.GH_GQL |}).
    destruct (net q) as [e|res]; [intros x [H|[]]; now injection H as <-|].
    cbn [Eff.bind].
    destruct (negb (Eff.ok res)).
    { intros x [H|[H|[]]]; [now injection H as <-|discriminate]. }
    unfold Eff.res_json. destruct (Eff.json res) as [data|];
      [|intros x [H|[]]; now injection H as <-].
    cbn [Eff.bind Eff.ret].
    set (nodes := Js.or_val _ _).
    assert (Hs : silent
                   (match nodes with
                    | Js.VArr items => Eff.mapM Fetch.pickPinned items
                    | _ => Eff.throw
                             (Eff.TypeError "nodes.map is not a function")
                    end)).
    { destruct nodes; try reflexivity.
      apply silent_mapM. intros; apply silent_pick. }
    destruct (match nodes with
              | Js.VArr items => Eff.mapM Fetch.pickPinned items
              | _ => _
              end) as [t [p|e]]; unfold silent, Eff.trace in Hs;
      simpl in Hs; subst t; intros x [H|[]]; now injection H as <-. }
  apply Hall. rewrite Ht. apply in_or_app. right. now left.
Qed.

Lemma main_Guarded (username : string) :
  Guarded Number net (Fetch.main Number resetSeconds JSON_stringify now net limit dryRun
             token USE_GRAPHQL username).
Proof.
  unfold Fetch.main.
  apply Guarded_bind; [now apply log_Guarded|]. intros _.
  apply Guarded_bind; [apply ghGet_Guarded|]. intros u.
  apply Guarded_bind; [apply silent_Guarded, silent_prop|]. intros login.
  apply Guarded_bind; [now apply log_Guarded|]. intros _.
  apply Guarded_bind; [apply ghGet_Guarded|]. intros reposRes.
  apply Guarded_bind; [apply silent_Guarded, silent_array_slice|].
  intros reposRaw.
  apply Guarded_bind;
    [apply silent_Guarded, silent_mapM; intros; apply silent_pick|].
  intros repos.
  apply Guarded_bind; [apply ghGet_Guarded|]. intros eventsRes.
  apply Guarded_bind; [apply silent_Guarded, silent_array_slice|].
  intros eventsRaw.
  apply Guarded_bind;
    [apply silent_Guarded, silent_mapM; intros; apply silent_pick|].
  intros events.
  apply Guarded_bind; [apply ghSearchPRs_Guarded|]. intros prsRes.
  apply Guarded_bind; [apply fetchPinnedGraphQL_Guarded|]. intros pinnedRes.
  cbv zeta. destruct dryRun; [now apply log_Guarded|].
  apply Guarded_bind; [now apply log_Guarded|]. intros _.
  apply Guarded_bind; [now apply log_Guarded|]. intros _.
  now apply log_Guarded.
Qed.

(** C6 (as amended): every call made through [ghGet] -- the profile, the
    repositories, the events and the pull-request search -- reads the
    remaining-calls counter of the response, and when it is zero or less
    the call is the last effect of the run: [ghGet] throws the
    rate-limit error, whose message carries the limit, the counter and
    the reset time in ISO form (or the RangeError of [toISOString] when
    the reported reset time is no valid date), [main] throws it in turn
    and the script ends with status 1. The pinned-items call to the
    GraphQL endpoint is not covered by the guard. *)
Theorem rest_calls_guarded :
  (forall url r,
      exhausted Number net (get_request token url) r ->
      Eff.trace (Fetch.ghGet Number net token url)
      = [Eff.Fetch (get_request token url)]
      /\ Eff.completion (Fetch.ghGet Number net token url)
         = Eff.Throw (rate_limit_error Number r))
  /\ (forall r iso,
        Js.toISOString
          (Js.mul (Fetch.header_number Number r "x-ratelimit-reset")
             (Js.Int 1000)) = Some iso ->
        rate_limit_error Number r
        = Eff.Error
            ("Rate limit esgotado. limit="
             ++ Js.string_of_num
                  (Fetch.header_number Number r "x-ratelimit-limit")
             ++ ", remaining="
             ++ Js.string_of_num
                  (Fetch.header_number Number r "x-ratelimit-remaining")
             ++ ", reset=" ++ iso))
  /\ (forall username t1 rq t2 r,
        Eff.trace
          (Fetch.main Number resetSeconds JSON_stringify now net limit dryRun
             token USE_GRAPHQL username)
        = (t1 ++ Eff.Fetch rq :: t2)%list ->
        Eff.url rq <> Fetch.GH_GQL ->
        exhausted Number net rq r ->
        t2 = []
        /\ Eff.completion
             (Fetch.main Number resetSeconds JSON_stringify now net limit
                dryRun token USE_GRAPHQL username)
           = Eff.Throw (rate_limit_error Number r)
        /\ (username <> "" ->
            Fetch.script Number resetSeconds JSON_stringify now net limit
              dryRun token USE_GRAPHQL (Some username)
            = ((t1 ++ [Eff.Fetch rq;
                       Eff.ConsoleError
                         ("❌ Erro: " ++ Eff.message (rate_limit_error Number r))])%list,
               1))).
Proof.
  split; [|split].
  - intros url r Hex. split; [apply ghGet_trace|now apply ghGet_exhausted].
  - intros r iso Hiso. unfold rate_limit_error. now rewrite Hiso.
  - intros username t1 rq t2 r Ht Hurl Hex.
    destruct (main_Guarded username t1 rq t2 r Ht Hurl Hex) as [-> Hthrown].
    split; [reflexivity|].
    assert (Hc : Eff.completion
                   (Fetch.main Number resetSeconds JSON_stringify now net
                      limit dryRun token USE_GRAPHQL username)
                 = Eff.Throw (rate_limit_error Number r)).
    { destruct (Eff.completion _); simpl in Hthrown; [discriminate|].
      now injection Hthrown as ->. }
    split; [exact Hc|].
    intros Hne. unfold Fetch.script.
    destruct username as [|a u]; [congruence|].
    cbn [Js.or_else Js.truthy].
    destruct (Fetch.main _ _ _ _ _ _ _ _ _ _) as [t c].
    unfold Eff.trace, Eff.completion in *. cbn [fst snd] in *. subst t c.
    now rewrite <- app_assoc.
Qed.

End Guard.

Lemma rest_calls_guarded_witness :
  Eff.completion
    (Fetch.ghGet Js.decimalNumber (example_github "0") "ghp_token"
       "https://api.github.com/users/me")
  = Eff.Throw
      (Eff.Error
         "Rate limit esgotado. limit=60, remaining=0, reset=2025-01-15T00:13:20.000Z").
Proof.
  exact (proj2 (proj1 (rest_calls_guarded Js.decimalNumber (example_github "0")
                         stand_in_reset stand_in_json example_now (Js.Int 60)
                         false "ghp_token" (Some "1"))
                  "https://api.github.com/users/me"
                  (example_response "0"
                     (Js.VObj [ ("login", Js.VStr "me");
                                ("public_repos", Js.VNum (Js.Int 1));
                                ("followers", Js.VNum (Js.Int 0)) ]))
                  (conj eq_refl eq_refl))).
Defined.

(** C6, the claim as stated fails for the pinned-items call: its
    response reports no remaining calls, yet the run goes on, writes the
    cache and ends with status 0. *)
Lemma graphql_call_unguarded :
  Js.le (Fetch.header_number Js.decimalNumber example_graphql_response
           "x-ratelimit-remaining") (Js.Int 0) = true
  /\ map (fun rq => (Eff.url rq, example_github "59" rq))
       (Eff.fetches
          (fst (Fetch.script Js.decimalNumber stand_in_reset stand_in_json
                  example_now (example_github "59") (Js.Int 60) false
                  "ghp_token" (Some "1") (Some "me"))))
     = [ ("https://api.github.com/users/me",
          example_github "59" (get_request "ghp_token"
                                 "https://api.github.com/users/me"));
         ("https://api.github.com/users/me/repos?sort=updated&per_page=60",
          Eff.Resolved (example_response "59" (Js.VArr [])));
         ("https://api.github.com/users/me/events/public?per_page=60",
          Eff.Resolved (example_response "59" (Js.VArr [])));
         ("https://api.github.com/search/issues?q=author%3Ame+type%3Apr+is%3Apublic&sort=updated&order=desc&per_page=60",
          Eff.Resolved (example_response "59" (Js.VObj [("items", Js.VArr [])])));
         ("https://api.github.com/graphql",
          Eff.Resolved example_graphql_response) ]
  /\ Eff.writes
       (fst (Fetch.script Js.decimalNumber stand_in_reset stand_in_json
               example_now (example_github "59") (Js.Int 60) false
               "ghp_token" (Some "1") (Some "me")))
     = [("src/data/github.cache.json", "{}")]
  /\ snd (Fetch.script Js.decimalNumber stand_in_reset stand_in_json
            example_now (example_github "59") (Js.Int 60) false
            "ghp_token" (Some "1") (Some "me"))
     = 0.
Proof. repeat split; vm_compute; reflexivity. Qed.

(** ** The first scenario of the specification

    A cache with one pull request, number 42, titled "Fix bug", of
    repository me/proj, merged two days before the run; five highlights
    asked for and no provider key in the environment. The highlights
    are the one bullet of that pull request and the source tag is
    ["heuristic"]. *)
Example scenario_one_merged_pr :
  let cache :=
    {| Summarize.Cache.fetchedAt := "2025-01-15T00:00:00Z";
       Summarize.Cache.user := "me";
       Summarize.Cache.repos := [];
       Summarize.Cache.events := [];
       Summarize.Cache.prs :=
         [ example_pr 42 (Some "https://api.github.com/repos/me/proj")
             (Some "2025-01-13T00:00:00Z") ];
       Summarize.Cache.pinned := None |} in
  let env :=
    {| Summarize.OPENAI_API_KEY := None;
       Summarize.OPENROUTER_API_KEY := None;
       Summarize.AI_MODEL := None;
       Summarize.OPENAI_BASE_URL := None;
       Summarize.GH_USERNAME := None |} in
  Eff.completion
    (Summarize.aiSummarize cache (Js.Finite 5) "2025-03" env failing_provider
       (Summarize.buildHeuristicHighlights Js.isoTime example_now cache
          (Js.Finite 5))
       (Summarize.buildHeuristicChangelog Js.isoTime example_now cache))
  = Eff.Normal
      {| Summarize.source := "heuristic";
         Summarize.highlights :=
           [ "- **Fix bug** — PR **#42** merged em [me/proj](https://github.com/me/proj). [Ver PR](https://github.com/me/proj/pull/42)." ];
         Summarize.changelog :=
           Js.join Js.nl
             [ "### me/proj";
               "- PR **#42** merged: Fix bug — [link](https://github.com/me/proj/pull/42)";
               "" ] |}.
Proof. vm_compute. reflexivity. Qed.

(** * Further properties of the sources *)

(** ** The ISO week (isoWeek, fmtWeek, parseWeek) *)

Lemma check_from_spec (P : Z -> bool) (n : nat) (z : Z) :
  check_from P n z = true ->
  forall x, z <= x < z + Z.of_nat n -> P x = true.
Proof.
  revert z. induction n as [|n IH]; intros z H x Hx; [lia|].
  cbn [check_from] in H. destruct (P z) eqn:Pz; [|discriminate].
  destruct (Z.eq_dec x z) as [->|Hne]; [exact Pz|].
  apply (IH (z + 1) H). lia.
Qed.

Lemma doe_ok_all (doe : Z) : 0 <= doe < 146097 -> doe_ok doe = true.
Proof.
  intros H. apply (check_from_spec doe_ok (Z.to_nat 146097) 0); [|lia].
  vm_cast_no_check (eq_refl true).
Qed.

Lemma year_offset (D : Z) :
  D - Js.days_from_civil (fst (fst (Js.civil_from_days D))) 1 1
  = doe_offset ((D + 719468) mod 146097).
Proof.
  pose proof (Z.mod_pos_bound (D + 719468) 146097 ltac:(lia)) as Hdoe.
  pose proof (doe_ok_all _ Hdoe) as Hok.
  assert (Hz : (D + 719468) - (D + 719468) / 146097 * 146097
               = (D + 719468) mod 146097).
  { rewrite Z.mod_eq by lia. lia. }
  unfold Js.civil_from_days. cbv zeta. cbn [fst].
  rewrite Hz.
  set (era := (D + 719468) / 146097) in *.
  set (doe := (D + 719468) mod 146097) in *.
  assert (HD : D = era * 146097 + doe - 719468) by lia.
  unfold doe_ok, doe_offset in *. cbv zeta in *.
  set (yoe := (doe - doe / 1460 + doe / 36524 - doe / 146096) / 365) in *.
  set (doy := doe - (365 * yoe + yoe / 4 - yoe / 100)) in *.
  set (mp := (5 * doy + 2) / 153) in *.
  set (m := if mp <? 10 then mp + 3 else mp - 9) in *.
  apply andb_prop in Hok. destruct Hok as [Hok H399].
  apply andb_prop in Hok. destruct Hok as [Hok H0].
  clear Hok. apply Z.leb_le in H399, H0.
  unfold Js.days_from_civil. cbv zeta.
  replace (1 <=? 2) with true by reflexivity.
  replace ((153 * (1 + 9) + 2) / 5 + 1 - 1) with 306 by reflexivity.
  destruct (m <=? 2) eqn:Hm.
  - replace (yoe + era * 400 + 1 - 1) with (yoe + era * 400) by lia.
    assert (He : (yoe + era * 400) / 400 = era).
    { rewrite Z.div_add by lia. rewrite Z.div_small by lia. lia. }
    rewrite He.
    replace (yoe + era * 400 - era * 400) with yoe by lia.
    subst doy. lia.
  - destruct (yoe =? 0) eqn:Hy.
    + apply Z.eqb_eq in Hy. rewrite Hy.
      replace (0 + era * 400 + 0 - 1) with (399 + (era - 1) * 400) by lia.
      assert (He : (399 + (era - 1) * 400) / 400 = era - 1).
      { rewrite Z.div_add by lia. rewrite Z.div_small by lia. lia. }
      rewrite He.
      replace (399 + (era - 1) * 400 - (era - 1) * 400) with 399 by lia.
      replace (399 / 4) with 99 by reflexivity.
      replace (399 / 100) with 3 by reflexivity. lia.
    + apply Z.eqb_neq in Hy.
      replace (yoe + era * 400 + 0 - 1) with ((yoe - 1) + era * 400) by lia.
      assert (He : ((yoe - 1) + era * 400) / 400 = era).
      { rewrite Z.div_add by lia. rewrite Z.div_small by lia. lia. }
      rewrite He.
      replace (yoe - 1 + era * 400 - era * 400) with (yoe - 1) by lia.
      lia.
Qed.

Lemma year_offset_range (D : Z) :
  0 <= D - Js.days_from_civil (fst (fst (Js.civil_from_days D))) 1 1 <= 365.
Proof.
  rewrite year_offset.
  pose proof (Z.mod_pos_bound (D + 719468) 146097 ltac:(lia)) as Hdoe.
  pose proof (doe_ok_all _ Hdoe) as Hok.
  unfold doe_ok in Hok. cbv zeta in Hok.
  apply andb_prop in Hok. destruct Hok as [Hok _].
  apply andb_prop in Hok. destruct Hok as [Hok _].
  apply andb_prop in Hok. destruct Hok as [H1 H2].
  apply Z.leb_le in H1, H2. lia.
Qed.

Lemma isoWeek_unfold (y m day : Z) :
  Summarize.isoWeek y m day
  = (Js.getUTCFullYear (week_thursday y m day),
     Js.ceil_div
       ((week_thursday y m day
         - Js.Date_UTC (Js.getUTCFullYear (week_thursday y m day)) 0 1)
        / 86400000 + 1) 7).
Proof. reflexivity. Qed.

Lemma Date_UTC_days (y m d : Z) :
  exists D, Js.Date_UTC y m d = D * 86400000.
Proof. unfold Js.Date_UTC. cbv zeta. eexists. reflexivity. Qed.

Lemma week_thursday_days (y m day : Z) :
  exists D K,
    Js.Date_UTC y m day = D * 86400000
    /\ week_thursday y m day = K * 86400000
    /\ (K + 4) mod 7 = 4
    /\ D - 3 <= K <= D + 3.
Proof.
  destruct (Date_UTC_days y m day) as [D HD].
  unfold week_thursday. cbv zeta. rewrite HD.
  unfold Js.getUTCDay. rewrite Z.div_mul by lia.
  exists D.
  exists (D + (4 - (if (D + 4) mod 7 =? 0 then 7 else (D + 4) mod 7))).
  split; [reflexivity|]. split; [lia|].
  pose proof (Z.mod_pos_bound (D + 4) 7 ltac:(lia)) as Hb.
  pose proof (Z.div_mod (D + 4) 7 ltac:(lia)) as Hdm.
  destruct ((D + 4) mod 7 =? 0) eqn:Hw.
  - apply Z.eqb_eq in Hw. split; [|lia].
    replace (D + (4 - 7) + 4) with (4 + ((D + 4) / 7 - 1) * 7) by lia.
    rewrite Z.mod_add by lia. reflexivity.
  - apply Z.eqb_neq in Hw. split; [|lia].
    replace (D + (4 - (D + 4) mod 7) + 4) with (4 + ((D + 4) / 7) * 7) by lia.
    rewrite Z.mod_add by lia. reflexivity.
Qed.

Lemma getUTCFullYear_days (K : Z) :
  Js.getUTCFullYear (K * 86400000) = fst (fst (Js.civil_from_days K)).
Proof.
  unfold Js.getUTCFullYear. rewrite Z.div_mul by lia.
  destruct (Js.civil_from_days K) as [[yr mo] dd]. reflexivity.
Qed.

Lemma Date_UTC_year_start (year : Z) :
  ~ (0 <= year <= 99) -> Js.Date_UTC year 0 1 = year_start year.
Proof.
  intros H. unfold Js.Date_UTC, year_start. cbv zeta.
  replace ((0 <=? year) && (year <=? 99)) with false.
  - replace (0 / 12) with 0 by reflexivity.
    replace (0 mod 12 + 1) with 1 by reflexivity.
    rewrite Z.add_0_r. f_equal. lia.
  - symmetry. apply andb_false_iff.
    destruct (Z.leb_spec 0 year); [|left; reflexivity].
    destruct (Z.leb_spec year 99); [lia|right; reflexivity].
Qed.

(** X1: the date that [isoWeek] works from is the Thursday of the
    Monday-to-Sunday week of the given date: it falls on a Thursday, at
    most three days from the date, and the year of the result is the
    calendar year of that Thursday (so the last days of December may
    belong to the next year's first week, and the first days of January
    to the previous year's last week). *)
Theorem isoWeek_year_of_thursday (y m day : Z) :
  Js.getUTCDay (week_thursday y m day) = 4
  /\ Js.Date_UTC y m day - 3 * 86400000 <= week_thursday y m day
     <= Js.Date_UTC y m day + 3 * 86400000
  /\ fst (Summarize.isoWeek y m day)
     = Js.getUTCFullYear (week_thursday y m day).
Proof.
  destruct (week_thursday_days y m day) as (D & K & HD & HK & Hth & Hr).
  split; [|split].
  - rewrite HK. unfold Js.getUTCDay. rewrite Z.div_mul by lia. exact Hth.
  - rewrite HD, HK. lia.
  - rewrite isoWeek_unfold. reflexivity.
Qed.

Lemma isoWeek_day_of_year (y m day : Z) :
  ~ (0 <= fst (Summarize.isoWeek y m day) <= 99) ->
  exists n,
    0 <= n <= 365
    /\ week_thursday y m day
       - year_start (fst (Summarize.isoWeek y m day)) = n * 86400000
    /\ snd (Summarize.isoWeek y m day) = n / 7 + 1.
Proof.
  rewrite isoWeek_unfold. cbn [fst snd]. intros Hyear.
  rewrite (Date_UTC_year_start _ Hyear).
  destruct (week_thursday_days y m day) as (D & K & _ & HK & _ & _).
  rewrite HK in *. rewrite getUTCFullYear_days in *.
  pose proof (year_offset_range K) as Hoff.
  unfold year_start.
  set (Y0 := Js.days_from_civil (fst (fst (Js.civil_from_days K))) 1 1) in *.
  exists (K - Y0). split; [exact Hoff|]. split; [lia|].
  replace (K * 86400000 - Y0 * 86400000) with ((K - Y0) * 86400000) by lia.
  rewrite Z.div_mul by lia.
  unfold Js.ceil_div.
  replace (K - Y0 + 1 + 7 - 1) with ((K - Y0) + 1 * 7) by lia.
  rewrite Z.div_add by lia. reflexivity.
Qed.

Lemma week_of_day (n : Z) : 0 <= n <= 365 -> 1 <= n / 7 + 1 <= 53.
Proof.
  intros Hn.
  pose proof (Z.div_pos n 7 ltac:(lia) ltac:(lia)) as Hq0.
  assert (Hq : n / 7 <= 52).
  { apply Z.lt_succ_r. apply Z.div_lt_upper_bound; lia. }
  lia.
Qed.

(** X2: when the year of the result is not one of the years 0 to 99
    (which [Date.UTC] reads as 1900 to 1999), the week number lies
    between 1 and 53, the Thursday of the week falls in the year of the
    result, and the week number counts the Thursdays of that year up to
    it. *)
Theorem isoWeek_week_range (y m day : Z) :
  ~ (0 <= fst (Summarize.isoWeek y m day) <= 99) ->
  1 <= snd (Summarize.isoWeek y m day) <= 53
  /\ year_start (fst (Summarize.isoWeek y m day)) <= week_thursday y m day
  /\ snd (Summarize.isoWeek y m day)
     = (week_thursday y m day
        - year_start (fst (Summarize.isoWeek y m day))) / 604800000 + 1.
Proof.
  intros Hyear.
  destruct (isoWeek_day_of_year y m day Hyear) as (n & Hn & Hth & Hweek).
  rewrite Hweek, Hth. split; [apply week_of_day, Hn|]. split; [lia|].
  replace 604800000 with (7 * 86400000) by reflexivity.
  rewrite Z.div_mul_cancel_r by lia. reflexivity.
Qed.

Lemma isoWeek_week_range_witness :
  ~ (0 <= fst (Summarize.isoWeek 2024 11 30) <= 99)
  /\ Summarize.isoWeek 2024 11 30 = (2025, 1)
  /\ 1 <= snd (Summarize.isoWeek 2024 11 30) <= 53.
Proof.
  split; [vm_compute; intros [_ H]; apply H; reflexivity|].
  split; [vm_compute; reflexivity|].
  apply (isoWeek_week_range 2024 11 30).
  vm_compute. intros [_ H]. apply H. reflexivity.
Defined.

Lemma year_digits (year : Z) :
  1000 <= year <= 9999 -> all_digits 4 (Js.string_of_Z year) = true.
Proof.
  intros H.
  apply (check_from_spec (fun z => all_digits 4 (Js.string_of_Z z))
           (Z.to_nat 9000) 1000); [|lia].
  vm_cast_no_check (eq_refl true).
Qed.

Lemma week_digits (week : Z) :
  1 <= week <= 53 -> all_digits 2 (Js.padStart0 2 week) = true.
Proof.
  intros H.
  apply (check_from_spec (fun z => all_digits 2 (Js.padStart0 2 z))
           (Z.to_nat 53) 1); [|lia].
  vm_cast_no_check (eq_refl true).
Qed.

Lemma week_pattern_digits (a b : string) :
  all_digits 4 a = true -> all_digits 2 b = true ->
  Summarize.week_pattern (a ++ "-" ++ b) = true.
Proof.
  unfold all_digits. intros Ha Hb.
  apply andb_prop in Ha. destruct Ha as [La Da].
  apply andb_prop in Hb. destruct Hb as [Lb Db].
  destruct a as [|a1 [|a2 [|a3 [|a4 [|a5 a]]]]]; try discriminate La.
  destruct b as [|b1 [|b2 [|b3 b]]]; try discriminate Lb.
  cbn [list_ascii_of_string forallb] in Da, Db.
  repeat (apply andb_prop in Da; destruct Da as [? Da]).
  repeat (apply andb_prop in Db; destruct Db as [? Db]).
  unfold Summarize.week_pattern. cbn [append list_ascii_of_string].
  repeat match goal with
         | H : Summarize.is_digit _ = true |- _ => rewrite H; clear H
         end.
  reflexivity.
Qed.

Lemma week_pattern_shape (a : string) :
  Summarize.week_pattern a = true <-> week_shape a.
Proof.
  unfold Summarize.week_pattern, week_shape. split.
  - intros H.
    destruct a as [|y1 [|y2 [|y3 [|y4 [|d [|w1 [|w2 [|c a]]]]]]]];
      try discriminate H.
    cbn [list_ascii_of_string] in H.
    destruct (Summarize.is_digit y1) eqn:E1; [|discriminate H].
    destruct (Summarize.is_digit y2) eqn:E2; [|discriminate H].
    destruct (Summarize.is_digit y3) eqn:E3; [|discriminate H].
    destruct (Summarize.is_digit y4) eqn:E4; [|discriminate H].
    destruct (Ascii.eqb d "-") eqn:Ed; [|discriminate H].
    destruct (Summarize.is_digit w1) eqn:E5; [|discriminate H].
    destruct (Summarize.is_digit w2) eqn:E6; [|discriminate H].
    exists y1, y2, y3, y4, w1, w2. split.
    + apply Ascii.eqb_eq in Ed. subst d. reflexivity.
    + repeat constructor; assumption.
  - intros (y1 & y2 & y3 & y4 & w1 & w2 & -> & HF).
    cbn [list_ascii_of_string].
    repeat match goal with
           | H : Forall _ (_ :: _) |- _ => inversion H; subst; clear H
           end.
    repeat match goal with
           | H : Summarize.is_digit _ = true |- _ => rewrite H; clear H
           end.
    reflexivity.
Qed.

Lemma week_pattern_truthy (a : string) :
  Summarize.week_pattern a = true -> Js.truthy a = true.
Proof. destruct a; [discriminate|reflexivity]. Qed.

(** X3: a week label that [fmtWeek] produces for a year of four digits
    passes the validation of [parseWeek] and is returned as it is: the
    default week of one run can be given to the next run as [--week]. *)
Theorem parseWeek_accepts_fmtWeek (y m day y' m' day' : Z) :
  1000 <= fst (Summarize.isoWeek y m day) <= 9999 ->
  Summarize.parseWeek y' m' day' (Some (Summarize.fmtWeek y m day))
  = Eff.Normal (Summarize.fmtWeek y m day).
Proof.
  intros Hyear.
  assert (Hw : 1 <= snd (Summarize.isoWeek y m day) <= 53).
  { destruct (isoWeek_day_of_year y m day ltac:(lia)) as (n & Hn & _ & ->).
    apply week_of_day, Hn. }
  assert (Hp : Summarize.week_pattern (Summarize.fmtWeek y m day) = true).
  { unfold Summarize.fmtWeek.
    destruct (Summarize.isoWeek y m day) as [year week]. cbn [fst snd] in *.
    apply week_pattern_digits; [apply year_digits|apply week_digits];
      assumption. }
  unfold Summarize.parseWeek.
  rewrite (week_pattern_truthy _ Hp), Hp. reflexivity.
Qed.

Lemma parseWeek_accepts_fmtWeek_witness :
  1000 <= fst (Summarize.isoWeek 2025 0 15) <= 9999
  /\ Summarize.parseWeek 1999 5 5 (Some (Summarize.fmtWeek 2025 0 15))
     = Eff.Normal "2025-03".
Proof.
  split; [vm_compute; split; discriminate|].
  apply (parseWeek_accepts_fmtWeek 2025 0 15 1999 5 5).
  vm_compute; split; discriminate.
Defined.

(** X4: [parseWeek] returns the current week when the argument is absent
    or empty; it returns a non-empty argument unchanged exactly when the
    argument is four digits, a dash and two digits (the week number is
    not checked against 1 to 53); every other argument makes it throw an
    error whose message quotes the argument. *)
Theorem parseWeek_cases (y m day : Z) (arg : option string) :
  (arg = None \/ arg = Some "" ->
   Summarize.parseWeek y m day arg = Eff.Normal (Summarize.fmtWeek y m day))
  /\ (forall a, arg = Some a -> a <> "" ->
      (week_shape a /\ Summarize.parseWeek y m day arg = Eff.Normal a)
      \/ (~ week_shape a
          /\ Summarize.parseWeek y m day arg = Eff.Throw (week_error a))).
Proof.
  split.
  - intros [->| ->]; reflexivity.
  - intros a -> Ha. unfold Summarize.parseWeek.
    destruct a as [|c a]; [congruence|]. cbn [Js.truthy negb].
    destruct (Summarize.week_pattern (String c a)) eqn:Hp.
    + left. split; [apply week_pattern_shape; exact Hp|reflexivity].
    + right. split; [|reflexivity].
      intros Hs. apply week_pattern_shape in Hs. congruence.
Qed.

(** ** The command line (the loop over [process.argv]) *)

Lemma startsWith_option (k : string) :
  Js.startsWith (option_token k) "--" = true.
Proof.
  unfold Js.startsWith, option_token. cbn.
  destruct (ascii_dec "-" "-") as [_|H]; [|congruence].
  destruct k; reflexivity.
Qed.

Lemma startsWith_drop (a : string) :
  Js.startsWith a "--" = true -> a = option_token (Js.str_drop 2 a).
Proof.
  unfold Js.startsWith, option_token.
  destruct a as [|c1 [|c2 a]]; cbn [String.prefix Js.str_drop append];
    intros H.
  - discriminate H.
  - destruct (ascii_dec "-" c1); discriminate.
  - destruct (ascii_dec "-" c1) as [<-|]; [|discriminate].
    destruct (ascii_dec "-" c2) as [<-|]; [|discriminate].
    reflexivity.
Qed.

Lemma option_token_inj (k k' : string) :
  option_token k = option_token k' -> k = k'.
Proof. unfold option_token. cbn. congruence. Qed.

Lemma args_get_set (m : Cli.Args) (k k' : string) (v : Cli.ArgVal) :
  Cli.args_get (Cli.args_set m k v) k'
  = if String.eqb k' k then Some v else Cli.args_get m k'.
Proof.
  induction m as [|[k0 v0] m IH]; cbn [Cli.args_set Cli.args_get].
  - reflexivity.
  - destruct (String.eqb k k0) eqn:E0; cbn [Cli.args_get].
    + apply String.eqb_eq in E0. subst k0.
      destruct (String.eqb k' k); reflexivity.
    + rewrite IH. destruct (String.eqb k' k0) eqn:E1; [|reflexivity].
      apply String.eqb_eq in E1. subst k0.
      destruct (String.eqb k' k) eqn:E2; [|reflexivity].
      apply String.eqb_eq in E2. subst k'.
      rewrite String.eqb_refl in E0. discriminate.
Qed.

Lemma args_get_set_other (m : Cli.Args) (a k : string) (v : Cli.ArgVal) :
  Js.startsWith a "--" = true -> a <> option_token k ->
  Cli.args_get (Cli.args_set m (Js.str_drop 2 a) v) k = Cli.args_get m k.
Proof.
  intros Ha Hne. rewrite args_get_set.
  destruct (String.eqb k (Js.str_drop 2 a)) eqn:E; [|reflexivity].
  apply String.eqb_eq in E. exfalso. apply Hne.
  rewrite (startsWith_drop a Ha). rewrite E. reflexivity.
Qed.

Lemma parse_from_absent (n : nat) :
  forall (tokens : list string) (m : Cli.Args) (k : string),
    (length tokens <= n)%nat ->
    ~ In (option_token k) tokens ->
    Cli.args_get (Cli.parse_from tokens m) k = Cli.args_get m k.
Proof.
  induction n as [|n IH]; intros tokens m k Hlen Hin.
  - destruct tokens; [reflexivity|cbn in Hlen; lia].
  - destruct tokens as [|a rest]; [reflexivity|].
    cbn [length] in Hlen. cbn [Cli.parse_from].
    assert (Ha : a <> option_token k).
    { intros ->. apply Hin. left. reflexivity. }
    assert (Hrest : ~ In (option_token k) rest).
    { intros H. apply Hin. right. exact H. }
    destruct (Js.startsWith a "--") eqn:Sa.
    + cbv zeta. destruct rest as [|nx rest'].
      * apply args_get_set_other; assumption.
      * destruct (Js.truthy nx && negb (Js.startsWith nx "--")).
        -- rewrite IH.
           ++ apply args_get_set_other; assumption.
           ++ cbn [length] in Hlen. lia.
           ++ intros H. apply Hrest. right. exact H.
        -- rewrite IH; [|lia|exact Hrest].
           apply args_get_set_other; assumption.
    + apply IH; [lia|exact Hrest].
Qed.

Lemma parse_from_cons (a : string) (rest : list string) (m : Cli.Args) :
  Cli.parse_from (a :: rest) m
  = if Js.startsWith a "--" then
      match rest with
      | nx :: rest' =>
          if Js.truthy nx && negb (Js.startsWith nx "--")
          then Cli.parse_from rest'
                 (Cli.args_set m (Js.str_drop 2 a) (Cli.Value nx))
          else Cli.parse_from rest (Cli.args_set m (Js.str_drop 2 a) Cli.Flag)
      | [] => Cli.args_set m (Js.str_drop 2 a) Cli.Flag
      end
    else Cli.parse_from rest m.
Proof. reflexivity. Qed.

Lemma parse_from_app (n : nat) :
  forall (pre : list string) (t : string) (rest : list string) (m : Cli.Args),
    (length pre <= n)%nat ->
    Js.startsWith t "--" = true ->
    Cli.parse_from (pre ++ t :: rest) m
    = Cli.parse_from (t :: rest) (Cli.parse_from pre m).
Proof.
  induction n as [|n IH]; intros pre t rest m Hlen Ht.
  - destruct pre; [reflexivity|cbn in Hlen; lia].
  - destruct pre as [|a pre']; [reflexivity|].
    cbn [length] in Hlen.
    change ((a :: pre') ++ t :: rest)%list with (a :: (pre' ++ t :: rest))%list.
    rewrite (parse_from_cons a (pre' ++ t :: rest) m).
    rewrite (parse_from_cons a pre' m).
    destruct (Js.startsWith a "--") eqn:Sa.
    + destruct pre' as [|nx pre''].
      * cbn [app]. rewrite Ht. rewrite andb_false_r. reflexivity.
      * cbn [app]. cbv beta iota.
        destruct (Js.truthy nx && negb (Js.startsWith nx "--")).
        -- apply IH; [cbn [length] in Hlen; lia|exact Ht].
        -- apply (IH (nx :: pre'')); [cbn [length] in *; lia|exact Ht].
    + apply IH; [lia|exact Ht].
Qed.

Lemma last_occurrence (x : string) (l : list string) :
  In x l -> exists pre post, l = (pre ++ x :: post)%list /\ ~ In x post.
Proof.
  induction l as [|a l IH]; [intros []|].
  intros Hin. destruct (in_dec string_dec x l) as [Hl|Hl].
  - destruct (IH Hl) as (pre & post & -> & Hpost).
    exists (a :: pre), post. split; [reflexivity|exact Hpost].
  - destruct Hin as [->|Hin]; [|contradiction].
    exists [], l. split; [reflexivity|exact Hl].
Qed.

Lemma parse_from_option (pre post : list string) (k : string) (m : Cli.Args) :
  ~ In (option_token k) post ->
  Cli.args_get (Cli.parse_from (pre ++ option_token k :: post) m) k
  = match post with
    | v :: _ =>
        if Js.truthy v && negb (Js.startsWith v "--")
        then Some (Cli.Value v) else Some Cli.Flag
    | [] => Some Cli.Flag
    end.
Proof.
  intros Hpost.
  rewrite (parse_from_app (length pre)) by (auto using startsWith_option).
  set (m' := Cli.parse_from pre m).
  assert (Hk : Js.str_drop 2 (option_token k) = k) by reflexivity.
  rewrite parse_from_cons, startsWith_option, Hk.
  destruct post as [|v rest].
  - rewrite args_get_set, String.eqb_refl. reflexivity.
  - destruct (Js.truthy v && negb (Js.startsWith v "--")).
    + rewrite (parse_from_absent (length rest)).
      * rewrite args_get_set, String.eqb_refl. reflexivity.
      * lia.
      * intros H. apply Hpost. right. exact H.
    + rewrite (parse_from_absent (length (v :: rest))); [|lia|exact Hpost].
      rewrite args_get_set, String.eqb_refl. reflexivity.
Qed.

(** X5: the value recorded for an option is decided by the last
    occurrence of its token [--k] after the first two arguments: the
    token that follows it when that token is not empty and does not
    start with two dashes, and [true] otherwise (also when nothing
    follows). Earlier occurrences and everything before them do not
    matter. *)
Theorem parse_args_last_occurrence (argv pre post : list string)
    (k : string) :
  skipn 2 argv = (pre ++ option_token k :: post)%list ->
  ~ In (option_token k) post ->
  Cli.args_get (Cli.parse_args argv) k
  = match post with
    | v :: _ =>
        if Js.truthy v && negb (Js.startsWith v "--")
        then Some (Cli.Value v) else Some Cli.Flag
    | [] => Some Cli.Flag
    end.
Proof.
  intros Hargv Hpost. unfold Cli.parse_args. rewrite Hargv.
  apply parse_from_option. exact Hpost.
Qed.

Lemma parse_args_last_occurrence_witness :
  Cli.args_get
    (Cli.parse_args
       ["node"; "script"; "--limit"; "5"; "x"; "--limit"; "9"; "--dry-run"])
    "limit"
  = Some (Cli.Value "9").
Proof.
  apply (parse_args_last_occurrence
           ["node"; "script"; "--limit"; "5"; "x"; "--limit"; "9"; "--dry-run"]
           ["--limit"; "5"; "x"] ["9"; "--dry-run"] "limit").
  - reflexivity.
  - cbn. intros [H|[H|[]]]; discriminate H.
Defined.

Lemma parse_args_absent (argv : list string) (k : string) :
  ~ In (option_token k) (skipn 2 argv) ->
  Cli.args_get (Cli.parse_args argv) k = None.
Proof.
  intros Hin. unfold Cli.parse_args.
  rewrite (parse_from_absent (length (skipn 2 argv))); [reflexivity|lia|].
  exact Hin.
Qed.

Lemma parse_args_present (argv : list string) (k : string) :
  In (option_token k) (skipn 2 argv) ->
  Cli.args_get (Cli.parse_args argv) k <> None.
Proof.
  intros Hin. unfold Cli.parse_args.
  destruct (last_occurrence _ _ Hin) as (pre & post & Heq & Hpost).
  rewrite Heq, (parse_from_option pre post k [] Hpost).
  destruct post as [|v rest]; [discriminate|].
  destruct (Js.truthy v && negb (Js.startsWith v "--")); discriminate.
Qed.

(** X6: an option is missing from the parsed arguments exactly when its
    token [--k] does not occur after the first two arguments; a token
    that occurs there is never taken as the value of another option. *)
Theorem parse_args_missing (argv : list string) (k : string) :
  Cli.args_get (Cli.parse_args argv) k = None
  <-> ~ In (option_token k) (skipn 2 argv).
Proof.
  split.
  - intros Hnone Hin. exact (parse_args_present argv k Hin Hnone).
  - apply parse_args_absent.
Qed.

(** X7: the settings of both scripts when their options are not given:
    the Digest Builder takes the current week, at most 5 highlights and
    writes its files; the Collector takes 60 as limit, the user name of
    the environment and writes its file. Dry-run is on exactly when the
    token [--dry-run] occurs, whatever follows it. *)
Theorem settings_defaults (Number : string -> Js.JsNum)
    (argv : list string) (GH_USERNAME : option string) (y m day : Z) :
  (~ In "--week" (skipn 2 argv) ->
   Summarize.weekStr_of argv y m day
   = Eff.Normal (Summarize.fmtWeek y m day))
  /\ (~ In "--max-highlights" (skipn 2 argv) ->
      Summarize.maxHighlights_of Number argv = Js.Int 5)
  /\ (~ In "--limit" (skipn 2 argv) ->
      Fetch.limit_of Number argv = Js.Int 60)
  /\ (~ In "--user" (skipn 2 argv) ->
      Fetch.username_of argv GH_USERNAME = GH_USERNAME)
  /\ (Summarize.dryRun_of argv = true <-> In "--dry-run" (skipn 2 argv))
  /\ (Fetch.dryRun_of argv = true <-> In "--dry-run" (skipn 2 argv)).
Proof.
  assert (Hdry : forall (o : option Cli.ArgVal),
             Cli.present o = true <-> o <> None).
  { intros [v|]; cbn; split; congruence. }
  assert (Hin : forall k, Cli.args_get (Cli.parse_args argv) k <> None
                          <-> In (option_token k) (skipn 2 argv)).
  { intros k. split; [|apply parse_args_present].
    intros H.
    destruct (in_dec string_dec (option_token k) (skipn 2 argv)) as [Hi|Hi];
      [exact Hi|].
    exfalso. apply H, parse_args_absent, Hi. }
  repeat split.
  - intros H. unfold Summarize.weekStr_of, Summarize.args.
    rewrite (parse_args_absent argv "week" H). reflexivity.
  - intros H. unfold Summarize.maxHighlights_of, Summarize.args.
    rewrite (parse_args_absent argv "max-highlights" H). reflexivity.
  - intros H. unfold Fetch.limit_of, Fetch.args.
    rewrite (parse_args_absent argv "limit" H). reflexivity.
  - intros H. unfold Fetch.username_of, Fetch.args.
    rewrite (parse_args_absent argv "user" H). reflexivity.
  - intros H. apply (Hin "dry-run"), Hdry, H.
  - intros H. apply Hdry, (Hin "dry-run"), H.
  - intros H. apply (Hin "dry-run"), Hdry, H.
  - intros H. apply Hdry, (Hin "dry-run"), H.
Qed.

Lemma bare_option_flag (k : string) (argv : list string) :
  bare_option k argv ->
  Cli.args_get (Cli.parse_args argv) k = Some Cli.Flag.
Proof.
  intros (pre & post & Hargv & Hpost & Hnext).
  unfold Cli.parse_args. rewrite Hargv.
  rewrite (parse_from_option pre post k [] Hpost).
  destruct post as [|v rest]; [reflexivity|].
  destruct Hnext as [->|Hv]; [reflexivity|].
  rewrite Hv, andb_false_r. reflexivity.
Qed.

(** X8: an option given without a value is recorded as [true], and the
    scripts read that [true] as a value: a bare [--week] makes the
    Digest Builder throw the format error quoting "true", a bare
    [--max-highlights] or [--limit] counts as 1, and a bare [--user]
    makes "true" the user name, before the environment is consulted. *)
Theorem settings_bare_option (Number : string -> Js.JsNum)
    (argv : list string) (GH_USERNAME : option string) (y m day : Z) :
  (bare_option "week" argv ->
   Summarize.weekStr_of argv y m day = Eff.Throw (week_error "true"))
  /\ (bare_option "max-highlights" argv ->
      Summarize.maxHighlights_of Number argv = Js.Int 1)
  /\ (bare_option "limit" argv -> Fetch.limit_of Number argv = Js.Int 1)
  /\ (bare_option "user" argv ->
      Fetch.username_of argv GH_USERNAME = Some "true").
Proof.
  repeat split; intros H.
  - unfold Summarize.weekStr_of, Summarize.args.
    rewrite (bare_option_flag _ _ H). reflexivity.
  - unfold Summarize.maxHighlights_of, Summarize.args.
    rewrite (bare_option_flag _ _ H). reflexivity.
  - unfold Fetch.limit_of, Fetch.args.
    rewrite (bare_option_flag _ _ H). reflexivity.
  - unfold Fetch.username_of, Fetch.args.
    rewrite (bare_option_flag _ _ H). reflexivity.
Qed.

Lemma settings_bare_option_witness :
  bare_option "week" ["node"; "summarize"; "--week"; "--dry-run"]
  /\ Summarize.weekStr_of ["node"; "summarize"; "--week"; "--dry-run"]
       2025 0 15
     = Eff.Throw (week_error "true")
  /\ bare_option "limit" ["node"; "fetch"; "--user"; "me"; "--limit"]
  /\ Fetch.limit_of Js.decimalNumber
       ["node"; "fetch"; "--user"; "me"; "--limit"]
     = Js.Int 1.
Proof.
  assert (H1 : bare_option "week"
                 ["node"; "summarize"; "--week"; "--dry-run"]).
  { exists [], ["--dry-run"]. split; [reflexivity|]. split.
    - cbn. intros [H|[]]. discriminate H.
    - right. reflexivity. }
  assert (H2 : bare_option "limit"
                 ["node"; "fetch"; "--user"; "me"; "--limit"]).
  { exists ["--user"; "me"], []. split; [reflexivity|]. split.
    - intros [].
    - exact I. }
  split; [exact H1|]. split.
  - exact (proj1 (settings_bare_option Js.decimalNumber _ None 2025 0 15) H1).
  - split; [exact H2|].
    exact (proj1 (proj2 (proj2 (settings_bare_option Js.decimalNumber _ None
                                  2025 0 15))) H2).
Defined.

(** ** The project list (PROJECTS, getAllTags, filterProjects) *)

Lemma Forall_perm {A : Type} (P : A -> Prop) (l l' : list A) :
  Permutation l l' -> Forall P l -> Forall P l'.
Proof.
  intros Hp H. apply Forall_forall. intros x Hx.
  rewrite Forall_forall in H. apply H.
  apply (Permutation_in _ (Permutation_sym Hp)). exact Hx.
Qed.

Lemma sort_insert_StronglySorted {A : Type} (R : A -> A -> Prop)
    (P : A -> Prop) (cmp : A -> A -> Js.JsNum) :
  (forall x y z, R x y -> R y z -> R x z) ->
  (forall x y, P x -> P y ->
               if Js.after (cmp x y) then R y x else R x y) ->
  forall x l, P x -> Forall P l -> StronglySorted R l ->
              StronglySorted R (Js.sort_insert cmp x l).
Proof.
  intros Htrans Hcmp x l Px. induction l as [|y l IH]; intros HP Hs.
  - repeat constructor.
  - cbn [Js.sort_insert].
    inversion HP as [|? ? Py HPl]; subst.
    inversion Hs as [|? ? Hsl Hall]; subst.
    pose proof (Hcmp x y Px Py) as Hxy.
    destruct (Js.after (cmp x y)).
    + constructor; [apply IH; assumption|].
      apply (Forall_perm _ (x :: l)).
      * symmetry. apply sort_insert_perm.
      * constructor; assumption.
    + constructor; [exact Hs|].
      constructor; [exact Hxy|].
      apply (Forall_impl (P := R y)); [|exact Hall].
      intros z Hz. exact (Htrans _ _ _ Hxy Hz).
Qed.

Lemma sort_StronglySorted {A : Type} (R : A -> A -> Prop)
    (P : A -> Prop) (cmp : A -> A -> Js.JsNum) :
  (forall x y z, R x y -> R y z -> R x z) ->
  (forall x y, P x -> P y ->
               if Js.after (cmp x y) then R y x else R x y) ->
  forall l, Forall P l -> StronglySorted R (Js.sort cmp l).
Proof.
  intros Htrans Hcmp l. induction l as [|x l IH]; intros HP.
  - constructor.
  - cbn [Js.sort]. inversion HP as [|? ? Px HPl]; subst.
    apply (sort_insert_StronglySorted R P); try assumption.
    + apply (Forall_perm _ l); [|exact HPl].
      symmetry. apply sort_perm.
    + apply IH. exact HPl.
Qed.

Lemma compareProjects_rank (Date_parse : string -> Js.JsNum)
    (localeCompare : string -> string -> Js.JsNum) (x y : Projects.Project) :
  if Js.after (Projects.compareProjects Date_parse localeCompare x y)
  then Projects.featured_rank x <= Projects.featured_rank y
  else Projects.featured_rank y <= Projects.featured_rank x.
Proof.
  unfold Projects.compareProjects. cbv zeta.
  destruct (Z.eqb_spec (Projects.featured_rank x) (Projects.featured_rank y))
    as [E|E]; cbn [negb].
  - rewrite E. destruct (Js.after _); lia.
  - unfold Js.after, Js.lt.
    destruct (Z.ltb_spec 0 (Projects.featured_rank y - Projects.featured_rank x));
      lia.
Qed.

(** X9: [PROJECTS] holds exactly the projects of the JSON file, each
    with its tags lower-cased (no tags becoming the empty list), and
    every featured project stands before every project that is not
    featured, whatever the dates and names are. *)
Theorem PROJECTS_featured_first (Date_parse : string -> Js.JsNum)
    (localeCompare : string -> string -> Js.JsNum)
    (toLowerCase : string -> string) (projectsRaw : list Projects.Project) :
  Permutation
    (Projects.PROJECTS Date_parse localeCompare toLowerCase projectsRaw)
    (map (Projects.normalize toLowerCase) projectsRaw)
  /\ featured_first
       (Projects.PROJECTS Date_parse localeCompare toLowerCase projectsRaw)
  /\ (forall p,
        In p (Projects.PROJECTS Date_parse localeCompare toLowerCase
                projectsRaw) ->
        exists raw,
          In raw projectsRaw
          /\ Projects.tags p
             = Some (map toLowerCase
                       (match Projects.tags raw with
                        | Some l => l
                        | None => []
                        end))
          /\ Projects.name p = Projects.name raw
          /\ Projects.featured p = Projects.featured raw).
Proof.
  unfold Projects.PROJECTS. split; [apply sort_perm|]. split.
  - apply (sort_StronglySorted _ (fun _ => True)).
    + intros x y z Hxy Hyz. lia.
    + intros x y _ _.
      pose proof (compareProjects_rank Date_parse localeCompare x y) as H.
      destruct (Js.after _); exact H.
    + apply Forall_forall. intros x _. exact I.
  - intros p Hp.
    apply (Permutation_in _ (sort_perm _ _)) in Hp.
    apply in_map_iff in Hp. destruct Hp as (raw & <- & Hraw).
    exists raw. repeat split; [exact Hraw|reflexivity..].
Qed.

Lemma set_add_In (set : list string) (x t : string) :
  In t (Projects.set_add set x) <-> In t set \/ t = x.
Proof.
  unfold Projects.set_add.
  destruct (existsb (String.eqb x) set) eqn:E.
  - apply existsb_exists in E. destruct E as (x' & Hx' & Heq).
    apply String.eqb_eq in Heq. subst x'.
    split; [tauto|]. intros [H| ->]; assumption.
  - rewrite in_app_iff. cbn [In]. intuition congruence.
Qed.

Lemma set_add_NoDup (set : list string) (x : string) :
  NoDup set -> NoDup (Projects.set_add set x).
Proof.
  intros Hnd. unfold Projects.set_add.
  destruct (existsb (String.eqb x) set) eqn:E; [exact Hnd|].
  apply NoDup_app; [exact Hnd|repeat constructor; intros []|].
  intros a Ha [Heq|[]]. subst a.
  assert (existsb (String.eqb x) set = true); [|congruence].
  apply existsb_exists. exists x. split; [exact Ha|apply String.eqb_refl].
Qed.

Lemma fold_set_add (ts : list string) (set : list string) :
  NoDup set ->
  NoDup (fold_left Projects.set_add ts set)
  /\ forall t, In t (fold_left Projects.set_add ts set)
               <-> In t set \/ In t ts.
Proof.
  revert set. induction ts as [|x ts IH]; intros set Hnd; cbn [fold_left].
  - split; [exact Hnd|]. intros t. cbn [In]. tauto.
  - destruct (IH _ (set_add_NoDup set x Hnd)) as [H1 H2].
    split; [exact H1|]. intros t. rewrite H2, set_add_In. cbn [In].
    intuition congruence.
Qed.

Lemma tag_set_from (projects : list Projects.Project) (set : list string) :
  NoDup set ->
  NoDup (fold_left
           (fun s p => match Projects.tags p with
                       | Some ts => fold_left Projects.set_add ts s
                       | None => s
                       end) projects set)
  /\ forall t,
       In t (fold_left
               (fun s p => match Projects.tags p with
                           | Some ts => fold_left Projects.set_add ts s
                           | None => s
                           end) projects set)
       <-> In t set \/ has_tag projects t.
Proof.
  revert set. induction projects as [|p ps IH]; intros set Hnd;
    cbn [fold_left].
  - split; [exact Hnd|]. intros t. split; [tauto|].
    intros [H|(p & ts & [] & _)]. exact H.
  - destruct (Projects.tags p) as [ts|] eqn:Ep.
    + destruct (fold_set_add ts set Hnd) as [H1 H2].
      destruct (IH _ H1) as [H3 H4]. split; [exact H3|].
      intros t. rewrite H4, H2. split.
      * intros [[H|H]|(q & qs & Hq & Hqs & Ht)].
        -- left. exact H.
        -- right. exists p, ts. cbn [In]. tauto.
        -- right. exists q, qs. cbn [In]. tauto.
      * intros [H|(q & qs & [<-|Hq] & Hqs & Ht)].
        -- tauto.
        -- rewrite Ep in Hqs. injection Hqs as <-. tauto.
        -- right. exists q, qs. tauto.
    + destruct (IH _ Hnd) as [H3 H4]. split; [exact H3|].
      intros t. rewrite H4. split.
      * intros [H|(q & qs & Hq & Hqs & Ht)]; [tauto|].
        right. exists q, qs. cbn [In]. tauto.
      * intros [H|(q & qs & [<-|Hq] & Hqs & Ht)]; [tauto|congruence|].
        right. exists q, qs. tauto.
Qed.

Lemma getAllTags_In (localeCompare : string -> string -> Js.JsNum)
    (projects : list Projects.Project) :
  NoDup (Projects.getAllTags localeCompare projects)
  /\ forall t, In t (Projects.getAllTags localeCompare projects)
               <-> has_tag projects t.
Proof.
  unfold Projects.getAllTags, Projects.tag_set.
  destruct (tag_set_from projects [] (NoDup_nil _)) as [Hnd Hin].
  split.
  - eapply Permutation_NoDup; [|exact Hnd].
    symmetry. apply sort_perm.
  - intros t. split.
    + intros H. apply (Permutation_in _ (sort_perm _ _)) in H.
      apply Hin in H. destruct H as [[]|H]. exact H.
    + intros H. apply (Permutation_in _ (Permutation_sym (sort_perm _ _))).
      apply Hin. right. exact H.
Qed.

Lemma sort_insert_HdRel_local {A : Type} (cmp : A -> A -> Js.JsNum)
    (y x : A) (l : list A) :
  HdRel (fun a b => Js.after (cmp a b) = false) y l ->
  Js.after (cmp y x) = false ->
  HdRel (fun a b => Js.after (cmp a b) = false) y (Js.sort_insert cmp x l).
Proof.
  intros Hl Hx. destruct l as [|z l]; cbn [Js.sort_insert];
    [now constructor|].
  destruct (Js.after (cmp x z)); constructor;
    [now inversion Hl|assumption].
Qed.

Lemma sort_Sorted_local {A : Type} (cmp : A -> A -> Js.JsNum) (l : list A) :
  (forall x y, Js.after (cmp x y) = true -> Js.after (cmp y x) = false) ->
  Sorted (fun a b => Js.after (cmp a b) = false) (Js.sort cmp l).
Proof.
  intros Hanti. induction l as [|x l IH]; cbn [Js.sort]; [constructor|].
  induction IH as [|y s Hs IHs Hhd]; cbn [Js.sort_insert];
    [repeat constructor|].
  destruct (Js.after (cmp x y)) eqn:E.
  - constructor; [exact IHs|].
    apply sort_insert_HdRel_local; [exact Hhd|]. apply Hanti, E.
  - constructor; [now constructor|]. constructor. exact E.
Qed.

(** X10: [getAllTags] lists every tag that some project carries, each
    once, and nothing else; projects without tags contribute nothing.
    When [localeCompare] never places two strings each after the other,
    no tag of the result is placed after its successor. *)
Theorem getAllTags_each_tag_once
    (localeCompare : string -> string -> Js.JsNum)
    (projects : list Projects.Project) :
  NoDup (Projects.getAllTags localeCompare projects)
  /\ (forall t, In t (Projects.getAllTags localeCompare projects)
                <-> has_tag projects t)
  /\ ((forall x y, Js.after (localeCompare x y) = true ->
                   Js.after (localeCompare y x) = false) ->
      Sorted (fun a b => Js.after (localeCompare a b) = false)
        (Projects.getAllTags localeCompare projects)).
Proof.
  split; [apply getAllTags_In|]. split; [apply getAllTags_In|].
  intros Hanti. apply sort_Sorted_local. exact Hanti.
Qed.

Lemma getAllTags_each_tag_once_witness :
  Projects.getAllTags Js.default_compare
    [ example_project "b" None None (Some ["web"; "astro"]);
      example_project "a" None None None;
      example_project "c" None None (Some ["astro"; "cli"]) ]
  = ["astro"; "cli"; "web"]
  /\ Sorted (fun a b => Js.after (Js.default_compare a b) = false)
       (Projects.getAllTags Js.default_compare
          [ example_project "b" None None (Some ["web"; "astro"]);
            example_project "a" None None None;
            example_project "c" None None (Some ["astro"; "cli"]) ]).
Proof.
  split; [reflexivity|].
  apply (proj2 (proj2 (getAllTags_each_tag_once Js.default_compare _))).
  intros x y H. apply after_default_compare in H.
  destruct (Js.after (Js.default_compare y x)) eqn:E; [|reflexivity].
  apply after_default_compare in E.
  rewrite String.compare_antisym, H in E. discriminate E.
Defined.

(** X11: [getAllTags] of [PROJECTS] lists exactly the lower-cased tags
    of the projects of the JSON file. *)
Theorem getAllTags_of_PROJECTS (Date_parse : string -> Js.JsNum)
    (localeCompare : string -> string -> Js.JsNum)
    (toLowerCase : string -> string) (projectsRaw : list Projects.Project)
    (t : string) :
  In t (Projects.getAllTags localeCompare
          (Projects.PROJECTS Date_parse localeCompare toLowerCase
             projectsRaw))
  <-> exists raw ts t0,
        In raw projectsRaw /\ Projects.tags raw = Some ts /\ In t0 ts
        /\ t = toLowerCase t0.
Proof.
  rewrite (proj2 (getAllTags_In localeCompare _) t).
  unfold has_tag, Projects.PROJECTS. split.
  - intros (p & ts & Hp & Hts & Ht).
    apply (Permutation_in _ (sort_perm _ _)) in Hp.
    apply in_map_iff in Hp. destruct Hp as (raw & <- & Hraw).
    cbn [Projects.normalize Projects.tags] in Hts. injection Hts as <-.
    apply in_map_iff in Ht. destruct Ht as (t0 & <- & Ht0).
    destruct (Projects.tags raw) as [l|] eqn:El; [|destruct Ht0].
    exists raw, l, t0. tauto.
  - intros (raw & ts & t0 & Hraw & Hts & Ht0 & ->).
    exists (Projects.normalize toLowerCase raw), (map toLowerCase ts).
    split.
    + apply (Permutation_in _ (Permutation_sym (sort_perm _ _))).
      apply in_map. exact Hraw.
    + split; [|apply in_map; exact Ht0].
      cbn [Projects.normalize Projects.tags]. rewrite Hts. reflexivity.
Qed.

(** X12: a project is in the result of [filterProjects] exactly when it
    is in the input, the normalized query is empty or occurs in its
    lower-cased name, description or slug, and it carries every
    requested tag (lower-cased); a project without a tag list is dropped
    as soon as one tag is requested. Filtering a result again with the
    same options changes nothing. *)
Theorem filterProjects_membership (toLowerCase : string -> string)
    (projects : list Projects.Project) (opts : Projects.FilterOptions) :
  let qs := toLowerCase (Js.trim (Js.or_else (Projects.q opts) "")) in
  let ts := map toLowerCase
              (match Projects.filter_tags opts with
               | Some l => l
               | None => []
               end) in
  (forall p,
      In p (Projects.filterProjects toLowerCase projects opts)
      <-> In p projects
          /\ (qs = ""
              \/ Js.includes (toLowerCase (Projects.name p)) qs = true
              \/ Js.includes (toLowerCase (Projects.description p)) qs = true
              \/ Js.includes (toLowerCase (Projects.slug p)) qs = true)
          /\ (ts = []
              \/ exists ptags, Projects.tags p = Some ptags
                               /\ forall t, In t ts -> In t ptags))
  /\ Projects.filterProjects toLowerCase
       (Projects.filterProjects toLowerCase projects opts) opts
     = Projects.filterProjects toLowerCase projects opts.
Proof.
  intros qs ts. split.
  - intros p. unfold Projects.filterProjects. fold qs. fold ts.
    rewrite filter_In. unfold Projects.matches. cbv zeta.
    rewrite andb_true_iff, !orb_true_iff.
    assert (Hq : negb (Js.truthy qs) = true <-> qs = "").
    { destruct qs; cbn; split; congruence. }
    assert (Ht : Nat.eqb (length ts) 0 = true <-> ts = []).
    { destruct ts; cbn; split; congruence. }
    assert (Hmem : forall t l, Projects.mem t l = true <-> In t l).
    { intros t l. unfold Projects.mem. rewrite existsb_exists. split.
      - intros (x & Hx & E). apply String.eqb_eq in E. now subst x.
      - intros H. exists t. split; [exact H|apply String.eqb_refl]. }
    rewrite Hq, Ht.
    assert (Htags :
      match Projects.tags p with
      | Some ptags => forallb (fun t => Projects.mem t ptags) ts
      | None => false
      end = true
      <-> exists ptags, Projects.tags p = Some ptags
                        /\ forall t, In t ts -> In t ptags).
    { destruct (Projects.tags p) as [ptags|].
      - rewrite forallb_forall. split.
        + intros H. exists ptags. split; [reflexivity|].
          intros t Hin. apply Hmem, H, Hin.
        + intros (l & E & H). injection E as <-.
          intros t Hin. apply Hmem, H, Hin.
      - split; [discriminate|]. intros (l & E & _). discriminate. }
    rewrite Htags. tauto.
  - unfold Projects.filterProjects.
    induction projects as [|p ps IH]; [reflexivity|].
    cbn [filter]. destruct (Projects.matches _ _ _ p) eqn:E.
    + cbn [filter]. rewrite E. f_equal. exact IH.
    + exact IH.
Qed.

(** ** The Digest Builder: the lists of the week and the highlights *)

Lemma slice_0_nonneg {A : Type} (l : list A) (m : Z) :
  0 <= m -> Js.slice l (Js.Int 0) (Js.Int m) = firstn (Z.to_nat m) l.
Proof.
  intros H. rewrite <- (slice_0_firstn l (Z.to_nat m)).
  rewrite Z2Nat.id by exact H. reflexivity.
Qed.

Lemma push_repos_firstn (q : Q) (rs : list Summarize.Repo.t)
    (out : list string) :
  Summarize.push_repos (Js.Finite q) out rs
  = (out ++ map Summarize.repo_highlight
              (firstn (Z.to_nat (Qceiling q) - length out) rs))%list.
Proof.
  revert out. induction rs as [|r rs IH]; intros out;
    cbn [Summarize.push_repos Js.count_ge].
  - rewrite firstn_nil. cbn [map]. now rewrite app_nil_r.
  - rewrite Qle_bool_ceiling.
    destruct (Z.leb_spec (Qceiling q) (Z.of_nat (length out))) as [Hle|Hlt].
    + replace (Z.to_nat (Qceiling q) - length out)%nat with 0%nat by lia.
      cbn [firstn map]. now rewrite app_nil_r.
    + rewrite IH, length_app. cbn [length].
      replace (Z.to_nat (Qceiling q) - length out)%nat
        with (S (Z.to_nat (Qceiling q) - (length out + 1)))%nat by lia.
      cbn [firstn map]. rewrite <- app_assoc. reflexivity.
Qed.

(** X13: for a finite, non-negative [maxHighlights] the heuristic
    highlights are built in this order: a bullet for each of the first
    [floor maxHighlights] merged pull requests; then bullets for recent
    repositories until the count has reached [maxHighlights], that is
    its ceiling; then one bullet for the first release event when the
    count is below max(3, maxHighlights). The result is the first
    max(3, floor maxHighlights) of these bullets. When [maxHighlights]
    is a whole number that cut removes nothing; with a fraction it can
    remove the last bullet. *)
Theorem buildHeuristicHighlights_composition
    (Date_getTime : string -> Js.JsNum) (now : Z)
    (cache : Summarize.Cache.t) (q : Q) :
  (0 <= q)%Q ->
  let prs :=
    map Summarize.pr_highlight
      (firstn (Z.to_nat (Qfloor q))
         (Summarize.mergedPRs Date_getTime now cache)) in
  let repos :=
    map Summarize.repo_highlight
      (firstn (Z.to_nat (Qceiling q) - length prs)
         (Summarize.recentRepos Date_getTime now cache)) in
  let rel :=
    if Z.of_nat (length prs + length repos) <? Z.max 3 (Qceiling q)
    then release_bullet Date_getTime now cache else [] in
  Summarize.buildHeuristicHighlights Date_getTime now cache (Js.Finite q)
  = firstn (Z.to_nat (Z.max 3 (Qfloor q))) (prs ++ repos ++ rel)
  /\ (Qceiling q = Qfloor q ->
      Summarize.buildHeuristicHighlights Date_getTime now cache (Js.Finite q)
      = (prs ++ repos ++ rel)%list).
Proof.
  intros Hq prs repos rel.
  destruct (truncate_nonneg q Hq) as [Ht Hf].
  destruct (cap_whole q) as (_ & Hcc & Hct).
  assert (Hrun :
    Summarize.buildHeuristicHighlights Date_getTime now cache (Js.Finite q)
    = firstn (Z.to_nat (Z.max 3 (Qfloor q))) (prs ++ repos ++ rel)).
  { unfold Summarize.buildHeuristicHighlights. cbv zeta.
    cbn [Js.real_max Js.slice_to Js.count_lt].
    rewrite Ht, (slice_0_nonneg _ _ Hf). fold prs.
    rewrite (push_repos_firstn q _ prs). fold repos.
    rewrite Hct, Qle_bool_ceiling, Hcc, length_app.
    rewrite slice_0_nonneg by lia. f_equal.
    unfold rel, release_bullet.
    destruct (Z.ltb_spec (Z.of_nat (length prs + length repos))
                (Z.max 3 (Qceiling q))) as [Hlt|Hge];
      destruct (Z.leb_spec (Z.max 3 (Qceiling q))
                  (Z.of_nat (length prs + length repos))) as [Hle|Hgt];
      try lia; cbn [negb].
    - destruct (Js.find _ _) as [e|]; [now rewrite <- app_assoc|].
      rewrite app_nil_r. reflexivity.
    - rewrite app_nil_r. reflexivity. }
  split; [exact Hrun|]. intros Hwhole. rewrite Hrun.
  assert (Hp : (length prs <= Z.to_nat (Qfloor q))%nat).
  { unfold prs. rewrite length_map. apply firstn_le_length. }
  assert (Hr : (length repos <= Z.to_nat (Qceiling q) - length prs)%nat).
  { unfold repos. rewrite length_map. apply firstn_le_length. }
  apply firstn_all2. rewrite !length_app. unfold rel, release_bullet.
  destruct (Z.ltb_spec (Z.of_nat (length prs + length repos))
              (Z.max 3 (Qceiling q))) as [Hlt|Hge].
  - destruct (Js.find _ _); cbn [length]; lia.
  - cbn [length]. lia.
Qed.

Lemma buildHeuristicHighlights_composition_witness :
  Summarize.buildHeuristicHighlights Js.isoTime example_now example_cache
    (Js.Finite 2)
  = map Summarize.pr_highlight
      [ example_pr 42 (Some "https://api.github.com/repos/me/proj")
          (Some "2025-01-14T00:00:00Z");
        example_pr 43 (Some "https://api.github.com/repos/me/site")
          (Some "2025-01-12T00:00:00Z") ]
  /\ Summarize.buildHeuristicHighlights Js.isoTime example_now mixed_cache
       (Js.Finite (7 # 2))
     = map Summarize.pr_highlight
         [ example_pr 42 (Some "https://api.github.com/repos/me/proj")
             (Some "2025-01-14T00:00:00Z");
           example_pr 43 (Some "https://api.github.com/repos/me/site")
             (Some "2025-01-12T00:00:00Z");
           example_pr 41 (Some "https://api.github.com/repos/me/proj")
             (Some "2025-01-10T00:00:00Z") ]
  /\ Summarize.recentRepos Js.isoTime example_now mixed_cache
     = [example_repo].
Proof.
  split; [|split].
  - rewrite (proj2 (buildHeuristicHighlights_composition Js.isoTime
                      example_now example_cache 2 ltac:(discriminate)));
      [|reflexivity].
    vm_compute. reflexivity.
  - rewrite (proj1 (buildHeuristicHighlights_composition Js.isoTime
                      example_now mixed_cache (7 # 2) ltac:(discriminate))).
    vm_compute. reflexivity.
  - vm_compute. reflexivity.
Defined.

Lemma withinLastDays_recent (Date_getTime : string -> Js.JsNum) (now : Z)
    (iso : option string) :
  Summarize.withinLastDays Date_getTime now iso 14 = true
  <-> recent Date_getTime now iso.
Proof.
  unfold Summarize.withinLastDays, recent. split.
  - destruct iso as [s|]; [|discriminate].
    destruct s as [|a s]; [discriminate|]. cbn [Js.truthy negb].
    destruct (Date_getTime (String a s)) as [|t] eqn:Et; [discriminate|].
    cbn [Js.sub Js.le]. intros H. apply Z.leb_le in H.
    exists (String a s), t. repeat split; [discriminate|exact Et|lia].
  - intros (s & t & -> & Hs & Et & Hle).
    destruct s as [|a s]; [congruence|]. cbn [Js.truthy negb].
    rewrite Et. cbn [Js.sub Js.le]. apply Z.leb_le. lia.
Qed.

Lemma StronglySorted_firstn {A : Type} (R : A -> A -> Prop) (n : nat)
    (l : list A) :
  StronglySorted R l -> StronglySorted R (firstn n l).
Proof.
  revert n. induction l as [|x l IH]; intros n Hs.
  - rewrite firstn_nil. constructor.
  - destruct n as [|n]; [constructor|]. cbn [firstn].
    inversion Hs as [|? ? Hsl Hall]; subst.
    constructor; [apply IH; exact Hsl|].
    apply Forall_forall. intros y Hy.
    rewrite Forall_forall in Hall. apply Hall.
    apply (In_firstn n). exact Hy.
Qed.

Lemma sub_after (ta tb : Z) :
  if Js.after (Js.sub (Js.Int tb) (Js.Int ta)) then ta <= tb else tb <= ta.
Proof.
  cbn [Js.sub Js.after Js.lt].
  destruct (Z.ltb_spec 0 (tb - ta)); lia.
Qed.

(** X14: [mergedPRs] holds at most 50 pull requests, each one from the
    cache with a merge time that reads as a time of the last 14 days,
    and they are in order of merge time, the latest first. No
    assumption on the date parser is needed: a merge time that does not
    parse never passes the window test. *)
Theorem mergedPRs_latest_first (Date_getTime : string -> Js.JsNum)
    (now : Z) (cache : Summarize.Cache.t) :
  (length (Summarize.mergedPRs Date_getTime now cache) <= 50)%nat
  /\ Forall (fun pr => In pr (Summarize.Cache.prs cache)
                       /\ recent Date_getTime now (Summarize.PR.merged_at pr))
       (Summarize.mergedPRs Date_getTime now cache)
  /\ StronglySorted
       (fun a b => merged_ms Date_getTime b <= merged_ms Date_getTime a)
       (Summarize.mergedPRs Date_getTime now cache).
Proof.
  rewrite (proj1 (windowed_lists Date_getTime now cache)).
  assert (Hvalid : forall pr,
             In pr (windowed_merged Date_getTime now cache) ->
             In pr (Summarize.Cache.prs cache)
             /\ recent Date_getTime now (Summarize.PR.merged_at pr)).
  { intros pr Hin. unfold windowed_merged in Hin.
    apply filter_In in Hin. destruct Hin as [Hin Hw].
    split; [exact Hin|]. apply withinLastDays_recent. exact Hw. }
  split; [apply firstn_le_length|]. split.
  - apply Forall_forall. intros pr Hin. apply Hvalid.
    apply (In_firstn 50) in Hin.
    apply (Permutation_in _ (sort_perm _ _)) in Hin. exact Hin.
  - apply StronglySorted_firstn.
    apply (sort_StronglySorted _
             (fun pr => exists t,
                  Summarize.merged_time Date_getTime pr = Js.Int t)).
    + intros x y z Hxy Hyz. lia.
    + intros x y [tx Hx] [ty Hy].
      unfold Summarize.comparePRs, merged_ms. rewrite Hx, Hy.
      cbn [Js.to_integer]. apply sub_after.
    + apply Forall_forall. intros pr Hin.
      destruct (Hvalid pr Hin) as [_ (s & t & Es & _ & Et & _)].
      exists t. unfold Summarize.merged_time. rewrite Es. exact Et.
Qed.

(** X15: [recentRepos] holds at most 20 repositories, each one from the
    cache and pushed to or updated within the last 14 days; when the
    timestamp each repository is sorted by reads as a time, they are in
    order of that time, the latest first. *)
Theorem recentRepos_latest_first (Date_getTime : string -> Js.JsNum)
    (now : Z) (cache : Summarize.Cache.t) :
  (length (Summarize.recentRepos Date_getTime now cache) <= 20)%nat
  /\ Forall (fun r => In r (Summarize.Cache.repos cache)
                      /\ (recent Date_getTime now (Summarize.Repo.pushed_at r)
                          \/ recent Date_getTime now
                               (Summarize.Repo.updated_at r)))
       (Summarize.recentRepos Date_getTime now cache)
  /\ ((forall r, In r (Summarize.Cache.repos cache) ->
                 Summarize.repo_time Date_getTime r <> Js.NaN) ->
      StronglySorted
        (fun a b => repo_ms Date_getTime b <= repo_ms Date_getTime a)
        (Summarize.recentRepos Date_getTime now cache)).
Proof.
  unfold Summarize.recentRepos. rewrite (slice_0_firstn _ 20).
  split; [apply firstn_le_length|]. split.
  - apply Forall_forall. intros r Hin.
    apply (In_firstn 20) in Hin.
    apply (Permutation_in _ (sort_perm _ _)) in Hin.
    apply filter_In in Hin. destruct Hin as [Hin Hw].
    split; [exact Hin|]. apply orb_true_iff in Hw.
    destruct Hw as [Hw|Hw]; [left|right]; apply withinLastDays_recent, Hw.
  - intros Hvalid. apply StronglySorted_firstn.
    apply (sort_StronglySorted _
             (fun r => Summarize.repo_time Date_getTime r <> Js.NaN)).
    + intros x y z Hxy Hyz. lia.
    + intros x y Hx Hy. unfold Summarize.compareRepos, repo_ms.
      destruct (Summarize.repo_time Date_getTime x) as [|tx]; [congruence|].
      destruct (Summarize.repo_time Date_getTime y) as [|ty]; [congruence|].
      cbn [Js.to_integer]. apply sub_after.
    + apply Forall_forall. intros r Hin.
      apply filter_In in Hin. apply Hvalid, Hin.
Qed.

(** ** The Digest Builder: the call to the provider *)

(** [split] at the first occurrence of a separator of any length. *)

Lemma prefix_empty (s : string) : String.prefix "" s = true.
Proof. destruct s; reflexivity. Qed.

Lemma prefix_app_long (p u v : string) :
  (String.length p <= String.length u)%nat ->
  String.prefix p (u ++ v) = String.prefix p u.
Proof.
  revert u. induction p as [|a p IH]; intros u Hlen;
    [now rewrite !prefix_empty|].
  destruct u as [|b u]; [cbn in Hlen; lia|].
  cbn [append String.prefix]. destruct (ascii_dec a b); [|reflexivity].
  apply IH. cbn [String.length] in Hlen. lia.
Qed.

Lemma prefix_app_self (p v : string) : String.prefix p (p ++ v) = true.
Proof.
  induction p as [|a p IH]; [apply prefix_empty|].
  cbn [append String.prefix]. destruct (ascii_dec a a); [exact IH|congruence].
Qed.

Lemma init_last (s : string) :
  s <> "" ->
  exists c, s = init s ++ String c ""
            /\ String.length s = S (String.length (init s)).
Proof.
  induction s as [|a s IH]; [congruence|]. intros _.
  destruct s as [|b s].
  - exists a. split; reflexivity.
  - destruct (IH ltac:(discriminate)) as (c & E & L).
    exists c.
    change (init (String a (String b s)))
      with (String a (init (String b s))).
    split.
    + cbn [append]. f_equal. exact E.
    + change (String.length (String a (String b s)))
        with (S (String.length (String b s))).
      rewrite L. reflexivity.
Qed.

Lemma split_go_skip (sep u rest : string) (acc : list ascii) :
  Js.split_go sep (u ++ rest) (String.length u) acc
  = Js.split_go sep rest 0 acc.
Proof.
  induction u as [|a u IH]; [reflexivity|].
  cbn [append String.length Js.split_go]. exact IH.
Qed.

Lemma split_go_first (sep x rest : string) (acc : list ascii) :
  sep <> "" -> before_first sep x ->
  Js.split_go sep (x ++ sep ++ rest) 0 acc
  = Js.rev_string acc x :: Js.split_go sep rest 0 [].
Proof.
  intros Hsep. unfold before_first. revert acc.
  induction x as [|b x IH]; intros acc Hx.
  - destruct sep as [|a sep]; [congruence|].
    cbn [append Js.split_go].
    pose proof (prefix_app_self (String a sep) rest) as Hp.
    cbn [append] in Hp. rewrite Hp.
    cbn [String.length Nat.sub]. rewrite Nat.sub_0_r.
    rewrite split_go_skip. reflexivity.
  - cbn [append Js.includes] in Hx.
    apply orb_false_iff in Hx. destruct Hx as [Hp Hrest].
    cbn [append Js.split_go].
    destruct (init_last sep Hsep) as (c & Es & Ls).
    assert (Hpre : String.prefix sep (String b (x ++ sep ++ rest)) = false).
    { rewrite <- Hp. rewrite Es at 2.
      rewrite append_assoc.
      change (String b (x ++ init sep ++ String c "" ++ rest))
        with (String b x ++ init sep ++ String c "" ++ rest).
      rewrite <- append_assoc.
      change (String b (x ++ init sep)) with (String b x ++ init sep).
      apply prefix_app_long.
      rewrite append_length. cbn [String.length]. lia. }
    rewrite Hpre. rewrite (IH (b :: acc) Hrest). reflexivity.
Qed.

Lemma split_first (sep x rest : string) :
  sep <> "" -> before_first sep x ->
  Js.split (x ++ sep ++ rest) sep = x :: Js.split rest sep.
Proof. intros Hsep Hx. unfold Js.split. now rewrite split_go_first. Qed.

Lemma formatted_reply_parts (t body tail : string) :
  formatted_reply t body tail ->
  exists head,
    Js.split t changelog_mark = [head ++ body; tail]
    /\ last (Js.split (head ++ body) highlights_mark) "" = body.
Proof.
  intros (head & -> & Hhead & Hbody & Hfirst & Htail).
  exists head. split.
  - rewrite <- append_assoc.
    rewrite (split_first changelog_mark (head ++ body) tail);
      [|discriminate|exact Hfirst].
    rewrite (split_absent _ _ Htail). reflexivity.
  - destruct Hhead as [->|(intro & -> & Hintro)].
    + cbn [append]. rewrite (split_absent _ _ Hbody). reflexivity.
    + rewrite append_assoc.
      rewrite (split_first highlights_mark intro body);
        [|discriminate|exact Hintro].
      rewrite (split_absent _ _ Hbody). reflexivity.
Qed.

Lemma parse_formatted_reply (t body tail c : string) :
  formatted_reply t body tail ->
  Summarize.parse_highs t = bullets body
  /\ Summarize.parse_chg t c = Js.or_else (Some (Js.trim tail)) c.
Proof.
  intros Hf. destruct (formatted_reply_parts t body tail Hf)
    as (head & Hparts & Hlast).
  unfold Summarize.parse_highs, Summarize.parse_chg, bullets.
  fold changelog_mark. fold highlights_mark. rewrite Hparts.
  cbn [hd nth]. rewrite Hlast. split; reflexivity.
Qed.

(** X16: when the provider answers in the format of the prompt --
    possibly some text and the highlights delimiter, then a body, the
    changelog delimiter and a tail, each delimiter once at that place --
    and the body holds a bullet line, [aiSummarize] returns a summary
    tagged ["ai"]. Its highlights are the lines of the body that, once
    trimmed, start with a dash and a space, in their order and cut by
    [slice(0, Math.max(3, maxHighlights))], which for a finite
    [maxHighlights] keeps the first max(3, floor maxHighlights) of
    them; bullet lines before the highlights delimiter or after the
    changelog delimiter are not taken, and the heuristic highlights are
    dropped. Its changelog is the trimmed tail, or the heuristic
    changelog when the tail is blank. The lines of the body are its
    pieces between line feeds. *)
Theorem aiSummarize_takes_bullets (cache : Summarize.Cache.t)
    (maxHighlights : Js.JsReal) (weekStr : string) (env : Summarize.Env)
    (net : Eff.Request Summarize.ChatBody -> Eff.FetchResult)
    (h : list string) (c t body tail : string) :
  Summarize.provider env <> "none" ->
  replies (net (Summarize.ai_request cache weekStr env h c)) t ->
  formatted_reply t body tail ->
  bullets body <> [] ->
  Eff.completion
    (Summarize.aiSummarize cache maxHighlights weekStr env net h c)
  = Eff.Normal
      {| Summarize.source := "ai";
         Summarize.highlights :=
           Js.slice_to (bullets body)
             (Js.real_max (Js.Finite 3) maxHighlights);
         Summarize.changelog := Js.or_else (Some (Js.trim tail)) c |}
  /\ (forall q, maxHighlights = Js.Finite q ->
                Js.slice_to (bullets body)
                  (Js.real_max (Js.Finite 3) maxHighlights)
                = firstn (Z.to_nat (Z.max 3 (Qfloor q))) (bullets body))
  /\ Js.join Js.nl (Js.split body Js.nl) = body
  /\ Forall (fun l => ~ In "010"%char (chars l)) (Js.split body Js.nl).
Proof.
  intros Hp (r & j & Hnet & Hok & Hj & Ht & Hne) Hf Hb.
  destruct (parse_formatted_reply t body tail c Hf) as [Hhighs Hchg].
  split; [|split; [|split]].
  - destruct (aiSummarize_run cache maxHighlights weekStr env net h c Hp)
      as (log & warn & Hrun).
    rewrite Hrun, Hnet. unfold Summarize.read_reply.
    rewrite Hok. cbn [negb]. unfold Eff.res_json. rewrite Hj.
    cbn [Eff.bind Eff.ret]. rewrite Ht.
    destruct t as [|a t]; [congruence|]. cbn [Js.truthy_val Js.truthy negb].
    rewrite Hhighs, Hchg.
    destruct (bullets body) as [|b bs]; [congruence|]. reflexivity.
  - intros q ->. destruct (cap_whole q) as (_ & _ & Hct).
    cbn [Js.real_max Js.slice_to]. rewrite Hct.
    apply slice_0_nonneg. lia.
  - apply (split_char_join "010").
  - apply (split_char_free "010").
Qed.

Lemma aiSummarize_takes_bullets_witness :
  bullets example_reply_body = ["- Shipped v2"; "- Fixed the build"]
  /\ Js.trim example_reply_tail = "### me/proj" ++ Js.nl ++ "- v2"
  /\ Eff.completion
       (Summarize.aiSummarize example_cache (Js.Finite 1) "2025-03"
          example_env (replying_provider example_reply)
          ["- a highlight"] "### me/proj")
     = Eff.Normal
         {| Summarize.source := "ai";
            Summarize.highlights :=
              Js.slice_to (bullets example_reply_body)
                (Js.real_max (Js.Finite 3) (Js.Finite 1));
            Summarize.changelog :=
              Js.or_else (Some (Js.trim example_reply_tail))
                "### me/proj" |}.
Proof.
  split; [vm_compute; reflexivity|]. split; [vm_compute; reflexivity|].
  apply (aiSummarize_takes_bullets example_cache (Js.Finite 1) "2025-03"
           example_env (replying_provider example_reply)
           ["- a highlight"] "### me/proj" example_reply
           example_reply_body example_reply_tail).
  - vm_compute. discriminate.
  - eexists. eexists. split; [reflexivity|]. split; [reflexivity|].
    split; [reflexivity|]. split; [reflexivity|].
    vm_compute. discriminate.
  - exists ("- not a highlight" ++ Js.nl ++ "===HIGHLIGHTS===").
    split; [vm_compute; reflexivity|]. split.
    + right. exists ("- not a highlight" ++ Js.nl).
      split; [vm_compute; reflexivity|]. vm_compute. reflexivity.
    + split; [vm_compute; reflexivity|].
      split; vm_compute; reflexivity.
  - vm_compute. discriminate.
Defined.

Lemma truthy_not_empty (s : string) : Js.truthy s = true <-> s <> "".
Proof. destruct s; cbn; split; congruence. Qed.

Lemma truthy_empty (s : string) : Js.truthy s = false <-> s = "".
Proof. destruct s; cbn; split; congruence. Qed.

(** X17: which credential goes where. With an OpenAI key the request
    goes to the OpenAI endpoint (or to [OPENAI_BASE_URL] when that is
    set) and carries the OpenAI key, also when an OpenRouter key is set
    as well; without an OpenAI key it goes to the OpenRouter endpoint
    and carries the OpenRouter key, and [OPENAI_BASE_URL] is ignored.
    Without any key [aiSummarize] returns the heuristic summary without
    a request or any other effect. *)
Theorem ai_request_credentials (cache : Summarize.Cache.t)
    (maxHighlights : Js.JsReal) (weekStr : string) (env : Summarize.Env)
    (net : Eff.Request Summarize.ChatBody -> Eff.FetchResult)
    (h : list string) (c : string) :
  let rq := Summarize.ai_request cache weekStr env h c in
  (Summarize.openaiKey env <> "" ->
   Eff.url rq = Js.or_else (Summarize.OPENAI_BASE_URL env)
                  "https://api.openai.com/v1/chat/completions"
   /\ Eff.headers rq
      = [ ("Content-Type", "application/json");
          ("Accept", "application/json");
          ("Authorization", "Bearer " ++ Summarize.openaiKey env) ])
  /\ (Summarize.openaiKey env = "" ->
      Eff.url rq = "https://openrouter.ai/api/v1/chat/completions"
      /\ Eff.headers rq
         = [ ("Content-Type", "application/json");
             ("Accept", "application/json");
             ("Authorization", "Bearer " ++ Summarize.openrouterKey env) ])
  /\ (Summarize.openaiKey env = "" -> Summarize.openrouterKey env = "" ->
      Summarize.aiSummarize cache maxHighlights weekStr env net h c
      = ([], Eff.Normal (Summarize.heuristic h c)))
  /\ (Summarize.openaiKey env <> "" \/ Summarize.openrouterKey env <> "" ->
      Eff.fetches
        (Eff.trace
           (Summarize.aiSummarize cache maxHighlights weekStr env net h c))
      = [rq]).
Proof.
  intros rq. unfold rq.
  split; [|split; [|split]].
  - intros Hk. apply truthy_not_empty in Hk.
    unfold Summarize.ai_request, Summarize.provider. rewrite Hk.
    split; reflexivity.
  - intros Hk. apply truthy_empty in Hk.
    unfold Summarize.ai_request, Summarize.provider. rewrite Hk.
    destruct (Js.truthy (Summarize.openrouterKey env)); split; reflexivity.
  - intros Hk Hr. apply truthy_empty in Hk, Hr.
    unfold Summarize.aiSummarize, Summarize.provider. rewrite Hk, Hr.
    reflexivity.
  - intros Hkeys.
    assert (Hp : Summarize.provider env <> "none").
    { unfold Summarize.provider.
      destruct (Js.truthy (Summarize.openaiKey env)) eqn:Hk; [discriminate|].
      destruct (Js.truthy (Summarize.openrouterKey env)) eqn:Hr;
        [discriminate|].
      apply truthy_empty in Hk, Hr. tauto. }
    destruct (aiSummarize_run cache maxHighlights weekStr env net h c Hp)
      as (log & warn & Hrun).
    rewrite Hrun.
    destruct (net (Summarize.ai_request cache weekStr env h c)) as [e|r];
      [reflexivity|].
    pose proof (read_reply_trace maxHighlights h c r) as Ht.
    destruct (Summarize.read_reply maxHighlights r h c) as [t [s|e]];
      unfold Eff.trace, Eff.fetches in *; cbn [fst flat_map app] in *.
    + rewrite Ht. reflexivity.
    + rewrite flat_map_app, Ht. reflexivity.
Qed.

(** X18: a dry run of the Digest Builder sends the same requests to the
    provider as a real run: [--dry-run] keeps the files from being
    written, not the call from being made. *)
Theorem dry_run_sends_the_request (Date_getTime : string -> Js.JsNum)
    (now : Z) (cache : Summarize.Cache.t) (maxHighlights : Js.JsReal)
    (weekStr : string) (env : Summarize.Env)
    (net : Eff.Request Summarize.ChatBody -> Eff.FetchResult) :
  Eff.fetches
    (Eff.trace
       (Summarize.main Date_getTime now cache maxHighlights weekStr true
          env net))
  = Eff.fetches
      (Eff.trace
         (Summarize.aiSummarize cache maxHighlights weekStr env net
            (Summarize.buildHeuristicHighlights Date_getTime now cache
               maxHighlights)
            (Summarize.buildHeuristicChangelog Date_getTime now cache)))
  /\ Eff.fetches
       (Eff.trace
          (Summarize.main Date_getTime now cache maxHighlights weekStr false
             env net))
     = Eff.fetches
         (Eff.trace
            (Summarize.main Date_getTime now cache maxHighlights weekStr true
               env net)).
Proof.
  unfold Summarize.main. cbv zeta.
  destruct (Summarize.aiSummarize cache maxHighlights weekStr env net _ _)
    as [t [s|e]];
    unfold Eff.emit, Eff.trace, Eff.fetches;
    cbn [Eff.bind fst flat_map app];
    rewrite ?flat_map_app; cbn [flat_map app];
    rewrite ?app_nil_r; split; reflexivity.
Qed.

(** X19: the week label of a run, which names the two files it writes,
    is either the current week or an argument of the shape of four
    digits, a dash and two digits; such a label holds no slash and no
    dot, so the argument cannot point the files elsewhere. *)
Theorem weekStr_validated (argv : list string) (y m day : Z) (w : string) :
  Summarize.weekStr_of argv y m day = Eff.Normal w ->
  (w = Summarize.fmtWeek y m day \/ week_shape w)
  /\ (week_shape w ->
      ~ In "/"%char (chars w) /\ ~ In "."%char (chars w)).
Proof.
  intros H. split.
  - unfold Summarize.weekStr_of, Summarize.parseWeek in H.
    destruct (Cli.text_of _) as [a|]; [|injection H as <-; now left].
    destruct (negb (Js.truthy a)); [injection H as <-; now left|].
    destruct (Summarize.week_pattern a) eqn:Hp; [|discriminate].
    injection H as <-. right. apply week_pattern_shape. exact Hp.
  - intros (y1 & y2 & y3 & y4 & w1 & w2 & -> & HF).
    assert (Hd : forall c, Summarize.is_digit c = true ->
                           c <> "/"%char /\ c <> "."%char).
    { intros c Hc. split; intros ->; discriminate Hc. }
    repeat match goal with
           | H : Forall _ (_ :: _) |- _ => inversion H; subst; clear H
           end.
    repeat match goal with
           | H : Summarize.is_digit _ = true |- _ => apply Hd in H
           end.
    split; cbn [chars list_ascii_of_string In];
      intros Hin; intuition (try congruence; try discriminate).
Qed.

Lemma weekStr_validated_witness :
  Summarize.weekStr_of ["node"; "summarize"; "--week"; "2025-34"] 2025 0 15
  = Eff.Normal "2025-34"
  /\ ("2025-34" = Summarize.fmtWeek 2025 0 15 \/ week_shape "2025-34").
Proof.
  split; [reflexivity|].
  apply (weekStr_validated
           ["node"; "summarize"; "--week"; "2025-34"] 2025 0 15 "2025-34").
  reflexivity.
Defined.

(** ** The Collector *)

Lemma bind_normal {B A C : Type} (m : Eff.M B A) (k : A -> Eff.M B C)
    (c : C) :
  Eff.completion (Eff.bind m k) = Eff.Normal c ->
  exists a, Eff.completion m = Eff.Normal a
            /\ Eff.completion (k a) = Eff.Normal c.
Proof.
  destruct m as [t [a|e]]; unfold Eff.completion; cbn [Eff.bind snd].
  - destruct (k a) as [t' c'] eqn:Ek. cbn [snd]. intros ->.
    exists a. rewrite Ek. split; reflexivity.
  - discriminate.
Qed.

Lemma writes_app {B : Type} (t t' : list (Eff.Effect B)) :
  Eff.writes (t ++ t') = (Eff.writes t ++ Eff.writes t')%list.
Proof. apply flat_map_app. Qed.

Lemma fetches_app {B : Type} (t t' : list (Eff.Effect B)) :
  Eff.fetches (t ++ t') = (Eff.fetches t ++ Eff.fetches t')%list.
Proof. apply flat_map_app. Qed.

Lemma quiet_bind {B A C : Type} (m : Eff.M B A) (k : A -> Eff.M B C) :
  quiet m -> (forall a, quiet (k a)) -> quiet (Eff.bind m k).
Proof.
  unfold quiet, Eff.trace. intros Hm Hk.
  destruct m as [t [a|e]]; cbn [Eff.bind fst] in *; [|exact Hm].
  specialize (Hk a). destruct (k a) as [t' c]. cbn [fst] in *.
  rewrite writes_app, Hm, Hk. reflexivity.
Qed.

Lemma fetchless_bind {B A C : Type} (m : Eff.M B A) (k : A -> Eff.M B C) :
  fetchless m -> (forall a, fetchless (k a)) -> fetchless (Eff.bind m k).
Proof.
  unfold fetchless, Eff.trace. intros Hm Hk.
  destruct m as [t [a|e]]; cbn [Eff.bind fst] in *; [|exact Hm].
  specialize (Hk a). destruct (k a) as [t' c]. cbn [fst] in *.
  rewrite fetches_app, Hm, Hk. reflexivity.
Qed.

Lemma silent_quiet {A : Type} (m : Eff.M Js.JsVal A) :
  silent m -> quiet m /\ fetchless m.
Proof. unfold silent, quiet, fetchless. intros ->. split; reflexivity. Qed.

Lemma outcome_bind {B A C : Type} (W : list (string * string) -> Prop)
    (m : Eff.M B A) (k : A -> Eff.M B C) :
  quiet m ->
  (forall a, Eff.completion m = Eff.Normal a -> outcome W (k a)) ->
  outcome W (Eff.bind m k).
Proof.
  unfold quiet, outcome, Eff.trace, Eff.completion. intros Hm Hk.
  destruct m as [t [a|e]]; cbn [Eff.bind fst snd] in *; [|exact Hm].
  specialize (Hk a eq_refl). destruct (k a) as [t' c]. cbn [fst snd] in *.
  rewrite writes_app, Hm. exact Hk.
Qed.

Lemma sends_bind {B A C : Type} (l1 l2 : list (Eff.Request B))
    (m : Eff.M B A) (k : A -> Eff.M B C) :
  sends l1 m -> (forall a, sends l2 (k a)) ->
  sends (l1 ++ l2) (Eff.bind m k).
Proof.
  unfold sends, Eff.trace, Eff.completion. intros (r1 & E1 & N1) Hk.
  destruct m as [t [a|e]]; cbn [Eff.bind fst snd] in *.
  - destruct (Hk a) as (r2 & E2 & N2). destruct (k a) as [t' c].
    cbn [fst snd] in *. exists r2. split; [|exact N2].
    rewrite (N1 a eq_refl), app_nil_r in E1. subst l1 l2.
    rewrite fetches_app, app_assoc. reflexivity.
  - exists (r1 ++ l2)%list. split; [|discriminate].
    subst l1. rewrite app_assoc. reflexivity.
Qed.

Lemma sends_skip {B A C : Type} (l : list (Eff.Request B))
    (m : Eff.M B A) (k : A -> Eff.M B C) :
  fetchless m -> (forall a, sends l (k a)) -> sends l (Eff.bind m k).
Proof.
  intros Hm Hk. apply (sends_bind [] l); [|exact Hk].
  exists []. split; [|reflexivity]. rewrite Hm. reflexivity.
Qed.

Lemma sends_first {B A C : Type} (rq : Eff.Request B)
    (l : list (Eff.Request B)) (m : Eff.M B A) (k : A -> Eff.M B C) :
  sends [rq] m -> (forall a, sends l (k a)) -> sends (rq :: l) (Eff.bind m k).
Proof. intros Hm Hk. apply (sends_bind [rq] l); assumption. Qed.

Lemma sends_last {B A C : Type} (l : list (Eff.Request B))
    (m : Eff.M B A) (k : A -> Eff.M B C) :
  sends l m -> (forall a, fetchless (k a)) -> sends l (Eff.bind m k).
Proof.
  intros Hm Hk. rewrite <- (app_nil_r l). apply sends_bind; [exact Hm|].
  intros a. exists []. split; [|reflexivity]. rewrite (Hk a). reflexivity.
Qed.

Lemma fetchless_sends {B A : Type} (m : Eff.M B A) :
  fetchless m -> sends [] m.
Proof.
  intros Hm. exists []. split; [|reflexivity]. rewrite Hm. reflexivity.
Qed.

Lemma mapM_length {B A C : Type} (f : A -> Eff.M B C) (l : list A)
    (ys : list C) :
  Eff.completion (Eff.mapM f l) = Eff.Normal ys -> length ys = length l.
Proof.
  revert ys. induction l as [|x l IH]; intros ys; cbn [Eff.mapM].
  - intros H. injection H as <-. reflexivity.
  - intros H. apply bind_normal in H. destruct H as (y & _ & H).
    apply bind_normal in H. destruct H as (ys' & Hys & H).
    injection H as <-. cbn [length]. f_equal. apply IH. exact Hys.
Qed.

Lemma array_slice_length (v : Js.JsVal) (n : Z) (l : list Js.JsVal) :
  Eff.completion (Fetch.array_slice v (Js.Int n)) = Eff.Normal l ->
  0 <= n -> Z.of_nat (length l) <= n.
Proof.
  destruct v; try discriminate. cbn. intros H Hn. injection H as <-.
  rewrite slice_0_nonneg by exact Hn. rewrite length_firstn. lia.
Qed.

Section Collector.

Variable Number : string -> Js.JsNum.
Variable resetSeconds : Js.JsVal -> Js.JsVal.
Variable JSON_stringify : Js.JsVal -> string.
Variable now : Z.
Variable net : Eff.Request Js.JsVal -> Eff.FetchResult.
Variable limit : Js.JsNum.
Variable dryRun : bool.
Variable token : string.
Variable USE_GRAPHQL : option string.

Lemma ghGet_quiet (url : string) :
  quiet (Fetch.ghGet Number net token url)
  /\ sends [get_request token url] (Fetch.ghGet Number net token url).
Proof.
  unfold quiet, sends. rewrite ghGet_trace. split; [reflexivity|].
  exists []. split; reflexivity.
Qed.

Lemma ghSearchPRs_tail (perPage : Js.JsNum) (r : Js.JsVal * Fetch.Rate) :
  silent (items <- Fetch.prop (fst r) "items" ;;
          sliced <- Fetch.array_slice (Js.or_val items (Js.VArr [])) perPage ;;
          mapped <- Eff.mapM Fetch.pickPR sliced ;;
          Eff.ret (mapped, snd r))%eff.
Proof.
  apply silent_bind; [apply silent_prop|]. intros items.
  apply silent_bind; [apply silent_array_slice|]. intros sliced.
  apply silent_bind; [apply silent_mapM; intros; apply silent_pick|].
  intros mapped. reflexivity.
Qed.

Lemma ghSearchPRs_quiet (author : string) (perPage : Js.JsNum) :
  quiet (Fetch.ghSearchPRs Number net token author perPage)
  /\ sends
       [get_request token
          (Fetch.GH_API ++ "/search/issues?q="
           ++ Js.form_encode ("author:" ++ author ++ " type:pr is:public")
           ++ "&sort=updated&order=desc&per_page="
           ++ Js.form_encode
                (Js.string_of_num (Js.min (Js.Int 100) perPage)))]
       (Fetch.ghSearchPRs Number net token author perPage).
Proof.
  unfold Fetch.ghSearchPRs. cbv zeta. split.
  - apply quiet_bind; [apply ghGet_quiet|]. intros r.
    apply silent_quiet, ghSearchPRs_tail.
  - apply sends_last; [apply ghGet_quiet|]. intros r.
    apply silent_quiet, ghSearchPRs_tail.
Qed.

Lemma ghSearchPRs_length (author : string) (n : Z)
    (res : list Js.JsVal * Fetch.Rate) :
  Eff.completion (Fetch.ghSearchPRs Number net token author (Js.Int n))
  = Eff.Normal res ->
  0 <= n -> Z.of_nat (length (fst res)) <= n.
Proof.
  unfold Fetch.ghSearchPRs. cbv zeta. intros H Hn.
  apply bind_normal in H. destruct H as (r & _ & H).
  apply bind_normal in H. destruct H as (items & _ & H).
  apply bind_normal in H. destruct H as (sliced & Hs & H).
  apply bind_normal in H. destruct H as (mapped & Hm & H).
  injection H as <-. cbn [fst].
  rewrite (mapM_length _ _ _ Hm).
  apply (array_slice_length _ _ _ Hs Hn).
Qed.

Ltac pinned_tail res :=
  destruct (Eff.ok res); cbn [negb]; [|reflexivity];
  apply silent_quiet; apply silent_bind;
  [unfold Eff.res_json; destruct (Eff.json res); reflexivity|];
  intros data; apply silent_bind; [|intros; reflexivity];
  destruct (Js.or_val _ _); try reflexivity;
  apply silent_mapM; intros; apply silent_pick.

Lemma fetchPinnedGraphQL_quiet (author : string) :
  quiet (Fetch.fetchPinnedGraphQL resetSeconds net token USE_GRAPHQL author)
  /\ sends
       (if Fetch.useGraphQL token USE_GRAPHQL
        then [gql_request token author] else [])
       (Fetch.fetchPinnedGraphQL resetSeconds net token USE_GRAPHQL author).
Proof.
  unfold Fetch.fetchPinnedGraphQL.
  destruct (Fetch.useGraphQL token USE_GRAPHQL); cbn [negb].
  - fold (gql_request token author). cbv zeta. split.
    + apply quiet_bind; [reflexivity|]. intros res. pinned_tail res.
    + apply sends_last; [exists []; split; reflexivity|].
      intros res. pinned_tail res.
  - split; [reflexivity|]. exists []. split; reflexivity.
Qed.

Lemma main_outcome (username : string) :
  outcome
    (fun ws => if dryRun then ws = []
               else cache_written JSON_stringify now limit username ws)
    (Fetch.main Number resetSeconds JSON_stringify now net limit dryRun
       token USE_GRAPHQL username).
Proof.
  unfold Fetch.main.
  apply outcome_bind; [reflexivity|]. intros _ _.
  apply outcome_bind; [apply ghGet_quiet|]. intros u _.
  apply outcome_bind; [apply silent_quiet, silent_prop|]. intros login _.
  apply outcome_bind; [reflexivity|]. intros _ _.
  cbv zeta.
  apply outcome_bind; [apply ghGet_quiet|]. intros reposRes _.
  apply outcome_bind; [apply silent_quiet, silent_array_slice|].
  intros reposRaw HreposRaw.
  apply outcome_bind;
    [apply silent_quiet, silent_mapM; intros; apply silent_pick|].
  intros repos Hrepos.
  apply outcome_bind; [apply ghGet_quiet|]. intros eventsRes _.
  apply outcome_bind; [apply silent_quiet, silent_array_slice|].
  intros eventsRaw HeventsRaw.
  apply outcome_bind;
    [apply silent_quiet, silent_mapM; intros; apply silent_pick|].
  intros events Hevents.
  apply outcome_bind; [apply ghSearchPRs_quiet|]. intros prsRes Hprs.
  apply outcome_bind; [apply fetchPinnedGraphQL_quiet|]. intros pinnedRes _.
  destruct dryRun.
  - reflexivity.
  - unfold outcome. cbn.
    exists (Fetch.rate_value (snd reposRes)), repos, events, (fst prsRes),
      (fst pinnedRes).
    split; [reflexivity|]. intros n Hlimit Hn. subst limit.
    rewrite (mapM_length _ _ _ Hrepos), (mapM_length _ _ _ Hevents).
    split; [apply (array_slice_length _ _ _ HreposRaw Hn)|].
    split; [apply (array_slice_length _ _ _ HeventsRaw Hn)|].
    apply (ghSearchPRs_length _ _ _ Hprs Hn).
Qed.

(** X20: the Collector writes its cache file completely or not at all.
    The exit status is 0 or 1; a run that fails (a missing user name, a
    failed or refused request, an unexpected reply) and a dry run write
    no file; a successful real run writes exactly one file, the cache
    document of the given user, in which the lists of repositories,
    events and pull requests are no longer than a non-negative
    limit. *)
Theorem collector_writes_all_or_nothing (username : option string) :
  let run := Fetch.script Number resetSeconds JSON_stringify now net limit
               dryRun token USE_GRAPHQL username in
  (snd run = 0 \/ snd run = 1)
  /\ (snd run = 1 \/ dryRun = true -> Eff.writes (fst run) = [])
  /\ (snd run = 0 -> dryRun = false ->
      exists login,
        username = Some login /\ login <> ""
        /\ cache_written JSON_stringify now limit login
             (Eff.writes (fst run))).
Proof.
  unfold Fetch.script.
  destruct (Js.or_else username "") as [|a login] eqn:Eu.
  - cbn. split; [now right|]. split; [reflexivity|discriminate].
  - assert (Hu : username = Some (String a login)).
    { unfold Js.or_else in Eu. destruct username as [s|]; [|discriminate].
      destruct (Js.truthy s); [now subst|discriminate]. }
    pose proof (main_outcome (String a login)) as Hout.
    unfold outcome, Eff.completion, Eff.trace in Hout.
    destruct (Fetch.main _ _ _ _ _ _ _ _ _ _) as [t [[]|e]];
      cbn [fst snd] in *.
    + split; [now left|]. split.
      * intros [H|H]; [discriminate|]. rewrite H in Hout. exact Hout.
      * intros _ Hd. rewrite Hd in Hout.
        exists (String a login). repeat split; [exact Hu|discriminate|].
        exact Hout.
    + split; [now right|]. split; [|discriminate].
      intros _. rewrite writes_app, Hout. reflexivity.
Qed.

Lemma main_sends (username : string) :
  sends (collector_requests token limit USE_GRAPHQL username)
    (Fetch.main Number resetSeconds JSON_stringify now net limit dryRun
       token USE_GRAPHQL username).
Proof.
  unfold Fetch.main, collector_requests. cbv zeta. cbn [app].
  apply sends_skip; [reflexivity|]. intros _.
  apply sends_first; [apply ghGet_quiet|]. intros u.
  apply sends_skip; [apply silent_quiet, silent_prop|]. intros login.
  apply sends_skip; [reflexivity|]. intros _.
  apply sends_first; [apply ghGet_quiet|]. intros reposRes.
  apply sends_skip; [apply silent_quiet, silent_array_slice|].
  intros reposRaw.
  apply sends_skip;
    [apply silent_quiet, silent_mapM; intros; apply silent_pick|].
  intros repos.
  apply sends_first; [apply ghGet_quiet|]. intros eventsRes.
  apply sends_skip; [apply silent_quiet, silent_array_slice|].
  intros eventsRaw.
  apply sends_skip;
    [apply silent_quiet, silent_mapM; intros; apply silent_pick|].
  intros events.
  apply sends_first; [apply ghSearchPRs_quiet|]. intros prsRes.
  apply sends_last; [apply fetchPinnedGraphQL_quiet|]. intros pinnedRes.
  destruct dryRun; reflexivity.
Qed.

(** X21: the Collector sends its requests one after the other in a
    fixed order: the user, the repositories, the public events, the
    pull-request search, and then the GraphQL query when it is enabled.
    A run that completes has sent exactly these; a run that fails has
    sent the first few of them and nothing after the request that
    failed. No run sends more than five requests. *)
Theorem collector_requests_in_order (username : string) :
  sends (collector_requests token limit USE_GRAPHQL username)
    (Fetch.main Number resetSeconds JSON_stringify now net limit dryRun
       token USE_GRAPHQL username)
  /\ (length
        (Eff.fetches
           (Eff.trace
              (Fetch.main Number resetSeconds JSON_stringify now net limit
                 dryRun token USE_GRAPHQL username))) <= 5)%nat
  /\ (Fetch.useGraphQL token USE_GRAPHQL = true
      <-> token <> "" /\ USE_GRAPHQL = Some "1").
Proof.
  pose proof (main_sends username) as Hs. split; [exact Hs|]. split.
  - destruct Hs as (rest & E & _).
    apply (f_equal (@length _)) in E. rewrite length_app in E.
    unfold collector_requests in E. cbv zeta in E.
    rewrite length_app in E. cbn [length] in E.
    destruct (Fetch.useGraphQL token USE_GRAPHQL); cbn [length] in E; lia.
  - unfold Fetch.useGraphQL. rewrite andb_true_iff, truthy_not_empty.
    destruct USE_GRAPHQL as [v|].
    + rewrite String.eqb_eq. split; intros [H1 H2]; split; congruence.
    + split; intros [H1 H2]; discriminate.
Qed.

(** X22: the GraphQL query is optional and only half tolerant. Without
    a token or without [USE_GRAPHQL=1] nothing is sent and the pinned
    list is empty. When the query is sent and the reply has an error
    status, a warning is printed and the pinned list is empty; but a
    rejected request or a reply whose body does not parse makes
    [fetchPinnedGraphQL] throw, which ends the whole run. *)
Theorem fetchPinnedGraphQL_best_effort (author : string) :
  (Fetch.useGraphQL token USE_GRAPHQL = false ->
   Fetch.fetchPinnedGraphQL resetSeconds net token USE_GRAPHQL author
   = ([], Eff.Normal ([], Js.Undefined)))
  /\ (Fetch.useGraphQL token USE_GRAPHQL = true ->
      forall r, net (gql_request token author) = Eff.Resolved r ->
                Eff.ok r = false ->
      Fetch.fetchPinnedGraphQL resetSeconds net token USE_GRAPHQL author
      = ([ Eff.Fetch (gql_request token author);
           Eff.ConsoleWarn ("⚠️ GraphQL falhou: " ++ Eff.text r) ],
         Eff.Normal ([], Js.Undefined)))
  /\ (Fetch.useGraphQL token USE_GRAPHQL = true ->
      forall e, net (gql_request token author) = Eff.Rejected e ->
      Fetch.fetchPinnedGraphQL resetSeconds net token USE_GRAPHQL author
      = ([Eff.Fetch (gql_request token author)], Eff.Throw e))
  /\ (Fetch.useGraphQL token USE_GRAPHQL = true ->
      forall r, net (gql_request token author) = Eff.Resolved r ->
                Eff.ok r = true -> Eff.json r = None ->
      thrown
        (Eff.completion
           (Fetch.fetchPinnedGraphQL resetSeconds net token USE_GRAPHQL
              author))
      = Some (Eff.SyntaxError "Unexpected token in JSON")).
Proof.
  unfold Fetch.fetchPinnedGraphQL. fold (gql_request token author).
  split; [|split; [|split]].
  - intros ->. reflexivity.
  - intros -> r Hnet Hok. cbn [negb]. unfold Eff.fetch. rewrite Hnet.
    cbn [Eff.bind]. rewrite Hok. reflexivity.
  - intros -> e Hnet. cbn [negb]. unfold Eff.fetch. rewrite Hnet.
    reflexivity.
  - intros -> r Hnet Hok Hj. cbn [negb]. unfold Eff.fetch. rewrite Hnet.
    cbn [Eff.bind]. rewrite Hok. cbn [negb]. unfold Eff.res_json.
    rewrite Hj. reflexivity.
Qed.

(** X23: what [ghGet] makes of a reply, besides the rate-limit error of
    an exhausted quota. It sends one GET request, which carries the
    token exactly when there is one. A rejected request throws its
    error. A reply without the header of the remaining calls counts as
    an exhausted quota, whatever its status. With calls remaining, an
    error status throws an error that names the status, the URL and the
    body; a success status returns the parsed body together with the
    three numbers of the rate headers. *)
Theorem ghGet_outcomes (url : string) :
  Eff.trace (Fetch.ghGet Number net token url)
  = [Eff.Fetch (get_request token url)]
  /\ (forall v, In ("Authorization", v) (Eff.headers (get_request token url))
                <-> token <> "" /\ v = "Bearer " ++ token)
  /\ (forall e, net (get_request token url) = Eff.Rejected e ->
      Eff.completion (Fetch.ghGet Number net token url) = Eff.Throw e)
  /\ (forall r, net (get_request token url) = Eff.Resolved r ->
      Number "0" = Js.Int 0 ->
      Eff.header r "x-ratelimit-remaining" = None ->
      Eff.completion (Fetch.ghGet Number net token url)
      = Eff.Throw (rate_limit_error Number r))
  /\ (forall r, net (get_request token url) = Eff.Resolved r ->
      Js.le (Fetch.header_number Number r "x-ratelimit-remaining")
        (Js.Int 0) = false ->
      Eff.ok r = false ->
      Eff.completion (Fetch.ghGet Number net token url)
      = Eff.Throw
          (Eff.Error ("Falha " ++ Js.string_of_Z (Eff.status r) ++ " em "
                      ++ url ++ ": " ++ Eff.text r)))
  /\ (forall r j, net (get_request token url) = Eff.Resolved r ->
      Js.le (Fetch.header_number Number r "x-ratelimit-remaining")
        (Js.Int 0) = false ->
      Eff.ok r = true -> Eff.json r = Some j ->
      Eff.completion (Fetch.ghGet Number net token url)
      = Eff.Normal
          (j, {| Fetch.rate_limit :=
                   Fetch.header_number Number r "x-ratelimit-limit";
                 Fetch.remaining :=
                   Fetch.header_number Number r "x-ratelimit-remaining";
                 Fetch.reset :=
                   Fetch.header_number Number r "x-ratelimit-reset" |})).
Proof.
  split; [apply ghGet_trace|]. split.
  { intros v. unfold get_request, Fetch.headers. cbn [Eff.headers].
    rewrite <- truthy_not_empty.
    destruct (Js.truthy token); cbn [app In]; split.
    - intros [H|[H|[H|[H|[]]]]]; try discriminate H.
      injection H as <-. split; reflexivity.
    - intros [_ ->]. tauto.
    - intros [H|[H|[H|[]]]]; discriminate H.
    - intros [H _]. discriminate H. }
  split.
  { intros e Hnet. unfold Fetch.ghGet, Eff.fetch, Eff.completion.
    fold (get_request token url). rewrite Hnet. reflexivity. }
  split.
  { intros r Hnet H0 Hh. apply ghGet_exhausted. split; [exact Hnet|].
    unfold Fetch.header_number. rewrite Hh. cbn [Js.or_else].
    rewrite H0. reflexivity. }
  split.
  - intros r Hnet Hrem Hok. unfold Fetch.ghGet, Eff.fetch, Eff.completion.
    fold (get_request token url). rewrite Hnet. cbn [Eff.bind].
    rewrite Hrem, Hok. reflexivity.
  - intros r j Hnet Hrem Hok Hj.
    unfold Fetch.ghGet, Eff.fetch, Eff.completion.
    fold (get_request token url). rewrite Hnet. cbn [Eff.bind].
    rewrite Hrem, Hok. cbn [negb]. unfold Eff.res_json. rewrite Hj.
    reflexivity.
Qed.

End Collector.

Lemma collector_writes_all_or_nothing_witness :
  snd (Fetch.script Js.decimalNumber stand_in_reset stand_in_json example_now
         (example_github "59") (Js.Int 60) false "" None (Some "me")) = 0
  /\ exists login,
       Some "me" = Some login /\ login <> ""
       /\ cache_written stand_in_json example_now (Js.Int 60) login
            (Eff.writes
               (fst (Fetch.script Js.decimalNumber stand_in_reset
                       stand_in_json example_now (example_github "59")
                       (Js.Int 60) false "" None (Some "me")))).
Proof.
  split; [vm_compute; reflexivity|].
  apply (proj2 (proj2 (collector_writes_all_or_nothing Js.decimalNumber
                         stand_in_reset stand_in_json example_now
                         (example_github "59") (Js.Int 60) false "" None
                         (Some "me")))).
  - vm_compute. reflexivity.
  - reflexivity.
Defined.

(** ** The status endpoint (api.json.ts) *)

Lemma summarize_cases (c : Js.JsVal) :
  ((c = Js.Null \/ c = Js.Undefined) /\ ApiJson.summarize c = None)
  \/ (c <> Js.Null /\ c <> Js.Undefined
      /\ ApiJson.summarize c
         = Some (Js.VObj
                   [ ("exists", Js.VBool true);
                     ("user", Js.get c "user");
                     ("fetchedAt", Js.get c "fetchedAt");
                     ("repos", ApiJson.count (Js.get c "repos"));
                     ("events", ApiJson.count (Js.get c "events"));
                     ("prs", ApiJson.count (Js.get c "prs")) ])).
Proof.
  destruct c;
    try (right; split; [discriminate|]; split; [discriminate|reflexivity]).
  - left. split; [now right|reflexivity].
  - left. split; [now left|reflexivity].
Qed.

(** X24: what the status endpoint reports about the cache file. Without
    the file it reports that the cache does not exist. It reports that
    the cache exists exactly when the file is there and parses to a
    value other than [null]; a file that does not parse, or that holds
    [null], is reported as invalid. For a cache that exists, each of the
    three counts is the length of the list of that name, and 0 when the
    cache has no such property or the property is [null]. *)
Theorem cache_status_cases (JSON_parse : string -> option Js.JsVal)
    (file : option string) :
  (file = None -> ApiJson.cache_status JSON_parse file = ApiJson.absent)
  /\ (Js.get (ApiJson.cache_status JSON_parse file) "exists" = Js.VBool true
      <-> exists text c, file = Some text /\ JSON_parse text = Some c
                         /\ c <> Js.Null /\ c <> Js.Undefined)
  /\ (ApiJson.cache_status JSON_parse file = ApiJson.invalid
      <-> exists text, file = Some text
                       /\ (JSON_parse text = None
                           \/ JSON_parse text = Some Js.Null
                           \/ JSON_parse text = Some Js.Undefined))
  /\ (forall text c k,
        file = Some text -> JSON_parse text = Some c ->
        c <> Js.Null -> c <> Js.Undefined ->
        In k ["repos"; "events"; "prs"] ->
        (forall items, Js.get c k = Js.VArr items ->
                       Js.get (ApiJson.cache_status JSON_parse file) k
                       = Js.VNum (Js.Int (Z.of_nat (length items))))
        /\ (Js.get c k = Js.Undefined \/ Js.get c k = Js.Null ->
            Js.get (ApiJson.cache_status JSON_parse file) k
            = Js.VNum (Js.Int 0))).
Proof.
  unfold ApiJson.cache_status.
  split; [intros ->; reflexivity|]. split; [|split].
  - destruct file as [text|].
    + destruct (JSON_parse text) as [c|] eqn:Ep.
      * destruct (summarize_cases c) as [[Hc Hs]|(Hn & Hu & Hs)]; rewrite Hs.
        -- split; [discriminate|].
           intros (t & c' & Ef & Ec & Hn & Hu). injection Ef as <-.
           rewrite Ep in Ec. injection Ec as <-. tauto.
        -- split; [|reflexivity]. intros _. exists text, c. tauto.
      * split; [discriminate|].
        intros (t & c & Ef & Ec & _). injection Ef as <-. congruence.
    + split; [discriminate|]. intros (t & c & Ef & _). discriminate.
  - destruct file as [text|].
    + destruct (JSON_parse text) as [c|] eqn:Ep.
      * destruct (summarize_cases c) as [[Hc Hs]|(Hn & Hu & Hs)]; rewrite Hs.
        -- split; [|reflexivity]. intros _. exists text.
           split; [reflexivity|]. rewrite Ep.
           destruct Hc as [-> | ->]; tauto.
        -- split; [discriminate|].
           intros (t & Ef & H). injection Ef as <-. rewrite Ep in H.
           destruct H as [H|[H|H]]; [discriminate| |];
             injection H as ->; congruence.
      * split; [|reflexivity]. intros _. exists text. tauto.
    + split; [discriminate|]. intros (t & Ef & _). discriminate.
  - intros text c k -> Ep Hn Hu Hk. rewrite Ep.
    destruct (summarize_cases c) as [[Hc Hs]|(_ & _ & Hs)]; [tauto|].
    rewrite Hs.
    assert (Hget : Js.get
                     (Js.VObj
                        [ ("exists", Js.VBool true);
                          ("user", Js.get c "user");
                          ("fetchedAt", Js.get c "fetchedAt");
                          ("repos", ApiJson.count (Js.get c "repos"));
                          ("events", ApiJson.count (Js.get c "events"));
                          ("prs", ApiJson.count (Js.get c "prs")) ]) k
                   = ApiJson.count (Js.get c k)).
    { destruct Hk as [<-|[<-|[<-|[]]]]; reflexivity. }
    rewrite Hget. split.
    + intros items ->. reflexivity.
    + intros [-> | ->]; reflexivity.
Qed.

(** ** The fallback renderer (renderMarkdownString) *)

Lemma escape_char_cases (a : ascii) :
  (a = "&"%char /\ escape_char a = chars "&amp;")
  \/ (a = "<"%char /\ escape_char a = chars "&lt;")
  \/ (a = ">"%char /\ escape_char a = chars "&gt;")
  \/ (a <> "&"%char /\ escape_char a = [a]).
Proof.
  unfold escape_char.
  destruct (Ascii.eqb_spec a "&") as [->|Hamp]; [now left|].
  destruct (Ascii.eqb_spec a "<") as [->|Hlt]; [right; now left|].
  destruct (Ascii.eqb_spec a ">") as [->|Hgt]; [right; right; now left|].
  right. right. right. split; [exact Hamp|reflexivity].
Qed.

Lemma escape_char_inj (a b : ascii) (r1 r2 : list ascii) :
  (escape_char a ++ r1 = escape_char b ++ r2)%list -> a = b /\ r1 = r2.
Proof.
  destruct (escape_char_cases a) as [[-> Ea]|[[-> Ea]|[[-> Ea]|[Ha Ea]]]];
    destruct (escape_char_cases b) as [[-> Eb]|[[-> Eb]|[[-> Eb]|[Hb Eb]]]];
    rewrite Ea; try rewrite Eb; cbn; intros H;
    try discriminate H;
    injection H; intros; subst; try congruence; split; reflexivity.
Qed.

Lemma escape_char_not_nil (a : ascii) : escape_char a <> [].
Proof.
  destruct (escape_char_cases a) as [[_ E]|[[_ E]|[[_ E]|[_ E]]]];
    rewrite E; discriminate.
Qed.

Lemma flat_map_escape_inj (l1 l2 : list ascii) :
  flat_map escape_char l1 = flat_map escape_char l2 -> l1 = l2.
Proof.
  revert l2. induction l1 as [|a l1 IH]; intros [|b l2]; cbn [flat_map].
  - reflexivity.
  - intros H. symmetry in H. apply app_eq_nil in H.
    destruct H as [H _]. now apply escape_char_not_nil in H.
  - intros H. apply app_eq_nil in H.
    destruct H as [H _]. now apply escape_char_not_nil in H.
  - intros H. apply escape_char_inj in H. destruct H as [-> H].
    f_equal. apply IH. exact H.
Qed.

Lemma chars_inj (s t : string) : chars s = chars t -> s = t.
Proof.
  unfold chars. intros H.
  rewrite <- (string_of_list_ascii_of_string s).
  rewrite <- (string_of_list_ascii_of_string t).
  now rewrite H.
Qed.

(** X25: the escaping loses nothing: two texts are rendered alike only
    when they are the same text, so the text can be read back from the
    rendered page. *)
Theorem renderMarkdownString_injective (a b : string) :
  RenderMarkdown.renderMarkdownString a = RenderMarkdown.renderMarkdownString b
  <-> a = b.
Proof.
  split; [|intros ->; reflexivity].
  unfold RenderMarkdown.renderMarkdownString. intros H.
  apply (f_equal chars) in H. rewrite !chars_app in H.
  apply app_inv_head in H. apply app_inv_tail in H.
  rewrite !escape_chars in H.
  apply chars_inj, flat_map_escape_inj, H.
Qed.
